(** * context-slicer: the budget-fitting context packer, embedded in Rocq

    A shallow embedding of the JavaScript sources [config.js], [defaults.js],
    [model.js], [preset.js], [packer.js], [vscode_detect.js],
    [focus_auto.js], [cli.js] and [sea_main.js], then a reader for the XML
    the packer writes and the notions the properties are stated with, then
    the properties.

    Conventions of the embedding.
    - A JavaScript string is a [string]; one [ascii] stands for one code unit
      (the Latin-1 range), so [length] is the JavaScript [length].
    - A JavaScript number is a double: a rational ([Q]) for the finite ones,
      [-0], the two infinities and [NaN] apart.  A product or a quotient is
      rounded to the nearest double, ties to even.  Byte sizes and counters,
      which the code only ever adds up, are [Z].
    - An object lists its own properties in the order JavaScript enumerates
      them (array indices ascending, then the other keys as inserted); an
      object whose prototype was replaced carries the new prototype.
    - [undefined]/[null] are [None]; an exception is an error result.
    - Functions of Node and of the npm libraries ([path.join], [path.relative],
      [fast-glob], [ignore], [JSON.stringify], number printing) are fields
      of the [Host] class; what the operating system holds besides the file
      tree (the environment, [sqlite3], the random numbers) is in the
      [World]. *)

From Stdlib Require Import String Ascii List Bool Arith ZArith QArith Qround Qminmax Lia.
From Stdlib Require Import DecimalString Permutation.
Import ListNotations.

Local Open Scope list_scope.
Local Open Scope string_scope.

#[local] Set Warnings "-register-all".

(* ================================================================== *)
(** * JavaScript string primitives *)
(* ================================================================== *)

Module JsString.

(** White space as [String.prototype.trim] and the regular expression
    class [\s] see it, within the Latin-1 range: TAB, LF, VT, FF, CR,
    SPACE and NBSP. *)
Definition isSpace (c : ascii) : bool :=
  let n := N_of_ascii c in
  ((9 <=? n) && (n <=? 13) || (n =? 32) || (n =? 160))%N.

Definition lowerChar (c : ascii) : ascii :=
  let n := N_of_ascii c in
  if ((65 <=? n) && (n <=? 90)
      || (192 <=? n) && (n <=? 222) && negb (n =? 215))%N
  then ascii_of_N (n + 32) else c.

Fixpoint toLowerCase (s : string) : string :=
  match s with
  | EmptyString => EmptyString
  | String c s' => String (lowerChar c) (toLowerCase s')
  end.

Fixpoint trimStart (s : string) : string :=
  match s with
  | EmptyString => EmptyString
  | String c s' => if isSpace c then trimStart s' else s
  end.

Fixpoint trimEnd (s : string) : string :=
  match s with
  | EmptyString => EmptyString
  | String c s' =>
      match trimEnd s' with
      | EmptyString => if isSpace c then EmptyString else String c EmptyString
      | t => String c t
      end
  end.

Definition trim (s : string) : string := trimEnd (trimStart s).

(** [s.slice(n)] for [0 <= n]. *)
Fixpoint slice (n : nat) (s : string) : string :=
  match n, s with
  | O, _ => s
  | S _, EmptyString => EmptyString
  | S k, String _ s' => slice k s'
  end.

Definition startsWith (s p : string) : bool := prefix p s.

Definition isEmpty (s : string) : bool :=
  match s with EmptyString => true | _ => false end.

(** [s.split(sep)[0]] for a non-empty separator: the text before the
    first occurrence of [sep], or all of [s] when there is none. *)
Fixpoint splitHead (sep s : string) : string :=
  if prefix sep s then EmptyString
  else match s with
       | EmptyString => EmptyString
       | String c s' => String c (splitHead sep s')
       end.

(** [s.replaceAll(pat, rep)] for a non-empty literal [pat] (every call
    site passes a literal): matches are found left to right and do not
    overlap.  [skip] counts the code units of a match still to be
    dropped. *)
Fixpoint replaceFrom (pat rep : string) (skip : nat) (s : string) : string :=
  match s with
  | EmptyString => EmptyString
  | String c s' =>
      match skip with
      | S k => replaceFrom pat rep k s'
      | O =>
          if prefix pat s
          then rep ++ replaceFrom pat rep (String.length pat - 1) s'
          else String c (replaceFrom pat rep O s')
      end
  end.

Definition replaceAll (pat rep s : string) : string := replaceFrom pat rep O s.

(** [s.replace(/\s+/g, rep)] and [s.replace(/--+/g, "-")] are both of the
    shape "every maximal run of code units satisfying [p] becomes [rep]"
    (a run of a single hyphen is replaced by itself). *)
Fixpoint collapseRuns (p : ascii -> bool) (rep : string) (inRun : bool)
         (s : string) : string :=
  match s with
  | EmptyString => EmptyString
  | String c s' =>
      if p c
      then if inRun then collapseRuns p rep true s'
           else rep ++ collapseRuns p rep true s'
      else String c (collapseRuns p rep false s')
  end.

Definition isHyphen (c : ascii) : bool := Ascii.eqb c "-"%char.

(** The line feed and the double quote, as one-unit strings. *)
Definition newline : string := String "010"%char EmptyString.
Definition dquote : string := String "034"%char EmptyString.

(** [s.includes(sub)]. *)
Fixpoint includes (s sub : string) : bool :=
  prefix sub s ||
  match s with
  | EmptyString => false
  | String _ s' => includes s' sub
  end.

(** [s.split(/\r?\n/)]. A carriage return right before a line feed
    belongs to the separator. *)
Fixpoint splitLines (s : string) : list string :=
  match s with
  | EmptyString => [EmptyString]
  | String c s' =>
      if Ascii.eqb c "010"%char then EmptyString :: splitLines s'
      else if Ascii.eqb c "013"%char && prefix (String "010"%char EmptyString) s'
      then splitLines s'
      else match splitLines s' with
           | l :: ls => String c l :: ls
           | [] => [String c EmptyString]
           end
  end.

(** [String.prototype.join] on an array of strings. *)
Definition join (sep : string) (parts : list string) : string :=
  String.concat sep parts.

(** [s[n]]: the code unit at [n] as a string, when there is one. *)
Fixpoint charAt (n : nat) (s : string) : option string :=
  match s, n with
  | EmptyString, _ => None
  | String c _, O => Some (String c EmptyString)
  | String _ s', S k => charAt k s'
  end.

End JsString.

(* ================================================================== *)
(** * JavaScript numbers *)
(* ================================================================== *)

Module Double.

(** The doubles that are no rationals, or, for [-0], not the rational
    they equal. *)
Inductive SpecialNumber : Type :=
| NegZero
| PosInfinity
| NegInfinity
| NaN.

(** [Finite q] is the double of value [q]; [+0] when [q == 0]. *)
Inductive Num : Type :=
| Finite (q : Q)
| Special (s : SpecialNumber).

(** [2^e] *)
Definition pow2 (e : Z) : Q :=
  match e with
  | Zneg p => 1 # (2 ^ p)%positive
  | _ => inject_Z (2 ^ e)
  end.

(** The exponent [e] with [2^e <= q < 2^(e+1)], for [0 < q]. *)
Definition binade (q : Q) : Z :=
  let e0 := (Z.log2 (Qnum q) - Z.log2 (Zpos (Qden q)))%Z in
  if Qle_bool (pow2 e0) q then e0 else (e0 - 1)%Z.

(** The nearest integer, a tie going to the even one. *)
Definition nearestEven (q : Q) : Z :=
  let f := Qfloor q in
  match Qcompare (q - inject_Z f) (1 # 2) with
  | Lt => f
  | Gt => (f + 1)%Z
  | Eq => if Z.even f then f else (f + 1)%Z
  end.

Definition overflowThreshold : Q := pow2 1024 - pow2 970.

(** Rounding [0 < q] below the overflow threshold to 53 significant
    bits, the exponent not below that of the subnormal doubles. *)
Definition roundMagnitude (q : Q) : Q :=
  let e := Z.max (binade q) (-1022) in
  let ulp := pow2 (e - 52) in
  inject_Z (nearestEven (q / ulp)) * ulp.

(** The double nearest to the real number [q] (IEEE 754 binary64,
    round to nearest, ties to even). *)
Definition round (q : Q) : Num :=
  match Qcompare q 0 with
  | Eq => Finite 0
  | Gt => if Qle_bool overflowThreshold q then Special PosInfinity
          else Finite (roundMagnitude q)
  | Lt => if Qle_bool overflowThreshold (- q) then Special NegInfinity
          else let r := roundMagnitude (- q) in
               if Qeq_bool r 0 then Special NegZero else Finite (- r)
  end.

Definition negative (q : Q) : bool := negb (Qle_bool 0 q).

(** [x * y] for two finite doubles other than [-0]. *)
Definition mul (x y : Q) : Num :=
  if Qeq_bool (x * y) 0
  then if negative x || negative y then Special NegZero else Finite 0
  else round (x * y).

(** [n / d] for an integer [n] that is a double. *)
Definition div (n : Z) (d : Num) : Num :=
  match d with
  | Finite q =>
      if Qeq_bool q 0 then
        match n with
        | Z0 => Special NaN
        | Zpos _ => Special PosInfinity
        | Zneg _ => Special NegInfinity
        end
      else
        match n with
        | Z0 => if negative q then Special NegZero else Finite 0
        | _ => round (inject_Z n / q)
        end
  | Special NegZero =>
      match n with
      | Z0 => Special NaN
      | Zpos _ => Special NegInfinity
      | Zneg _ => Special PosInfinity
      end
  | Special PosInfinity =>
      match n with
      | Zneg _ => Special NegZero
      | _ => Finite 0
      end
  | Special NegInfinity =>
      match n with
      | Zneg _ => Finite 0
      | _ => Special NegZero
      end
  | Special NaN => Special NaN
  end.

(** [Math.floor] and [Math.ceil]. *)
Definition floor (x : Num) : Num :=
  match x with
  | Finite q => Finite (inject_Z (Qfloor q))
  | Special s => Special s
  end.

Definition ceil (x : Num) : Num :=
  match x with
  | Finite q =>
      if (Qceiling q =? 0)%Z && negative q then Special NegZero
      else Finite (inject_Z (Qceiling q))
  | Special s => Special s
  end.

(** [x <= y] for a finite [y]. *)
Definition lessEq (x : Num) (y : Q) : bool :=
  match x with
  | Finite q => Qle_bool q y
  | Special NegZero => Qle_bool 0 y
  | Special NegInfinity => true
  | Special PosInfinity | Special NaN => false
  end.

End Double.

(* ================================================================== *)
(** * JavaScript values as JSON documents *)
(* ================================================================== *)

Module Json.
Import Double.

(** A value [JSON.parse] returns, or one the code builds from such
    values.  The [fields] of an object are its own enumerable
    properties, in the order [Object.keys] and [Object.entries] give
    them.  [JObj] is an object whose prototype is [Object.prototype];
    [JProto proto fields] is an object whose prototype an assignment to
    [__proto__] replaced by [proto] ([null], an array or an object).
    [JNum q] is a finite double, [+0] when [q == 0]. *)
Inductive JValue : Type :=
| JNull
| JBool (b : bool)
| JNum (q : Q)
| JStr (s : string)
| JArr (items : list JValue)
| JObj (fields : list (string * JValue))
| JSpecial (s : SpecialNumber)
| JProto (proto : JValue) (fields : list (string * JValue)).

Fixpoint getOwn (k : string) (fields : list (string * JValue)) : option JValue :=
  match fields with
  | [] => None
  | (k', v) :: rest => if String.eqb k k' then Some v else getOwn k rest
  end.

Definition keys (fields : list (string * JValue)) : list string := map fst fields.

Definition isDigit (c : ascii) : bool :=
  let n := N_of_ascii c in ((48 <=? n) && (n <=? 57))%N.

Fixpoint digitsValue (acc : N) (s : string) : option N :=
  match s with
  | EmptyString => Some acc
  | String c s' =>
      if isDigit c then digitsValue (acc * 10 + (N_of_ascii c - 48)) s' else None
  end.

(** A key that is an array index: the decimal numeral, without leading
    zero, of an integer below [2^32 - 1]. *)
Definition arrayIndex (k : string) : option N :=
  match k with
  | EmptyString => None
  | String c rest =>
      if Ascii.eqb c "0"%char && negb (JsString.isEmpty rest) then None
      else match digitsValue 0 k with
           | Some n => if (n <=? 4294967294)%N then Some n else None
           | None => None
           end
  end.

(** [String(n)] for an index. *)
Definition indexKey (n : nat) : string := NilZero.string_of_uint (Nat.to_uint n).

(** Replacing the value of a key that is there. *)
Fixpoint replaceOwn (k : string) (v : JValue) (fields : list (string * JValue))
  : list (string * JValue) :=
  match fields with
  | [] => []
  | (k', v') :: rest =>
      if String.eqb k k' then (k, v) :: rest else (k', v') :: replaceOwn k v rest
  end.

(** A new array index goes among the array indices, in ascending
    order. *)
Fixpoint insertIndex (n : N) (k : string) (v : JValue) (fields : list (string * JValue))
  : list (string * JValue) :=
  match fields with
  | [] => [(k, v)]
  | (k', v') :: rest =>
      match arrayIndex k' with
      | Some n' =>
          if (n' <? n)%N then (k', v') :: insertIndex n k v rest
          else (k, v) :: fields
      | None => (k, v) :: fields
      end
  end.

(** Defining the own property [k]: a key that is there keeps its place,
    a new array index goes among the array indices, any other new key
    goes last. *)
Definition setOwn (k : string) (v : JValue) (fields : list (string * JValue))
  : list (string * JValue) :=
  match getOwn k fields with
  | Some _ => replaceOwn k v fields
  | None =>
      match arrayIndex k with
      | Some n => insertIndex n k v fields
      | None => (fields ++ [(k, v)])%list
      end
  end.

(** [x[k]]: an own property, or one inherited from a replaced
    prototype; the elements and the [length] of an array, the code units
    and the [length] of a string.  What is inherited from the built-in
    prototypes (methods, which are functions) is not a value of the
    embedding and reads as [None]. *)
Fixpoint getProperty (x : JValue) (k : string) : option JValue :=
  match x with
  | JObj fields => getOwn k fields
  | JProto proto fields =>
      match getOwn k fields with
      | Some v => Some v
      | None => getProperty proto k
      end
  | JArr items =>
      match arrayIndex k with
      | Some n => nth_error items (N.to_nat n)
      | None =>
          if String.eqb k "length"
          then Some (JNum (inject_Z (Z.of_nat (List.length items))))
          else None
      end
  | JStr s =>
      match arrayIndex k with
      | Some n =>
          match JsString.charAt (N.to_nat n) s with
          | Some c => Some (JStr c)
          | None => None
          end
      | None =>
          if String.eqb k "length"
          then Some (JNum (inject_Z (Z.of_nat (String.length s))))
          else None
      end
  | _ => None
  end.

(** [x[k]] read through [?.] or under [??]: [undefined] and [null] are
    both [None]. *)
Definition prop (x : JValue) (k : string) : option JValue :=
  match getProperty x k with
  | Some JNull => None
  | r => r
  end.

(** [x?.[k]]. *)
Definition optProp (x : option JValue) (k : string) : option JValue :=
  match x with
  | Some v => prop v k
  | None => None
  end.

(** [a ?? b]. *)
Definition orElse {A : Type} (a : option A) (b : A) : A :=
  match a with Some v => v | None => b end.

Definition truthy (v : JValue) : bool :=
  match v with
  | JNull => false
  | JBool b => b
  | JNum q => negb (Qeq_bool q 0)
  | JSpecial NegZero | JSpecial NaN => false
  | JSpecial _ => true
  | JStr s => negb (JsString.isEmpty s)
  | JArr _ | JObj _ | JProto _ _ => true
  end.

(** The order in which JavaScript enumerates own keys: the array
    indices in ascending order, then the other keys as they stand.  On
    the fields of an object kept in that order it changes nothing. *)
Fixpoint insertKey (n : N) (k : string) (sorted : list (N * string))
  : list (N * string) :=
  match sorted with
  | [] => [(n, k)]
  | (m, k') :: rest =>
      if (n <? m)%N then (n, k) :: sorted else (m, k') :: insertKey n k rest
  end.

Definition indexKeys (ks : list string) : list (N * string) :=
  fold_left (fun sorted k => match arrayIndex k with
                             | Some n => insertKey n k sorted
                             | None => sorted
                             end) ks [].

Definition enumerated (ks : list string) : list string :=
  (map snd (indexKeys ks)
   ++ filter (fun k => match arrayIndex k with Some _ => false | None => true end) ks)%list.

(** [Object.keys(x)]. *)
Definition objectKeys (x : JValue) : list string :=
  match x with
  | JObj fields | JProto _ fields => enumerated (keys fields)
  | JArr items => map indexKey (seq 0 (List.length items))
  | JStr s => map indexKey (seq 0 (String.length s))
  | _ => []
  end.

(** Induction over a document, with the hypothesis available for every
    field of an object (arrays and replaced prototypes are opaque to
    the merge). *)
Section Induction.
Variable P : JValue -> Prop.
Hypothesis Hnull : P JNull.
Hypothesis Hbool : forall b, P (JBool b).
Hypothesis Hnum : forall q, P (JNum q).
Hypothesis Hstr : forall s, P (JStr s).
Hypothesis Harr : forall items, P (JArr items).
Hypothesis Hobj : forall fields,
    Forall (fun kv => P (snd kv)) fields -> P (JObj fields).
Hypothesis Hspecial : forall s, P (JSpecial s).
Hypothesis Hproto : forall proto fields,
    Forall (fun kv => P (snd kv)) fields -> P (JProto proto fields).

Fixpoint JValue_fields_ind (v : JValue) : P v :=
  match v with
  | JNull => Hnull
  | JBool b => Hbool b
  | JNum q => Hnum q
  | JStr s => Hstr s
  | JArr items => Harr items
  | JObj fields =>
      Hobj fields
        ((fix go (fs : list (string * JValue))
            : Forall (fun kv => P (snd kv)) fs :=
            match fs with
            | [] => Forall_nil _
            | kv :: r => Forall_cons kv (JValue_fields_ind (snd kv)) (go r)
            end) fields)
  | JSpecial s => Hspecial s
  | JProto proto fields =>
      Hproto proto fields
        ((fix go (fs : list (string * JValue))
            : Forall (fun kv => P (snd kv)) fs :=
            match fs with
            | [] => Forall_nil _
            | kv :: r => Forall_cons kv (JValue_fields_ind (snd kv)) (go r)
            end) fields)
  end.
End Induction.

(** A value used as an operand of arithmetic or of a comparison: the
    finite numbers other than [-0].  The configuration is expected to
    hold such numbers there; what JavaScript does with anything else
    (coercions, the infinities) is outside the model ([None]). *)
Definition toNumber (v : JValue) : option Q :=
  match v with
  | JNum q => Some q
  | _ => None
  end.

(** The same, for a divisor: every number counts. *)
Definition toNum (v : JValue) : option Num :=
  match v with
  | JNum q => Some (Finite q)
  | JSpecial s => Some (Special s)
  | _ => None
  end.

Definition ofNum (x : Num) : JValue :=
  match x with
  | Finite q => JNum q
  | Special s => JSpecial s
  end.

End Json.

(* ================================================================== *)
(** * config.js: merging the override document over the defaults *)
(* ================================================================== *)

Module Config.
Import Json.

Definition isObject (x : JValue) : bool :=
  match x with
  | JObj _ | JProto _ _ => true
  | _ => false
  end.

(** [Object.entries(x)], and what [{ ...x }] copies. *)
Definition ownFields (x : JValue) : list (string * JValue) :=
  match x with
  | JObj fields | JProto _ fields => fields
  | _ => []
  end.

(** [Object.prototype] as a value: no prototype, nothing enumerable. *)
Definition objectPrototype : JValue := JProto JNull [].

(** Whether an object with prototype [p] inherits the accessor
    [__proto__] of [Object.prototype]: its chain does not end in
    [null]. *)
Fixpoint inheritsAccessor (p : JValue) : bool :=
  match p with
  | JNull => false
  | JProto p' _ => inheritsAccessor p'
  | _ => true
  end.

(** What the setter of [__proto__] accepts; anything else it ignores. *)
Definition canBePrototype (v : JValue) : bool :=
  match v with
  | JNull | JArr _ | JObj _ | JProto _ _ => true
  | _ => false
  end.

(** The object [out] of [deepMerge] while it is filled: its prototype
    ([None] for [Object.prototype]) and its own properties. *)
Definition Out : Type := option JValue * list (string * JValue).

(** What [k in out] and [out[k]] find. *)
Inductive Lookup : Type :=
| Found (b : JValue)          (* a data property, own or inherited *)
| Accessor (current : JValue) (* the accessor [__proto__]; it reads the prototype *)
| Missing.                    (* nothing, or an inherited method *)

Definition lookup (out : Out) (k : string) : Lookup :=
  match getOwn k (snd out) with
  | Some b => Found b
  | None =>
      match fst out with
      | None =>
          if String.eqb k "__proto__" then Accessor objectPrototype else Missing
      | Some p =>
          match getProperty p k with
          | Some b => Found b
          | None =>
              if String.eqb k "__proto__" && inheritsAccessor p
              then Accessor p else Missing
          end
      end
  end.

(** The finished object. *)
Definition finish (out : Out) : JValue :=
  match fst out with
  | None => JObj (snd out)
  | Some p => JProto p (snd out)
  end.

(** [out[k] = k in out ? deepMerge(out[k], v) : v] for every entry of
    [extra].  An inherited method is a function, which [deepMerge]
    replaces by [v] as it does where nothing is found.  The assignment
    defines an own property, except through the accessor [__proto__],
    whose setter replaces the prototype when it is given an object or
    [null] and does nothing otherwise. *)
Fixpoint deepMerge (base extra : JValue) {struct extra} : JValue :=
  match extra with
  | JObj efields | JProto _ efields =>
      if isObject base then
        finish
          ((fix entries (out : Out) (es : list (string * JValue)) {struct es} : Out :=
              match es with
              | [] => out
              | (k, v) :: es' =>
                  entries
                    (match lookup out k with
                     | Found b => (fst out, setOwn k (deepMerge b v) (snd out))
                     | Accessor current =>
                         if canBePrototype (deepMerge current v)
                         then (Some (deepMerge current v), snd out)
                         else out
                     | Missing => (fst out, setOwn k v (snd out))
                     end)
                    es'
              end) (None, ownFields base) efields)
      else extra
  | _ => extra
  end.

(** One turn of the loop, and the loop on its own. *)
Definition assign (out : Out) (k : string) (v : JValue) : Out :=
  match lookup out k with
  | Found b => (fst out, setOwn k (deepMerge b v) (snd out))
  | Accessor current =>
      if canBePrototype (deepMerge current v)
      then (Some (deepMerge current v), snd out)
      else out
  | Missing => (fst out, setOwn k v (snd out))
  end.

Fixpoint mergeEntries (out : Out) (es : list (string * JValue)) : Out :=
  match es with
  | [] => out
  | (k, v) :: es' => mergeEntries (assign out k v) es'
  end.

(** defaults.js *)
Definition window (n : Q) : JValue := JObj [("contextWindowTokens", JNum n)].

Definition DEFAULT_MODEL_CONTEXTS : JValue :=
  JObj
    [ ("models",
        JObj
          [ ("gpt-4.1", window 64000);
            ("gpt-4o", window 64000);
            ("gpt-5", window 128000);
            ("gpt-5-mini", window 128000);
            ("gpt-5.1", window 128000);
            ("gpt-5.1-codex", window 128000);
            ("gpt-5.2", window 128000);
            ("gpt-5.2-codex", window 272000);
            ("gpt-5.3-codex", window 272000) ]);
      ("policy",
        JObj
          [ ("targetFractionOfContext", JNum (1 # 4));
            ("minBudgetTokens", JNum 6000);
            ("maxBudgetTokens", JNum 60000) ]) ].

Definition DEFAULT_OUTPUT_DIR : string := ".context-slicer".

(** What [loadConfig] finds at [<repoRoot>/.context-slicer.json]: no
    file, a file [JSON.parse] rejects, or the parsed document. *)
Inductive ConfigFile : Type :=
| NoConfigFile
| Malformed
| Parsed (user : JValue).

Record TokenEstimator : Type := {
  charsPerToken : JValue;
  maxFileBytes : JValue
}.

Record Config : Type := {
  outputDir : JValue;
  modelContexts : JValue;
  preset : JValue;
  tokenEstimator : TokenEstimator
}.

Inductive LoadError : Type :=
| SyntaxError        (* thrown by JSON.parse *)
| NullDocument.      (* TypeError: reading a property of null *)

Definition configOf (user : JValue) : Config :=
  {| outputDir := orElse (prop user "outputDir") (JStr DEFAULT_OUTPUT_DIR);
     modelContexts :=
       deepMerge DEFAULT_MODEL_CONTEXTS (orElse (prop user "modelContexts") (JObj []));
     preset := orElse (prop user "preset") (JStr "auto");
     tokenEstimator :=
       {| charsPerToken :=
            orElse (optProp (prop user "tokenEstimator") "charsPerToken") (JNum 4);
          maxFileBytes :=
            orElse (optProp (prop user "tokenEstimator") "maxFileBytes")
                   (JNum (1024 * 1024)) |} |}.

Definition loadConfig (f : ConfigFile) : LoadError + Config :=
  match f with
  | NoConfigFile => inr (configOf (JObj []))
  | Malformed => inl SyntaxError
  | Parsed JNull => inl NullDocument
  | Parsed user => inr (configOf user)
  end.

End Config.

(* ================================================================== *)
(** * model.js: model names *)
(* ================================================================== *)

Module Model.
Import JsString.

(** [.replace(/^gpt\s*/i, "gpt-")]: anchored, so at most one match. *)
Definition replaceGptPrefix (s : string) : string :=
  if prefix "gpt" (toLowerCase s)
  then "gpt-" ++ trimStart (slice 3 s)
  else s.

Definition normalizeModelName (raw : option string) : string :=
  let s0 := toLowerCase (trim (match raw with Some r => r | None => EmptyString end)) in
  if isEmpty s0 then EmptyString
  else
    let beforeAt := splitHead "@" s0 in
    let cleaned :=
      if startsWith beforeAt "copilot/"
      then slice (String.length "copilot/") beforeAt
      else beforeAt in
    trim
      (collapseRuns isHyphen "-" false
         (replaceAll "(preview)" EmptyString
            (collapseRuns isSpace "-" false
               (replaceGptPrefix cleaned)))).

Import Json Double.

Definition matchesKey (model k : string) : bool :=
  String.eqb model k || startsWith model (k ++ "-").

(** [Object.keys(ctx.models ?? {})]. *)
Definition modelKeys (ctx : JValue) : list string :=
  match prop ctx "models" with
  | Some models => objectKeys models
  | None => []
  end.

Definition resolveModelKey (model : string) (ctx : JValue) : string :=
  if match optProp (prop ctx "models") model with
     | Some v => truthy v
     | None => false
     end
  then model
  else orElse (find (matchesKey model) (modelKeys ctx)) model.

(** The [const]s of [budgetForModel], one definition each. *)
Definition windowTokens (model : string) (ctx : JValue) : JValue :=
  let modelKey := resolveModelKey model ctx in
  let entry := optProp (prop ctx "models") modelKey in
  orElse (optProp entry "contextWindowTokens")
    (orElse (optProp (optProp (prop ctx "models") "gpt-4.1") "contextWindowTokens")
       (JNum 64000)).

Definition targetFraction (ctx : JValue) : JValue :=
  orElse (optProp (prop ctx "policy") "targetFractionOfContext") (JNum (1 # 4)).

Definition minB (ctx : JValue) : JValue :=
  orElse (optProp (prop ctx "policy") "minBudgetTokens") (JNum 6000).

Definition maxB (ctx : JValue) : JValue :=
  orElse (optProp (prop ctx "policy") "maxBudgetTokens") (JNum 60000).

(** [Math.floor(w * f)], the product a double. *)
Definition floorMul (w f : Q) : Num := floor (mul w f).

(** [Math.min(hi, Math.max(lo, x))]. *)
Definition clamp (lo hi x : Q) : Q := Qmin hi (Qmax lo x).

(** [None]: one of the four operands is no finite number, or the
    product is none (it overflows, or is [-0]). *)
Definition budgetForModel (model : string) (ctx : JValue) : option Q :=
  match toNumber (windowTokens model ctx), toNumber (targetFraction ctx),
        toNumber (minB ctx), toNumber (maxB ctx) with
  | Some w, Some f, Some lo, Some hi =>
      match floorMul w f with
      | Finite target => Some (clamp lo hi target)
      | Special _ => None
      end
  | _, _, _, _ => None
  end.

End Model.

(* ================================================================== *)
(** * focus_auto.js: tier selection *)
(* ================================================================== *)

Module Tiers.

Definition chooseModes (budgetTokens : Q) : list string :=
  if Qle_bool 45000 budgetTokens
  then ["full"; "lite"; "lite-compress"; "lite-compress-min"]
  else if Qle_bool 20000 budgetTokens
  then ["lite"; "lite-compress"; "lite-compress-min"]
  else ["lite-compress"; "lite-compress-min"].

End Tiers.

(* ================================================================== *)
(** * The host: file system, Node and npm libraries *)
(* ================================================================== *)

Module Fs.

(** A regular file: the size [statSync] reports, in bytes, and the text
    [readFileSync(p, "utf8")] decodes. *)
Record File : Type := { size : Z; text : string }.

Inductive Node : Type :=
| Directory
| Regular (f : File).

(** What is at each path: nothing, a directory or a regular file. *)
Record FS : Type := { nodes : string -> option Node }.

Definition files (fs : FS) (p : string) : option File :=
  match nodes fs p with
  | Some (Regular f) => Some f
  | _ => None
  end.

Definition dirs (fs : FS) (p : string) : bool :=
  match nodes fs p with
  | Some Directory => true
  | _ => false
  end.

(** The size of a directory is the host's; the code does not read it. *)
Record Stats : Type := { isFile : bool; st_size : Z }.

Definition existsSync (fs : FS) (p : string) : bool :=
  match files fs p with
  | Some _ => true
  | None => dirs fs p
  end.

(** [None]: [statSync] throws (nothing at [p]). *)
Definition statSync (fs : FS) (p : string) : option Stats :=
  match files fs p with
  | Some f => Some {| isFile := true; st_size := size f |}
  | None => if dirs fs p then Some {| isFile := false; st_size := 0 |} else None
  end.

(** [None]: [readFileSync] throws (no regular file at [p]). *)
Definition readFileSync (fs : FS) (p : string) : option string :=
  match files fs p with
  | Some f => Some (text f)
  | None => None
  end.

(** Bytes of the UTF-8 encoding of a Latin-1 string. *)
Fixpoint utf8Length (s : string) : Z :=
  match s with
  | EmptyString => 0
  | String c s' => (if (N_of_ascii c <? 128)%N then 1 else 2) + utf8Length s'
  end.

Definition put (p : string) (n : Node) (fs : FS) : FS :=
  {| nodes := fun q => if String.eqb q p then Some n else nodes fs q |}.

(** [writeFileSync(p, data, "utf8")] into a directory that is there;
    [None]: it throws, [p] being a directory. *)
Definition writeFileSync (p data : string) (fs : FS) : option FS :=
  if dirs fs p then None
  else Some (put p (Regular {| size := utf8Length data; text := data |}) fs).

(** [copyFileSync(src, dest)] into a directory that is there; [None]:
    it throws, [src] being no regular file or [dest] a directory. *)
Definition copyFileSync (src dest : string) (fs : FS) : option FS :=
  match files fs src with
  | Some f => if dirs fs dest then None else Some (put dest (Regular f) fs)
  | None => None
  end.

(** [mkdirSync(p, { recursive: true })], given [p] and its ancestors;
    [None]: it throws, one of them being a regular file. *)
Definition mkdirSync (wanted : list string) (fs : FS) : option FS :=
  if existsb (fun q => match files fs q with Some _ => true | None => false end) wanted
  then None
  else Some {| nodes := fun q =>
                 if existsb (String.eqb q) wanted then Some Directory
                 else nodes fs q |}.

End Fs.

(** What the embedding takes from Node and from npm packages. *)
Class Host : Type := {
  (** [path.join(a, b)] *)
  path_join : string -> string -> string;
  (** [path.relative(from, to)] *)
  path_relative : string -> string -> string;
  (** the proper ancestors of a path, which a recursive [mkdir] creates *)
  path_ancestors : string -> list string;
  (** [fg(include, { cwd, onlyFiles, unique, dot, ignore })] *)
  fast_glob : Fs.FS -> string -> list string -> list string -> list string;
  (** [ignore().add(...).ignores(rel)], given what was added; [None]:
      it throws a [RangeError], [rel] being no path relative to the
      root and inside it *)
  ignore_ignores : list string -> string -> option bool;
  (** [JSON.stringify(v, null, 2)] *)
  JSON_stringify : Json.JValue -> string;
  (** [String(n)] for a number that is not an integer below 10^21 *)
  number_toString : Q -> string
}.

Module JsNumber.

(** [`${n}`]: integers below [10^21] in magnitude print in decimal;
    [other] prints the rest. *)
Definition showNumber (other : Q -> string) (n : Q) : string :=
  let r := Qred n in
  if (Qden r =? 1)%positive && (Z.abs (Qnum r) <? 10 ^ 21)%Z
  then NilZero.string_of_int (Z.to_int (Qnum r))
  else other n.

Definition numberToString {h : Host} (n : Q) : string :=
  showNumber number_toString n.

End JsNumber.

(* ================================================================== *)
(** * preset.js *)
(* ================================================================== *)

Module Preset.
Import Json JsString.

Section WithHost.
Context {h : Host}.

Definition detectPreset (fs : Fs.FS) (repoRoot : string) : string :=
  let hasApps := Fs.existsSync fs (path_join repoRoot "apps") in
  let hasLibs := Fs.existsSync fs (path_join repoRoot "libs") in
  let hasServices := Fs.existsSync fs (path_join repoRoot "services") in
  if hasApps && (hasLibs || hasServices) then "polylith"
  else if Fs.existsSync fs (path_join repoRoot "src-tauri")
          && Fs.existsSync fs (path_join repoRoot "src")
  then "tauri-root"
  else "generic".

End WithHost.

(** [preset === name] *)
Definition isStr (v : JValue) (name : string) : bool :=
  match v with
  | JStr s => String.eqb s name
  | _ => false
  end.

Record Plan : Type := { include : list string; mode : string }.

Definition repomixArgsFor (preset : JValue) (target outputDir mode : string) : Plan :=
  {| include :=
       if isStr preset "tauri-root" then
         [ "src/**/" ++ target ++ "/**";
           "src-tauri/**/" ++ target ++ "/**";
           "src/**";
           "src-tauri/**";
           "docs/**";
           "README*";
           "package.json" ]
       else if isStr preset "polylith" then
         [ "apps/desktop/src/modules/" ++ target ++ "/**";
           "apps/web/src/components/" ++ target ++ "/**";
           "libs/**";
           "proto/**";
           "docs/**";
           "README*" ]
       else
         [ (if negb (isEmpty target) && includes target "*"
            then target else target ++ "/**");
           "src/**";
           "lib/**";
           "docs/**";
           "README*";
           "package.json" ];
     mode := mode |}.

End Preset.

(* ================================================================== *)
(** * packer.js *)
(* ================================================================== *)

Module Packer.
Import Json JsString Double.

Definition DEFAULT_IGNORE : list string :=
  [ "**/.git/**";
    "**/node_modules/**";
    "**/dist/**";
    "**/target/**";
    "**/.context-slicer/**";
    "**/.DS_Store" ].

Definition stripEmptyLines (text : string) : string :=
  join newline
    (filter (fun l => negb (isEmpty (trim l))) (splitLines text)).

Definition escapeXmlAttr (s : string) : string :=
  replaceAll ">" "&gt;"
    (replaceAll "<" "&lt;"
       (replaceAll dquote "&quot;"
          (replaceAll "&" "&amp;" s))).

Definition cdata (text : string) : string :=
  "<![CDATA[" ++ replaceAll "]]>" "]]]]><![CDATA[>" text ++ "]]>".

(** [Math.ceil(totalBytes / charsPerToken)], the byte total an integer
    that is a double. *)
Definition estimateTokensFromBytes (totalBytes : Z) (charsPerToken : Num) : Num :=
  ceil (div totalBytes charsPerToken).

(** [for (const p of paths) { try { ... } catch { } }] *)
Fixpoint sumFileSizesFrom (fs : Fs.FS) (total : Z) (paths : list string) : Z :=
  match paths with
  | [] => total
  | p :: rest =>
      match Fs.statSync fs p with
      | Some st =>
          sumFileSizesFrom fs (if Fs.isFile st then total + Fs.st_size st else total) rest
      | None => sumFileSizesFrom fs total rest
      end
  end.

Definition sumFileSizes (fs : Fs.FS) (paths : list string) : Z :=
  sumFileSizesFrom fs 0 paths.

(** What [safeReadText] does: throw (from [statSync]), return [null], or
    return the text. *)
Inductive ReadResult : Type :=
| ReadThrows
| ReadNull
| ReadText (content : string).

Definition safeReadText (fs : Fs.FS) (filePath : string) (maxBytes : Q) : ReadResult :=
  match Fs.statSync fs filePath with
  | None => ReadThrows
  | Some st =>
      if negb (Fs.isFile st) then ReadNull
      else if Qle_bool (inject_Z (Fs.st_size st)) maxBytes
      then match Fs.readFileSync fs filePath with
           | Some t => ReadText t
           | None => ReadThrows
           end
      else ReadNull
  end.

Record Built : Type := { xml : string; totalChars : Z; totalFiles : Z }.

(** [paths.filter(keep)] for a [keep] that may throw. *)
Fixpoint filterThrowing (keep : string -> option bool) (paths : list string)
  : option (list string) :=
  match paths with
  | [] => Some []
  | p :: rest =>
      match keep p with
      | None => None
      | Some b =>
          match filterThrowing keep rest with
          | None => None
          | Some kept => Some (if b then p :: kept else kept)
          end
      end
  end.

Section WithHost.
Context {h : Host}.

Definition loadGitignore (fs : Fs.FS) (repoRoot : string) : option string :=
  Fs.readFileSync fs (path_join repoRoot ".gitignore").

(** [rel = relative(repoRoot, absPath).replace(/\\/g, "/")] *)
Definition relPath (repoRoot absPath : string) : string :=
  replaceAll "\" "/" (path_relative repoRoot absPath).

(** The patterns [createGitignoreFilter] adds. *)
Definition addedPatterns (fs : Fs.FS) (repoRoot : string) : list string :=
  match loadGitignore fs repoRoot with
  | Some gitignoreText => if isEmpty gitignoreText then [] else [gitignoreText]
  | None => []
  end.

(** [None]: the filter throws. *)
Definition createGitignoreFilter (fs : Fs.FS) (repoRoot : string)
  : string -> option bool :=
  let added := addedPatterns fs repoRoot in
  fun absPath =>
    match ignore_ignores added (relPath repoRoot absPath) with
    | Some ignored => Some (negb ignored)
    | None => None
    end.

(** [None]: [listFiles] is rejected, the filter having thrown. *)
Definition listFiles (fs : Fs.FS) (repoRoot : string) (include : list string)
  : option (list string) :=
  let relPaths := fast_glob fs repoRoot include DEFAULT_IGNORE in
  let absPaths := map (path_join repoRoot) relPaths in
  filterThrowing (createGitignoreFilter fs repoRoot) absPaths.

Definition fileEntry (rel content : string) : string :=
  "  <file path=" ++ dquote ++ escapeXmlAttr rel ++ dquote ++ ">"
    ++ cdata content ++ "</file>".

(** The loop of [buildXml]; [None] when [safeReadText] throws. *)
Fixpoint packFiles (fs : Fs.FS) (repoRoot : string) (maxFileBytes : Q)
         (removeEmptyLines : bool) (filePaths : list string)
         (totalChars : Z) (entries : list string) : option (Z * list string) :=
  match filePaths with
  | [] => Some (totalChars, entries)
  | absPath :: rest =>
      let rel := relPath repoRoot absPath in
      match safeReadText fs absPath maxFileBytes with
      | ReadThrows => None
      | ReadNull =>
          packFiles fs repoRoot maxFileBytes removeEmptyLines rest totalChars entries
      | ReadText contentRaw =>
          let content :=
            if removeEmptyLines then stripEmptyLines contentRaw else contentRaw in
          packFiles fs repoRoot maxFileBytes removeEmptyLines rest
            (totalChars + Z.of_nat (String.length content))
            (entries ++ [fileEntry rel content])%list
      end
  end.

Definition document (entries : list string) : string :=
  join newline
    (["<context_slicer>"] ++ entries ++ ["</context_slicer>"; EmptyString])%list.

Definition buildXml (fs : Fs.FS) (repoRoot : string) (filePaths : list string)
           (maxFileBytes : Q) (removeEmptyLines : bool) : option Built :=
  match packFiles fs repoRoot maxFileBytes removeEmptyLines filePaths 0 [] with
  | None => None
  | Some (totalChars, entries) =>
      Some {| xml := document entries;
              totalChars := totalChars;
              totalFiles := Z.of_nat (List.length entries) |}
  end.

End WithHost.

End Packer.

(* ================================================================== *)
(** * vscode_detect.js *)
(* ================================================================== *)

Module VscodeDetect.
Import Json JsString Model.

(** What the detection takes from the operating system: [homedir()],
    [process.env.APPDATA], [tmpdir()], [process.pid] as printed, the
    successive values of [Math.random().toString(16).slice(2)], whether
    [sqlite3 --version] exits with 0, and, for a database file, the
    document [JSON.parse] makes of what [sqlite3 <file> <query>] prints
    ([None] when [sqlite3] does not exit with 0 or its output does not
    parse; either way the code goes on to the next candidate).
    [sqlite3] is taken to read the file and to write nothing. *)
Record Editor : Type := {
  homedir : string;
  APPDATA : option string;
  tmpdir : string;
  pid : string;
  random : nat -> string;
  hasSqlite : bool;
  chatState : Fs.File -> option JValue
}.

(** [parsed?.["VSCode.ABExp.FeatureData"]?.value?.configs?.[0]
    ?.Parameters?.["chat.defaultLanguageModel"]] *)
Definition defaultLanguageModel (parsed : JValue) : option JValue :=
  optProp
    (optProp
       (optProp
          (optProp
             (optProp (prop parsed "VSCode.ABExp.FeatureData") "value")
             "configs")
          "0")
       "Parameters")
    "chat.defaultLanguageModel".

Section WithHost.
Context {h : Host}.

Definition stateFile (root product : string) : string :=
  path_join
    (path_join (path_join (path_join root product) "User") "globalStorage")
    "state.vscdb".

Definition candidates (e : Editor) : list string :=
  ([ stateFile (path_join (path_join (homedir e) "Library") "Application Support")
       "Code";
     stateFile (path_join (path_join (homedir e) "Library") "Application Support")
       "Code - Insiders";
     stateFile (path_join (homedir e) ".config") "Code";
     stateFile (path_join (homedir e) ".config") "Code - Insiders" ]
   ++ match APPDATA e with
      | Some appData =>
          if isEmpty appData then []
          else [ stateFile appData "Code"; stateFile appData "Code - Insiders" ]
      | None => []
      end)%list.

(** The name of the [draw]-th snapshot. *)
Definition snapshotPath (e : Editor) (draw : nat) : string :=
  path_join (tmpdir e)
    ("vscode-state-" ++ pid e ++ "-" ++ random e draw ++ ".vscdb").

(** The model a parsed query result names; [None] where the code goes
    on to the next candidate. *)
Definition modelIn (parsed : JValue) : option string :=
  match defaultLanguageModel parsed with
  | Some (JStr raw) =>
      if isEmpty raw then None
      else if isEmpty (normalizeModelName (Some raw)) then None
      else Some (normalizeModelName (Some raw))
  | _ => None
  end.

(** The [for (const p of candidates)] loop: a candidate that is there
    is copied to a fresh snapshot in the temporary directory, which
    stays there, and the snapshot is queried.  [copyFileSync] throws,
    and the loop goes on, when the candidate is a directory, the
    temporary directory is missing or a directory has the name of the
    snapshot. *)
Fixpoint scan (e : Editor) (draw : nat) (fs : Fs.FS) (ps : list string)
  : Fs.FS * option string :=
  match ps with
  | [] => (fs, None)
  | p :: rest =>
      if negb (Fs.existsSync fs p) then scan e draw fs rest
      else
        match Fs.files fs p,
              (if Fs.dirs fs (tmpdir e)
               then Fs.copyFileSync p (snapshotPath e draw) fs else None) with
        | Some database, Some fs1 =>
            match chatState e database with
            | Some parsed =>
                match modelIn parsed with
                | Some model => (fs1, Some model)
                | None => scan e (S draw) fs1 rest
                end
            | None => scan e (S draw) fs1 rest
            end
        | _, _ => scan e (S draw) fs rest
        end
  end.

Definition detectModelFromVSCodeGlobalState (e : Editor) (fs : Fs.FS)
  : Fs.FS * option string :=
  if hasSqlite e then scan e 0 fs (candidates e) else (fs, None).

End WithHost.

End VscodeDetect.

(* ================================================================== *)
(** * focus_auto.js *)
(* ================================================================== *)

Module FocusAuto.
Import Json JsString Double Config Model Preset Packer Tiers VscodeDetect.

Record Args : Type := {
  repoRoot : string;
  target : string;
  modelId : option string;
  budgetTokens : option Q
}.

(** What one invocation reads besides the file tree: the configuration
    file as [loadConfig] finds it, three environment variables, and
    what the model detection takes from the operating system. *)
Record World : Type := {
  configFile : ConfigFile;
  COPILOT_MODEL : option string;
  VSCODE_COPILOT_MODEL : option string;
  LM_MODEL : option string;
  editor : Editor
}.

Inductive Thrown : Type :=
| ConfigError (e : LoadError)      (* from loadConfig *)
| PathTypeError                    (* path.join on an outputDir that is no string *)
| MkdirError                       (* mkdirSync: a regular file is in the way *)
| IgnoreError                      (* the RangeError of ignore, in listFiles *)
| StatError                        (* statSync inside buildXml *)
| WriteError                       (* writeFileSync: the path is a directory *)
| Error (message : string).        (* throw new Error(message) *)

Inductive Outcome : Type :=
| Returned (meta : JValue)
| Threw (e : Thrown)
| OutsideModel.                    (* a non-number reached arithmetic *)

(** [a || b] on strings that may be [undefined]. *)
Definition orString (a b : option string) : option string :=
  match a with
  | Some s => if isEmpty s then b else a
  | None => b
  end.

(** [normalizeModelName(modelId) || normalizeModelName(envModel)
    || detected || "gpt-4.1"], given what the detection returned. *)
Definition resolveModel (w : World) (a : Args) (detected : option string) : string :=
  let envModel :=
    orString (COPILOT_MODEL w) (orString (VSCODE_COPILOT_MODEL w) (LM_MODEL w)) in
  orElse
    (orString (Some (normalizeModelName (modelId a)))
       (orString (Some (normalizeModelName envModel))
          (orString detected (Some "gpt-4.1"))))
    "gpt-4.1".

(** [Number.isFinite(budgetTokens) && budgetTokens > 0 ? budgetTokens
    : budgetForModel(resolvedModel, cfg.modelContexts)] *)
Definition resolveBudget (a : Args) (resolvedModel : string) (cfg : Config)
  : option Q :=
  match budgetTokens a with
  | Some b =>
      if Qle_bool b 0 then budgetForModel resolvedModel (modelContexts cfg)
      else Some b
  | None => budgetForModel resolvedModel (modelContexts cfg)
  end.

Definition SliceMetadata (repoRoot : string) (preset : JValue)
           (target resolvedModel : string) (budget : Q) (mode : string)
           (estTokens : Num) (built : Built) : JValue :=
  JObj
    [ ("repoRoot", JStr repoRoot);
      ("preset", preset);
      ("target", JStr target);
      ("model", JStr resolvedModel);
      ("budgetTokens", JNum budget);
      ("mode", JStr mode);
      ("totalTokens", ofNum estTokens);
      ("totalFiles", JNum (inject_Z (totalFiles built)));
      ("totalChars", JNum (inject_Z (totalChars built))) ].

Section WithHost.
Context {h : Host}.

(** The files and the estimate of one tier; [None]: [listFiles] is
    rejected. *)
Definition tierFiles (fs : Fs.FS) (a : Args) (preset : JValue)
           (outputDir mode : string) : option (list string) :=
  listFiles fs (repoRoot a)
    (include (repomixArgsFor preset (target a) outputDir mode)).

Definition tierEstimate (fs : Fs.FS) (a : Args) (preset : JValue)
           (outputDir mode : string) (charsPerToken : Num) : option Num :=
  match tierFiles fs a preset outputDir mode with
  | Some filePaths =>
      Some (estimateTokensFromBytes (sumFileSizes fs filePaths) charsPerToken)
  | None => None
  end.

Definition budgetMessage (budget : Q) : string :=
  "Unable to generate slice within budget="
    ++ JsNumber.numberToString budget ++ " tokens".

(** [for (const mode of modes) { ... } throw new Error(...)] *)
Fixpoint fitLoop (fs : Fs.FS) (a : Args) (cfg : Config) (outputDir outDir : string)
         (resolvedModel : string) (budget : Q) (preset : JValue)
         (modes : list string) : Fs.FS * Outcome :=
  match modes with
  | [] => (fs, Threw (Error (budgetMessage budget)))
  | mode :: rest =>
      match tierFiles fs a preset outputDir mode with
      | None => (fs, Threw IgnoreError)
      | Some filePaths =>
          let totalBytes := sumFileSizes fs filePaths in
          match toNum (charsPerToken (tokenEstimator cfg)) with
          | None => (fs, OutsideModel)
          | Some cpt =>
              let estTokens := estimateTokensFromBytes totalBytes cpt in
              if lessEq estTokens budget then
                match toNumber (maxFileBytes (tokenEstimator cfg)) with
                | None => (fs, OutsideModel)
                | Some maxBytes =>
                    match buildXml fs (repoRoot a) filePaths maxBytes true with
                    | None => (fs, Threw StatError)
                    | Some built =>
                        match Fs.writeFileSync (path_join outDir "active_context.xml")
                                (xml built) fs with
                        | None => (fs, Threw WriteError)
                        | Some fs1 =>
                            let meta :=
                              SliceMetadata (repoRoot a) preset (target a)
                                resolvedModel budget mode estTokens built in
                            match Fs.writeFileSync
                                    (path_join outDir "active_context.meta.json")
                                    (JSON_stringify meta) fs1 with
                            | None => (fs1, Threw WriteError)
                            | Some fs2 => (fs2, Returned meta)
                            end
                        end
                    end
                end
              else fitLoop fs a cfg outputDir outDir resolvedModel budget preset rest
          end
      end
  end.

(** [mkdirSync(outDir, { recursive: true })] *)
Definition makeOutDir (outDir : string) (fs : Fs.FS) : option Fs.FS :=
  Fs.mkdirSync (outDir :: path_ancestors outDir) fs.

(** [cfg.preset === "auto" ? detectPreset(repoRoot) : cfg.preset] *)
Definition resolvePreset (fs : Fs.FS) (a : Args) (cfg : Config) : JValue :=
  if isStr (Config.preset cfg) "auto"
  then JStr (detectPreset fs (repoRoot a))
  else Config.preset cfg.

(** The first statements of [focusAuto], once the configuration is
    loaded: the output directory is made, then the model detection
    runs.  [None]: [mkdirSync] throws. *)
Definition settle (w : World) (fs : Fs.FS) (a : Args) (dir : string)
  : option (Fs.FS * option string) :=
  match makeOutDir (path_join (repoRoot a) dir) fs with
  | Some fs1 => Some (detectModelFromVSCodeGlobalState (editor w) fs1)
  | None => None
  end.

Definition focusAuto (w : World) (fs : Fs.FS) (a : Args) : Fs.FS * Outcome :=
  match loadConfig (configFile w) with
  | inl e => (fs, Threw (ConfigError e))
  | inr cfg =>
      match outputDir cfg with
      | JStr dir =>
          let outDir := path_join (repoRoot a) dir in
          match settle w fs a dir with
          | None => (fs, Threw MkdirError)
          | Some (fs', detected) =>
              let resolvedModel := resolveModel w a detected in
              match resolveBudget a resolvedModel cfg with
              | None => (fs', OutsideModel)
              | Some budget =>
                  let preset := resolvePreset fs' a cfg in
                  fitLoop fs' a cfg dir outDir resolvedModel budget preset
                    (chooseModes budget)
              end
          end
      | _ => (fs, Threw PathTypeError)
      end
  end.

End WithHost.

End FocusAuto.

(* ================================================================== *)
(** * cli.js and sea_main.js: the two entry points *)
(* ================================================================== *)

Module Process.
Import JsString FocusAuto.

(** What [console.error] is given: a text, or the [stack] of an
    exception, whose frames name the [program] that ran and whose
    wording is the host's. *)
Inductive Report : Type :=
| Text (s : string)
| Stack (program : string) (e : Thrown).

(** What a run leaves behind: the arguments of [console.log] and of
    [console.error], in order, and the exit code. *)
Record Exit : Type := {
  stdout : list string;
  stderr : list Report;
  status : Z
}.

(** [!x] on a string that may be [undefined]. *)
Definition falsy (x : option string) : bool :=
  match x with
  | Some s => isEmpty s
  | None => true
  end.

(** [x === name] *)
Definition strictEq (x : option string) (name : string) : bool :=
  match x with
  | Some s => String.eqb s name
  | None => false
  end.

(** [`${x}`] *)
Definition shown (x : option string) : string :=
  match x with
  | Some s => s
  | None => "undefined"
  end.

(** The exception a report is the stack of. *)
Definition reported (r : Report) : option Thrown :=
  match r with
  | Text _ => None
  | Stack _ e => Some e
  end.

End Process.

Module Cli.
Import JsString FocusAuto Process.

Definition HELP : string :=
  join newline
    [ "context-slicer"; EmptyString;
      "Commands:";
      "  focus-auto <target> [model]"; EmptyString;
      "Examples:";
      "  context-slicer focus-auto mixer";
      "  context-slicer focus-auto mixer gpt-5.3-codex"; EmptyString ].

(** [console.error(msg); process.exit(1)] *)
Definition die (msg : Report) : Exit :=
  {| stdout := []; stderr := [msg]; status := 1 |}.

Section WithHost.
Context {h : Host}.

(** [main().catch(...)], given [process.cwd()] and
    [process.argv.slice(2)]; [None] when [focusAuto] leaves the model. *)
Definition main (w : World) (fs : Fs.FS) (cwd : string) (argv : list string)
  : Fs.FS * option Exit :=
  let cmd := nth_error argv 0 in
  let target := nth_error argv 1 in
  let model := nth_error argv 2 in
  if falsy cmd || strictEq cmd "-h" || strictEq cmd "--help" then
    (fs, Some {| stdout := [HELP]; stderr := []; status := 0 |})
  else if negb (strictEq cmd "focus-auto") then
    (fs, Some (die (Text ("Unknown command: " ++ shown cmd))))
  else
    match target with
    | Some t =>
        if isEmpty t then (fs, Some (die (Text "Missing <target>")))
        else
          match focusAuto w fs {| repoRoot := cwd; target := t;
                                  modelId := model; budgetTokens := None |} with
          | (fs', Returned meta) =>
              (fs', Some {| stdout := [JSON_stringify meta]; stderr := [];
                            status := 0 |})
          | (fs', Threw e) => (fs', Some (die (Stack "cli.js" e)))
          | (fs', OutsideModel) => (fs', None)
          end
    | None => (fs, Some (die (Text "Missing <target>")))
    end.

End WithHost.

End Cli.

Module SeaMain.
Import JsString FocusAuto Process.

Definition HELP : string :=
  join newline
    [ "context-slicer"; EmptyString;
      "Usage:";
      "  context-slicer focus-auto <target> [model]";
      "  context-slicer mcp"; EmptyString;
      "Outputs:";
      "  .context-slicer/active_context.xml";
      "  .context-slicer/active_context.meta.json"; EmptyString ].

Section WithHost.
Context {h : Host}.

(** [main().catch(...)]; [None] for [mcp], which serves until its
    transport closes, and when [focusAuto] leaves the model. *)
Definition main (w : World) (fs : Fs.FS) (cwd : string) (argv : list string)
  : Fs.FS * option Exit :=
  let cmd := nth_error argv 0 in
  if falsy cmd || strictEq cmd "-h" || strictEq cmd "--help" then
    (fs, Some {| stdout := [HELP]; stderr := []; status := 0 |})
  else if strictEq cmd "--version" || strictEq cmd "-v" then
    (fs, Some {| stdout := ["0.1.0"]; stderr := []; status := 0 |})
  else if strictEq cmd "mcp" then (fs, None)
  else if strictEq cmd "focus-auto" then
    let target := nth_error argv 1 in
    let model := nth_error argv 2 in
    match target with
    | Some t =>
        if isEmpty t then
          (fs, Some {| stdout := [HELP]; stderr := []; status := 2 |})
        else
          match focusAuto w fs {| repoRoot := cwd; target := t;
                                  modelId := model; budgetTokens := None |} with
          | (fs', Returned meta) =>
              (fs', Some {| stdout := [JSON_stringify meta]; stderr := [];
                            status := 0 |})
          | (fs', Threw e) =>
              (fs', Some {| stdout := []; stderr := [Stack "sea_main.js" e]; status := 1 |})
          | (fs', OutsideModel) => (fs', None)
          end
    | None => (fs, Some {| stdout := [HELP]; stderr := []; status := 2 |})
    end
  else
    (fs, Some {| stdout := [HELP];
                 stderr := [Text ("Unknown command: " ++ shown cmd)];
                 status := 2 |}).

End WithHost.

End SeaMain.

(* ================================================================== *)
(** * A reader for the XML the packer emits *)
(* ================================================================== *)

(** The yardstick for "the document parses as one unit": a reader for the
    subset of XML 1.0 made of elements with double-quoted attributes,
    CDATA sections and character data (no comments, processing
    instructions, empty-element tags or references in character data).
    It reads one code unit at a time and never looks ahead, so a CDATA
    section ends at the first [']]>'] after its opening. *)
Module XmlReader.


(** Accumulators hold what was read so far, last code unit first. *)
Fixpoint revOnto (r acc : string) : string :=
  match r with
  | EmptyString => acc
  | String c r' => revOnto r' (String c acc)
  end.

Definition unrev (r : string) : string := revOnto r EmptyString.




Fixpoint allChars (p : ascii -> bool) (s : string) : bool :=
  match s with
  | EmptyString => true
  | String c s' => p c && allChars p s'
  end.





Definition consOpt (c : ascii) (o : option string) : option string :=
  match o with
  | Some s => Some (String c s)
  | None => None
  end.

(** The value of an attribute, with the five predefined entities
    resolved; a bare ampersand or a [<] is an error. *)
Fixpoint decodeFrom (skip : nat) (s : string) : option string :=
  match s with
  | EmptyString => Some EmptyString
  | String c s' =>
      match skip with
      | S k => decodeFrom k s'
      | O =>
          if Ascii.eqb c "&"%char then
            if prefix "&amp;" s then consOpt "&"%char (decodeFrom 4 s')
            else if prefix "&lt;" s then consOpt "<"%char (decodeFrom 3 s')
            else if prefix "&gt;" s then consOpt ">"%char (decodeFrom 3 s')
            else if prefix "&quot;" s then consOpt "034"%char (decodeFrom 5 s')
            else if prefix "&apos;" s then consOpt "'"%char (decodeFrom 5 s')
            else None
          else if Ascii.eqb c "<"%char then None
          else consOpt c (decodeFrom 0 s')
      end
  end.

Definition decodeValue (s : string) : option string := decodeFrom 0 s.




















End XmlReader.

(* ================================================================== *)
(** * Notions the properties are stated with *)
(* ================================================================== *)

Module ModelSpec.


End ModelSpec.

Module ConfigSpec.
Import Json Config.

Fixpoint distinct (l : list string) : bool :=
  match l with
  | [] => true
  | x :: r => negb (existsb (String.eqb x) r) && distinct r
  end.

(** A JavaScript object holds each own key once; on the association
    lists of the embedding this is a condition.  Arrays are only ever
    copied as a whole, nothing is asked of their items. *)
Fixpoint uniqueKeys (v : JValue) : bool :=
  match v with
  | JObj fields | JProto _ fields =>
      distinct (keys fields)
      && (fix all (fs : list (string * JValue)) : bool :=
            match fs with
            | [] => true
            | (_, x) :: r => uniqueKeys x && all r
            end) fields
  | _ => true
  end.

(** No object of the document, at any depth below objects, has the key
    [__proto__]. *)
Fixpoint plainKeys (v : JValue) : bool :=
  match v with
  | JObj fields | JProto _ fields =>
      negb (existsb (String.eqb "__proto__") (keys fields))
      && (fix all (fs : list (string * JValue)) : bool :=
            match fs with
            | [] => true
            | (_, x) :: r => plainKeys x && all r
            end) fields
  | _ => true
  end.

(** [carries o m]: the document [m] holds, for every key of [o], the
    value [o] gives it: the same value, or, where both are objects, an
    object that in turn carries it. *)
Inductive carries : JValue -> JValue -> Prop :=
| carries_same (v : JValue) : carries v v
| carries_object (o m : JValue) :
    isObject o = true -> isObject m = true ->
    (forall k v, getOwn k (ownFields o) = Some v ->
                 exists x, getOwn k (ownFields m) = Some x /\ carries v x) ->
    carries o m.

(** The top-level fields [loadConfig] reads. *)
Definition knownFields : list string :=
  ["outputDir"; "modelContexts"; "preset"; "tokenEstimator"].

(** Every object of the document, at any depth below objects, has the
    prototype it was created with, as in a document [JSON.parse]
    returns. *)
Fixpoint ordinary (v : JValue) : bool :=
  match v with
  | JObj fields =>
      (fix all (fs : list (string * JValue)) : bool :=
         match fs with
         | [] => true
         | (_, x) :: r => ordinary x && all r
         end) fields
  | JProto _ _ => false
  | _ => true
  end.

(** The prototype an override leaves the merged object with, when the
    object merged into has no own key [__proto__]: what the setter makes
    of the value the override has under that key. *)
Definition prototypeAfter (es : list (string * JValue)) : option JValue :=
  match getOwn "__proto__" es with
  | Some v =>
      if canBePrototype (deepMerge objectPrototype v)
      then Some (deepMerge objectPrototype v)
      else None
  | None => None
  end.

(** The order in which JavaScript enumerates own keys: the array
    indices first, ascending, then the other keys. *)
Fixpoint indexOrder (least : N) (ks : list string) : bool :=
  match ks with
  | [] => true
  | k :: rest =>
      match arrayIndex k with
      | Some n => (least <=? n)%N && indexOrder n rest
      | None => forallb (fun k' => match arrayIndex k' with
                                   | Some _ => false
                                   | None => true
                                   end) rest
      end
  end.

Definition ownKeyOrder (ks : list string) : bool := indexOrder 0 ks.

End ConfigSpec.

Module FocusAutoSpec.
Import Json Double VscodeDetect FocusAuto.

(** An estimate the comparison [estTokens <= budget] rejects: a number
    above the budget, [Infinity] or [NaN]. *)
Definition exceeds (estTokens : option Num) (budget : Q) : Prop :=
  match estTokens with
  | Some e => lessEq e budget = false
  | None => False
  end.

(** The field names of [SliceMetadata] as the specification lists them,
    and as [focusAuto] writes them. *)
Definition specifiedFields : list string :=
  [ "repoRoot"; "preset"; "target"; "model"; "budgetTokens"; "tier";
    "totalTokens"; "totalFiles"; "totalChars" ].

Definition writtenFields : list string :=
  [ "repoRoot"; "preset"; "target"; "model"; "budgetTokens"; "mode";
    "totalTokens"; "totalFiles"; "totalChars" ].

Definition fieldNames (v : JValue) : list string :=
  match v with
  | JObj fields => keys fields
  | _ => []
  end.

(** A machine without [sqlite3]: the detection returns [null] at
    once. *)
Definition noSqlite : Editor :=
  {| homedir := "/home/user";
     APPDATA := None;
     tmpdir := "/tmp";
     pid := "4242";
     random := fun _ => "8c1f";
     hasSqlite := false;
     chatState := fun _ => None |}.

(** A world without configuration file, environment hints or
    [sqlite3], and one with the given configuration document. *)
Definition bareWorld : World :=
  {| configFile := Config.NoConfigFile;
     COPILOT_MODEL := None;
     VSCODE_COPILOT_MODEL := None;
     LM_MODEL := None;
     editor := noSqlite |}.

Definition worldWith (f : Config.ConfigFile) : World :=
  {| configFile := f;
     COPILOT_MODEL := None;
     VSCODE_COPILOT_MODEL := None;
     LM_MODEL := None;
     editor := noSqlite |}.

(** The paths the model detection may leave a snapshot at. *)
Definition isSnapshot {h : Host} (w : World) (p : string) : Prop :=
  exists draw, p = snapshotPath (editor w) draw.

End FocusAutoSpec.

Module PackerSpec.
Import JsString Packer.

(** The occurrences of [pat] in [s] that [replaceAll] replaces: found left
    to right, not overlapping. *)
Fixpoint countFrom (pat : string) (skip : nat) (s : string) : nat :=
  match s with
  | EmptyString => O
  | String c s' =>
      match skip with
      | S k => countFrom pat k s'
      | O =>
          if prefix pat s
          then S (countFrom pat (String.length pat - 1) s')
          else countFrom pat O s'
      end
  end.

Definition occurrences (pat s : string) : nat := countFrom pat O s.

Section WithHost.
Context {h : Host}.

(** The files [buildXml] emits a record for, as (relative path, packed
    content). *)
Fixpoint packedFiles (fs : Fs.FS) (repoRoot : string) (maxFileBytes : Q)
         (removeEmptyLines : bool) (filePaths : list string)
  : list (string * string) :=
  match filePaths with
  | [] => []
  | absPath :: rest =>
      match safeReadText fs absPath maxFileBytes with
      | ReadText contentRaw =>
          (relPath repoRoot absPath,
           if removeEmptyLines then stripEmptyLines contentRaw else contentRaw)
          :: packedFiles fs repoRoot maxFileBytes removeEmptyLines rest
      | _ => packedFiles fs repoRoot maxFileBytes removeEmptyLines rest
      end
  end.

End WithHost.


(** [escapeXmlAttr], one code unit at a time. *)
Definition escapeChar (c : ascii) : string :=
  if Ascii.eqb c "&"%char then "&amp;"
  else if Ascii.eqb c "034"%char then "&quot;"
  else if Ascii.eqb c "<"%char then "&lt;"
  else if Ascii.eqb c ">"%char then "&gt;"
  else String c EmptyString.




Definition entryOf (file : string * string) : string :=
  fileEntry (fst file) (snd file).



End PackerSpec.

(** A host for closed examples: POSIX paths with at most a leading
    [../] to resolve, a glob that reports the regular files among the
    given relative paths, an [ignore] without rules that rejects what
    the package rejects (a path that is empty, made of dots, or begins
    with dots and a slash), and a printer for the documents the examples
    write. *)
Module ExampleHost.
Import Json JsString.

Fixpoint ancestorsFrom (rseen : string) (s : string) : list string :=
  match s with
  | EmptyString => []
  | String c s' =>
      if Ascii.eqb c "/"%char && negb (isEmpty rseen)
      then XmlReader.unrev rseen :: ancestorsFrom (String c rseen) s'
      else ancestorsFrom (String c rseen) s'
  end.

Definition ancestors (p : string) : list string := ancestorsFrom EmptyString p.

(** The directory a path is in; the root is the empty path. *)
Definition parent (p : string) : string := last (ancestors p) EmptyString.

Definition join (a b : string) : string :=
  if prefix "../" b then parent a ++ "/" ++ slice 3 b else a ++ "/" ++ b.

Definition relative (from to : string) : string :=
  if prefix (from ++ "/") to then slice (S (String.length from)) to
  else if prefix (parent from ++ "/") to
       then "../" ++ slice (S (String.length (parent from))) to
       else to.

Fixpoint dropDots (s : string) : string :=
  match s with
  | String c s' => if Ascii.eqb c "."%char then dropDots s' else s
  | EmptyString => EmptyString
  end.

(** What [ignores] throws on: [/^\.*\/|^\.+$/], and the empty path. *)
Definition invalidPath (rel : string) : bool :=
  match dropDots rel with
  | EmptyString => true
  | String c _ => Ascii.eqb c "/"%char
  end.

Definition ignores (added : list string) (rel : string) : option bool :=
  if invalidPath rel then None else Some false.

Definition isRegular (fs : Fs.FS) (p : string) : bool :=
  match Fs.files fs p with
  | Some _ => true
  | None => false
  end.

Definition glob (found : list string) (fs : Fs.FS) (cwd : string)
           (include ignored : list string) : list string :=
  filter (fun rel => isRegular fs (join cwd rel)) found.

Definition otherNumber (n : Q) : string := "NaN".

Definition quote (s : string) : string :=
  dquote ++ replaceAll dquote ("\" ++ dquote) (replaceAll "\" "\\" s) ++ dquote.

Fixpoint stringify (indent : string) (v : JValue) : string :=
  match v with
  | JNull => "null"
  | JBool b => if b then "true" else "false"
  | JNum q => JsNumber.showNumber otherNumber q
  | JSpecial Double.NegZero => "0"
  | JSpecial _ => "null"
  | JStr s => quote s
  | JArr items =>
      match items with
      | [] => "[]"
      | _ =>
          "[" ++ newline
          ++ String.concat ("," ++ newline)
               (map (fun x => indent ++ "  " ++ stringify (indent ++ "  ") x) items)
          ++ newline ++ indent ++ "]"
      end
  | JObj fields | JProto _ fields =>
      match fields with
      | [] => "{}"
      | _ =>
          "{" ++ newline
          ++ String.concat ("," ++ newline)
               ((fix members (fs : list (string * JValue)) : list string :=
                   match fs with
                   | [] => []
                   | (k, x) :: r =>
                       (indent ++ "  " ++ quote k ++ ": "
                        ++ stringify (indent ++ "  ") x) :: members r
                   end) fields)
          ++ newline ++ indent ++ "}"
      end
  end.

Definition host (found : list string) : Host :=
  {| path_join := join;
     path_relative := relative;
     path_ancestors := ancestors;
     fast_glob := glob found;
     ignore_ignores := ignores;
     JSON_stringify := stringify EmptyString;
     number_toString := otherNumber |}.

(** A tree holding the given regular files and the directories above
    them. *)
Definition treeOf (content : list (string * Fs.File)) : Fs.FS :=
  {| Fs.nodes := fun p =>
       match find (fun kv => String.eqb p (fst kv)) content with
       | Some (_, f) => Some (Fs.Regular f)
       | None =>
           if existsb (fun kv => existsb (String.eqb p) (ancestors (fst kv))) content
           then Some Fs.Directory else None
       end |}.

(** The same, each file sized as its text. *)
Definition tree (content : list (string * string)) : Fs.FS :=
  treeOf (map (fun kv => (fst kv, {| Fs.size := Fs.utf8Length (snd kv);
                                     Fs.text := snd kv |})) content).

End ExampleHost.

(** Repositories and invocations for the closed examples. *)
Module Scenarios.
Import Json VscodeDetect FocusAuto FocusAutoSpec ExampleHost.

(** The glob reports [src/a.txt]. *)
Definition host1 : Host := host ["src/a.txt"].

(** One source file of 10 bytes, and one of 18 bytes. *)
Definition treeA : Fs.FS := tree [("/repo/src/a.txt", "0123456789")].
Definition treeB : Fs.FS := tree [("/repo/src/a.txt", "0123456789abcdefgh")].

(** The 10-byte file next to the two outputs of an earlier run. *)
Definition treePrior : Fs.FS :=
  tree [ ("/repo/src/a.txt", "0123456789");
         ("/repo/.context-slicer/active_context.xml", "<context_slicer/>");
         ("/repo/.context-slicer/active_context.meta.json", "{}") ].

(** A file whose text holds the closing delimiter of a CDATA section. *)
Definition treeC : Fs.FS := tree [("/repo/src/a.txt", "if (a[b[0]]>1) { }")].


(** A regular file where the output directory is to be. *)
Definition treeBlocked : Fs.FS :=
  tree [ ("/repo/src/a.txt", "0123456789");
         ("/repo/.context-slicer", "not a directory") ].

(** The editor's state file in the home directory, a temporary
    directory, and the outputs of an earlier run. *)
Definition treeWatched : Fs.FS :=
  tree [ ("/repo/src/a.txt", "0123456789");
         ("/repo/.context-slicer/active_context.xml", "<context_slicer/>");
         ("/repo/.context-slicer/active_context.meta.json", "{}");
         ("/home/user/.config/Code/User/globalStorage/state.vscdb", "SQLite format 3");
         ("/tmp/session.lock", "1") ].

(** A machine with [sqlite3] on which the query finds nothing. *)
Definition emptyState : Editor :=
  {| homedir := "/home/user";
     APPDATA := None;
     tmpdir := "/tmp";
     pid := "4242";
     random := fun _ => "8c1f";
     hasSqlite := true;
     chatState := fun _ => None |}.

Definition watchedWorld : World :=
  {| configFile := Config.NoConfigFile;
     COPILOT_MODEL := None;
     VSCODE_COPILOT_MODEL := None;
     LM_MODEL := None;
     editor := emptyState |}.

(** A file next to the repository, which the glob reports for the
    target [../outer]. *)
Definition hostOutside : Host := host ["../outer/x.txt"].

Definition treeOutside : Fs.FS :=
  tree [("/repo/src/a.txt", "0123456789"); ("/outer/x.txt", "0123456789")].

Definition invokeOutside : Args :=
  {| repoRoot := "/repo"; target := "../outer"; modelId := None;
     budgetTokens := Some 7 |}.

Definition invoke (budget : Q) : Args :=
  {| repoRoot := "/repo"; target := "src"; modelId := None;
     budgetTokens := Some budget |}.

(** An override for the model policy: one nested field, one array where
    the default has an object, and one array the default lacks. *)
Definition exampleOverride : JValue :=
  JObj [ ("policy", JObj [("minBudgetTokens", JNum 1)]);
         ("models", JObj [("gpt-4.1", JArr [JNum 1; JNum 2])]);
         ("tags", JArr [JStr "a"]) ].

(** What [JSON.parse] makes of [{"__proto__": 5, "policy": {"__proto__":
    {"minBudgetTokens": 1}}}]: the key is an own property of each
    parsed object. *)
Definition protoOverride : JValue :=
  JObj [ ("__proto__", JNum 5);
         ("policy", JObj [("__proto__", JObj [("minBudgetTokens", JNum 1)])]) ].

(** The configuration when there is no configuration file, the tree once
    the output directory is made, and the record of a fit on [treeA]. *)
Definition defaults : Config.Config := Config.configOf (JObj []).

Definition madeTree (fs : Fs.FS) : Fs.FS :=
  match makeOutDir (h := host1) "/repo/.context-slicer" fs with
  | Some fs1 => fs1
  | None => fs
  end.

Definition metaA : JValue :=
  JObj [ ("repoRoot", JStr "/repo"); ("preset", JStr "generic");
         ("target", JStr "src"); ("model", JStr "gpt-4.1");
         ("budgetTokens", JNum 7); ("mode", JStr "lite-compress");
         ("totalTokens", JNum 3); ("totalFiles", JNum 1);
         ("totalChars", JNum 10) ].

(** One matched file one byte above the default ceiling of 1 MiB; its
    text, which is never read, is abbreviated. *)
Definition treeHuge : Fs.FS :=
  treeOf [("/repo/src/a.txt",
           {| Fs.size := 1048577; Fs.text := "(1048577 bytes)" |})].

(** [focusAuto({ repoRoot, target })], the budget left to the model. *)
Definition invokeDefault : Args :=
  {| repoRoot := "/repo"; target := "src"; modelId := None; budgetTokens := None |}.

(** [COPILOT_MODEL] set to one space, [VSCODE_COPILOT_MODEL] to a model
    name. *)
Definition blankEnvWorld : World :=
  {| configFile := Config.NoConfigFile;
     COPILOT_MODEL := Some " ";
     VSCODE_COPILOT_MODEL := Some "gpt-5";
     LM_MODEL := None;
     editor := noSqlite |}.

(** [context-slicer focus-auto src] in the 10-byte repository: the
    record it prints, the run, and how it exits. *)
Definition metaDefault : JValue :=
  JObj [ ("repoRoot", JStr "/repo"); ("preset", JStr "generic");
         ("target", JStr "src"); ("model", JStr "gpt-4.1");
         ("budgetTokens", JNum 16000); ("mode", JStr "lite-compress");
         ("totalTokens", JNum 3); ("totalFiles", JNum 1);
         ("totalChars", JNum 10) ].

Definition cliRun : Fs.FS * option Process.Exit :=
  Cli.main (h := host1) bareWorld treeA "/repo" ["focus-auto"; "src"].

Definition cliExit : Process.Exit :=
  {| Process.stdout := [JSON_stringify (Host := host1) metaDefault];
     Process.stderr := [];
     Process.status := 0 |}.


(** A configuration file with a field [loadConfig] does not read. *)
Definition annotated : JValue :=
  JObj [("preset", JStr "generic"); ("comment", JStr "local"); ("outputDir", JStr "out")].

End Scenarios.

(** Notions for the properties of the single functions. *)
Module ShapeSpec.
Import JsString.

(** No two neighbouring code units both satisfy [p]. *)
Fixpoint noAdjacent (p : ascii -> bool) (s : string) : bool :=
  match s with
  | EmptyString => true
  | String c s' =>
      match s' with
      | EmptyString => true
      | String d _ => negb (p c && p d) && noAdjacent p s'
      end
  end.

(** Neither white space nor an at sign. *)
Definition isKeyChar (c : ascii) : bool :=
  negb (isSpace c) && negb (Ascii.eqb c "@"%char).

(** The keys that are no array index, in their order. *)
Definition isIndex (k : string) : bool :=
  match Json.arrayIndex k with
  | Some _ => true
  | None => false
  end.

Definition namedKeys (ks : list string) : list string :=
  filter (fun k => negb (isIndex k)) ks.

(** The keys of [es] that the merge adds to an ordinary object with the
    own properties [out]: those it does not have yet, but for
    [__proto__], which goes to the accessor. *)
Definition addedKeys (out es : list (string * Json.JValue)) : list string :=
  filter (fun k => negb (existsb (String.eqb k) (Json.keys out))
                   && negb (String.eqb k "__proto__"))
         (Json.keys es).

(** The four tiers, richest first. *)
Definition allTiers : list string :=
  ["full"; "lite"; "lite-compress"; "lite-compress-min"].

(** The code units of a list of texts, put together. *)
Fixpoint sumLengths (parts : list string) : Z :=
  match parts with
  | [] => 0
  | x :: rest => Z.of_nat (String.length x) + sumLengths rest
  end.

(** What one path adds to the sum: its size when it is a regular file,
    nothing when it is a directory or is not there. *)
Definition sizeOrZero (fs : Fs.FS) (p : string) : Z :=
  match Fs.statSync fs p with
  | Some st => if Fs.isFile st then Fs.st_size st else 0
  | None => 0
  end.

(** The length of [parts] joined by a one-unit separator, plus one. *)
Fixpoint weight (parts : list string) : nat :=
  match parts with
  | [] => O
  | x :: rest => S (String.length x + weight rest)
  end.

(** Code units an attribute value written by [escapeXmlAttr] may hold. *)
Definition isAttrSafe (c : ascii) : bool :=
  negb (Ascii.eqb c "034"%char) && negb (Ascii.eqb c "<"%char)
  && negb (Ascii.eqb c ">"%char).

End ShapeSpec.

(* ================================================================== *)
(** * Properties *)
(* ================================================================== *)

(** ** Tier selection *)

Module TiersProps.
Import Tiers.

Lemma chooseModes_high (b : Q) :
  45000 <= b ->
  chooseModes b = ["full"; "lite"; "lite-compress"; "lite-compress-min"].
Proof.
  intros Hb. unfold chooseModes.
  apply Qle_bool_iff in Hb. now rewrite Hb.
Qed.

Lemma Qle_bool_false (x y : Q) : y < x -> Qle_bool x y = false.
Proof.
  intros Hlt. destruct (Qle_bool x y) eqn:E; [|reflexivity].
  apply Qle_bool_iff in E. exfalso. exact (Qlt_not_le _ _ Hlt E).
Qed.


Lemma chooseModes_mid (b : Q) :
  20000 <= b -> b < 45000 ->
  chooseModes b = ["lite"; "lite-compress"; "lite-compress-min"].
Proof.
  intros Hlo Hhi. unfold chooseModes.
  rewrite (Qle_bool_false _ _ Hhi).
  apply Qle_bool_iff in Hlo. now rewrite Hlo.
Qed.

Lemma chooseModes_low (b : Q) :
  b < 20000 -> chooseModes b = ["lite-compress"; "lite-compress-min"].
Proof.
  intros Hb. unfold chooseModes.
  assert (H45 : b < 45000) by (eapply Qlt_trans; [exact Hb | reflexivity]).
  now rewrite (Qle_bool_false _ _ H45), (Qle_bool_false _ _ Hb).
Qed.

(** C5. A strictly larger budget never gets a shorter tier list; budgets
    of at least 45000 get the four tiers in order, budgets of at least
    20000 the three leanest, all smaller budgets the two leanest. *)
Theorem chooseModes_monotonic (b1 b2 : Q) :
  b1 < b2 ->
  (List.length (chooseModes b1) <= List.length (chooseModes b2))%nat
  /\ (forall b : Q,
        (45000 <= b ->
         chooseModes b = ["full"; "lite"; "lite-compress"; "lite-compress-min"])
        /\ (20000 <= b -> b < 45000 ->
            chooseModes b = ["lite"; "lite-compress"; "lite-compress-min"])
        /\ (b < 20000 ->
            chooseModes b = ["lite-compress"; "lite-compress-min"])).
Proof.
  intros Hlt. split.
  - unfold chooseModes.
    destruct (Qle_bool 45000 b1) eqn:E1.
    + apply Qle_bool_iff in E1.
      assert (H2 : 45000 <= b2)
        by (apply Qlt_le_weak; eapply Qle_lt_trans; eassumption).
      apply Qle_bool_iff in H2. rewrite H2. simpl. lia.
    + destruct (Qle_bool 20000 b1) eqn:E2.
      * apply Qle_bool_iff in E2.
        assert (H2 : 20000 <= b2)
          by (apply Qlt_le_weak; eapply Qle_lt_trans; eassumption).
        apply Qle_bool_iff in H2. rewrite H2.
        destruct (Qle_bool 45000 b2); simpl; lia.
      * destruct (Qle_bool 45000 b2); [simpl; lia|].
        destruct (Qle_bool 20000 b2); simpl; lia.
  - intros b. split; [apply chooseModes_high|].
    split; [apply chooseModes_mid | apply chooseModes_low].
Qed.

Lemma chooseModes_monotonic_witness :
  19999 < 20000
  /\ (List.length (chooseModes 19999) <= List.length (chooseModes 20000))%nat.
Proof.
  split; [reflexivity|].
  exact (proj1 (chooseModes_monotonic 19999 20000 eq_refl)).
Defined.

End TiersProps.

(** ** Model names and budgets *)

Module ModelProps.
Import Json Double Model ModelSpec.

(** C7. What [normalizeModelName] returns on the two names of the
    specification: the second comes out as ["gpt-5"], the first keeps the
    hyphen made from the blank before ["(Preview)"]. *)
Theorem normalizeModelName_examples :
  normalizeModelName (Some "GPT 4.1 (Preview)") = "gpt-4.1-"
  /\ normalizeModelName (Some "copilot/gpt-5@2024-01") = "gpt-5".
Proof. split; reflexivity. Qed.








(** The product of [3] and the double nearest to one third is the
    double [1], above the real product: the floor is [1], not [0]. *)
Lemma floorMul_rounds :
  3 * (6004799503160661 # 18014398509481984) < 1
  /\ floorMul 3 (6004799503160661 # 18014398509481984) = Finite 1.
Proof. split; reflexivity. Qed.

End ModelProps.
(** ** Merging configuration documents *)

Module ConfigProps.
Import Json Config ConfigSpec Scenarios.

Lemma deepMerge_objects (base extra : JValue) :
  isObject base = true -> isObject extra = true ->
  deepMerge base extra
  = finish (mergeEntries (None, ownFields base) (ownFields extra)).
Proof.
  intros Hb He. destruct extra; try discriminate He; cbn [deepMerge];
    rewrite Hb; reflexivity.
Qed.

Lemma deepMerge_not_object (base extra : JValue) :
  isObject base = false -> deepMerge base extra = extra.
Proof.
  intros Hb. destruct extra; try reflexivity; cbn [deepMerge]; now rewrite Hb.
Qed.

Lemma deepMerge_plain_value (base extra : JValue) :
  isObject extra = false -> deepMerge base extra = extra.
Proof. intros He. destruct extra; try reflexivity; discriminate He. Qed.

(** *** Own properties after [setOwn] *)

Lemma getOwn_replaceOwn_same k v fields :
  getOwn k fields <> None -> getOwn k (replaceOwn k v fields) = Some v.
Proof.
  induction fields as [|[k' v'] r IH]; cbn [getOwn replaceOwn]; [congruence|].
  destruct (String.eqb k k') eqn:E; cbn [getOwn].
  - now rewrite String.eqb_refl.
  - rewrite E. exact IH.
Qed.

Lemma getOwn_replaceOwn_other k k' v fields :
  String.eqb k k' = false -> getOwn k (replaceOwn k' v fields) = getOwn k fields.
Proof.
  intros Hne. induction fields as [|[k2 v2] r IH]; cbn [getOwn replaceOwn];
    [reflexivity|].
  destruct (String.eqb k' k2) eqn:E; cbn [getOwn].
  - apply String.eqb_eq in E. subst k2. now rewrite Hne.
  - now rewrite IH.
Qed.

Lemma getOwn_insertIndex_same n k v fields :
  getOwn k fields = None -> getOwn k (insertIndex n k v fields) = Some v.
Proof.
  induction fields as [|[k' v'] r IH]; cbn [getOwn insertIndex].
  - now rewrite String.eqb_refl.
  - destruct (String.eqb k k') eqn:E; [discriminate|]. intros Hk.
    destruct (arrayIndex k') as [n'|]; [destruct (n' <? n)%N|];
      cbn [getOwn]; rewrite ?String.eqb_refl, ?E; auto.
Qed.

Lemma getOwn_insertIndex_other n k k' v fields :
  String.eqb k k' = false -> getOwn k (insertIndex n k' v fields) = getOwn k fields.
Proof.
  intros Hne. induction fields as [|[k2 v2] r IH]; cbn [getOwn insertIndex].
  - now rewrite Hne.
  - destruct (arrayIndex k2) as [n'|]; [destruct (n' <? n)%N|];
      cbn [getOwn]; rewrite ?Hne, ?IH; reflexivity.
Qed.

Lemma getOwn_app k (l r : list (string * JValue)) :
  getOwn k (l ++ r)
  = match getOwn k l with Some v => Some v | None => getOwn k r end.
Proof.
  induction l as [|[k' v'] l IH]; cbn [app getOwn]; [reflexivity|].
  now destruct (String.eqb k k').
Qed.

Lemma getOwn_setOwn_same k v fields : getOwn k (setOwn k v fields) = Some v.
Proof.
  unfold setOwn. destruct (getOwn k fields) eqn:E.
  - apply getOwn_replaceOwn_same. congruence.
  - destruct (arrayIndex k).
    + now apply getOwn_insertIndex_same.
    + rewrite getOwn_app, E. cbn [getOwn]. now rewrite String.eqb_refl.
Qed.

Lemma getOwn_setOwn_other k k' v fields :
  String.eqb k k' = false -> getOwn k (setOwn k' v fields) = getOwn k fields.
Proof.
  intros Hne. unfold setOwn. destruct (getOwn k' fields).
  - now apply getOwn_replaceOwn_other.
  - destruct (arrayIndex k').
    + now apply getOwn_insertIndex_other.
    + rewrite getOwn_app. cbn [getOwn]. rewrite Hne.
      now destruct (getOwn k fields).
Qed.

(** *** One assignment *)

Lemma lookup_accessor out k current :
  lookup out k = Accessor current -> k = "__proto__".
Proof.
  unfold lookup. destruct (getOwn k (snd out)); [discriminate|].
  destruct (fst out) as [p|].
  - destruct (getProperty p k); [discriminate|].
    destruct (String.eqb k "__proto__") eqn:E; [|discriminate].
    intros _. now apply String.eqb_eq.
  - destruct (String.eqb k "__proto__") eqn:E; [|discriminate].
    intros _. now apply String.eqb_eq.
Qed.

Lemma assign_own out k v b :
  getOwn k (snd out) = Some b ->
  assign out k v = (fst out, setOwn k (deepMerge b v) (snd out)).
Proof. intros H. unfold assign, lookup. now rewrite H. Qed.

Lemma assign_new out k v :
  fst out = None -> getOwn k (snd out) = None ->
  String.eqb k "__proto__" = false ->
  assign out k v = (None, setOwn k v (snd out)).
Proof.
  intros Hp Hk Hne. unfold assign, lookup. rewrite Hk, Hp, Hne.
  now rewrite <- Hp.
Qed.

Lemma assign_other out k k' v :
  String.eqb k k' = false ->
  getOwn k (snd (assign out k' v)) = getOwn k (snd out).
Proof.
  intros Hne. unfold assign.
  destruct (lookup out k'); cbn [snd]; try now apply getOwn_setOwn_other.
  now destruct (canBePrototype _).
Qed.

Lemma assign_keeps_prototype out k v :
  String.eqb k "__proto__" = false -> fst (assign out k v) = fst out.
Proof.
  intros Hne. unfold assign. destruct (lookup out k) eqn:E; try reflexivity.
  apply lookup_accessor in E. subst k. discriminate Hne.
Qed.

(** *** The loop *)

Lemma mergeEntries_untouched k es :
  forall out,
    existsb (String.eqb k) (keys es) = false ->
    getOwn k (snd (mergeEntries out es)) = getOwn k (snd out).
Proof.
  induction es as [|[k' v'] r IH]; intros out; cbn [mergeEntries keys map fst existsb];
    [reflexivity|].
  intros E. apply orb_false_iff in E as [E1 E2].
  rewrite (IH _ E2). now apply assign_other.
Qed.

Lemma mergeEntries_keeps_prototype es :
  forall out,
    existsb (String.eqb "__proto__") (keys es) = false ->
    fst (mergeEntries out es) = fst out.
Proof.
  induction es as [|[k' v'] r IH]; intros out; cbn [mergeEntries keys map fst existsb];
    [reflexivity|].
  intros E. apply orb_false_iff in E as [E1 E2].
  rewrite (IH _ E2). apply assign_keeps_prototype.
  now rewrite String.eqb_sym.
Qed.

(** What the merged object holds at a key of an override without the
    key [__proto__]. *)
Lemma mergeEntries_key k v es :
  forall out,
    fst out = None ->
    existsb (String.eqb "__proto__") (keys es) = false ->
    distinct (keys es) = true ->
    getOwn k es = Some v ->
    getOwn k (snd (mergeEntries out es))
    = Some (match getOwn k (snd out) with Some b => deepMerge b v | None => v end).
Proof.
  induction es as [|[k' v'] r IH]; intros out Hp Hplain Hd Hk;
    cbn [mergeEntries keys map fst existsb distinct getOwn] in *; [discriminate|].
  apply andb_true_iff in Hd as [Hfresh Hd].
  apply orb_false_iff in Hplain as [Hk' Hplain].
  destruct (String.eqb k k') eqn:E.
  - apply String.eqb_eq in E. subst k'. injection Hk as <-.
    apply negb_true_iff in Hfresh.
    rewrite (mergeEntries_untouched _ _ _ Hfresh).
    destruct (getOwn k (snd out)) as [b|] eqn:Hb.
    + rewrite (assign_own _ _ _ _ Hb). apply getOwn_setOwn_same.
    + rewrite (assign_new _ _ _ Hp Hb); [apply getOwn_setOwn_same|].
      now rewrite String.eqb_sym.
  - rewrite (IH _ (eq_trans (assign_keeps_prototype _ _ _
                               (eq_trans (String.eqb_sym _ _) Hk')) Hp)
               Hplain Hd Hk).
    now rewrite (assign_other _ _ _ _ E).
Qed.

Lemma uniqueKeys_fields (v : JValue) :
  isObject v = true ->
  uniqueKeys v = true ->
  distinct (keys (ownFields v)) = true
  /\ Forall (fun kv => uniqueKeys (snd kv) = true) (ownFields v).
Proof.
  intros Ho H.
  assert (Hboth : distinct (keys (ownFields v))
                  && (fix all (fs : list (string * JValue)) : bool :=
                        match fs with
                        | [] => true
                        | (_, x) :: r => uniqueKeys x && all r
                        end) (ownFields v) = true).
  { destruct v; try discriminate Ho; exact H. }
  clear H. apply andb_true_iff in Hboth as [Hd Hall]. split; [exact Hd|].
  clear Hd. induction (ownFields v) as [|[k x] r IH]; constructor.
  - apply andb_true_iff in Hall. tauto.
  - apply IH. apply andb_true_iff in Hall. tauto.
Qed.

Lemma plainKeys_fields (v : JValue) :
  isObject v = true ->
  plainKeys v = true ->
  existsb (String.eqb "__proto__") (keys (ownFields v)) = false
  /\ Forall (fun kv => plainKeys (snd kv) = true) (ownFields v).
Proof.
  intros Ho H.
  assert (Hboth : negb (existsb (String.eqb "__proto__") (keys (ownFields v)))
                  && (fix all (fs : list (string * JValue)) : bool :=
                        match fs with
                        | [] => true
                        | (_, x) :: r => plainKeys x && all r
                        end) (ownFields v) = true).
  { destruct v; try discriminate Ho; exact H. }
  clear H. apply andb_true_iff in Hboth as [Hd Hall].
  apply negb_true_iff in Hd. split; [exact Hd|].
  clear Hd. induction (ownFields v) as [|[k x] r IH]; constructor.
  - apply andb_true_iff in Hall. tauto.
  - apply IH. apply andb_true_iff in Hall. tauto.
Qed.

Lemma getOwn_In k v fields : getOwn k fields = Some v -> In (k, v) fields.
Proof.
  induction fields as [|[k' v'] r IH]; simpl; [discriminate|].
  destruct (String.eqb k k') eqn:E.
  - apply String.eqb_eq in E. intros [= ->]. left. now subst.
  - intros H. right. auto.
Qed.

(** The object an override without the key [__proto__] is merged into
    keeps the prototype it was created with. *)
Lemma deepMerge_plain_object (base extra : JValue) :
  isObject base = true -> isObject extra = true ->
  existsb (String.eqb "__proto__") (keys (ownFields extra)) = false ->
  deepMerge base extra
  = JObj (snd (mergeEntries (None, ownFields base) (ownFields extra))).
Proof.
  intros Hb He Hplain. rewrite (deepMerge_objects _ _ Hb He). unfold finish.
  now rewrite (mergeEntries_keeps_prototype _ _ Hplain).
Qed.

Lemma deepMerge_carries_object (extra : JValue) :
  isObject extra = true ->
  Forall (fun kv => forall base,
            uniqueKeys (snd kv) = true -> plainKeys (snd kv) = true ->
            carries (snd kv) (deepMerge base (snd kv))) (ownFields extra) ->
  forall base,
    uniqueKeys extra = true -> plainKeys extra = true ->
    carries extra (deepMerge base extra).
Proof.
  intros He IH base Hu Hp.
  destruct (isObject base) eqn:Hb;
    [|rewrite (deepMerge_not_object _ _ Hb); apply carries_same].
  apply (uniqueKeys_fields _ He) in Hu as [Hd Hall].
  apply (plainKeys_fields _ He) in Hp as [Hplain Hpall].
  rewrite (deepMerge_plain_object _ _ Hb He Hplain).
  apply carries_object; [exact He | reflexivity|].
  intros k v Hk. cbn [ownFields].
  rewrite (mergeEntries_key _ _ _ (None, ownFields base) eq_refl Hplain Hd Hk).
  eexists. split; [reflexivity|]. cbn [snd].
  destruct (getOwn k (ownFields base)) as [b|]; [|apply carries_same].
  apply getOwn_In in Hk.
  rewrite Forall_forall in IH, Hall, Hpall.
  apply (IH _ Hk); [apply (Hall _ Hk) | apply (Hpall _ Hk)].
Qed.

(** An override in which no object has the key [__proto__] is carried
    by the merged document. *)
Lemma deepMerge_carries (extra : JValue) :
  forall base,
    uniqueKeys extra = true -> plainKeys extra = true ->
    carries extra (deepMerge base extra).
Proof.
  induction extra as [| | | | |efields IH| |proto efields IH] using JValue_fields_ind;
    intros base Hu Hp;
    try (rewrite deepMerge_plain_value by reflexivity; apply carries_same).
  - now apply (deepMerge_carries_object (JObj efields)).
  - now apply (deepMerge_carries_object (JProto proto efields)).
Qed.

(** For every override in which no object has the key [__proto__]:
    the merged document holds, for every key of the override, the
    override's value, nested objects key by key; an array of the
    override is the result as it stands, never the default array
    followed by it. *)
Lemma deepMerge_override (base extra : JValue) :
  uniqueKeys extra = true ->
  plainKeys extra = true ->
  carries extra (deepMerge base extra)
  /\ (forall items, extra = JArr items -> deepMerge base extra = JArr items)
  /\ (forall fields k items,
        extra = JObj fields ->
        getOwn k fields = Some (JArr items) ->
        prop (deepMerge base extra) k = Some (JArr items)
        /\ forall defaults,
             defaults <> [] ->
             prop (deepMerge base extra) k <> Some (JArr (defaults ++ items)%list)).
Proof.
  intros Hu Hp. split; [now apply deepMerge_carries|]. split.
  - intros items ->. reflexivity.
  - intros fields k items -> Hk.
    assert (Hprop : prop (deepMerge base (JObj fields)) k = Some (JArr items)).
    { destruct (isObject base) eqn:Hb.
      - apply (uniqueKeys_fields (JObj fields) eq_refl) in Hu as [Hd _].
        apply (plainKeys_fields (JObj fields) eq_refl) in Hp as [Hplain _].
        rewrite (deepMerge_plain_object _ (JObj fields) Hb eq_refl Hplain).
        unfold prop. cbn [getProperty ownFields].
        rewrite (mergeEntries_key k (JArr items) fields (None, ownFields base)
                   eq_refl Hplain Hd Hk). cbn [snd].
        destruct (getOwn k (ownFields base)) as [b|]; [|reflexivity].
        now rewrite deepMerge_plain_value.
      - rewrite (deepMerge_not_object _ _ Hb). unfold prop. cbn [getProperty].
        now rewrite Hk. }
    split; [exact Hprop|].
    intros defaults Hne Heq. rewrite Hprop in Heq.
    injection Heq as Heq.
    apply (f_equal (@List.length JValue)) in Heq.
    rewrite length_app in Heq.
    destruct defaults; [congruence | simpl in Heq; lia].
Qed.

(** C8. The override [{"__proto__": 5}], as [JSON.parse] returns it,
    has the own key [__proto__]; merged over the built-in defaults it
    leaves them as they are: the assignment [out[k] = v] goes to the
    setter of [Object.prototype], which ignores a number.  The merged
    document has no value for the key and so does not carry the
    override. *)
Theorem deepMerge_loses_proto_key :
  getOwn "__proto__" (ownFields (JObj [("__proto__", JNum 5)])) = Some (JNum 5)
  /\ deepMerge DEFAULT_MODEL_CONTEXTS (JObj [("__proto__", JNum 5)])
     = DEFAULT_MODEL_CONTEXTS
  /\ getProperty (deepMerge DEFAULT_MODEL_CONTEXTS (JObj [("__proto__", JNum 5)]))
       "__proto__" = None
  /\ ~ carries (JObj [("__proto__", JNum 5)])
         (deepMerge DEFAULT_MODEL_CONTEXTS (JObj [("__proto__", JNum 5)])).
Proof.
  split; [reflexivity|]. split; [reflexivity|]. split; [reflexivity|].
  intros Hc. inversion Hc as [|o m Ho Hm Hkeys].
  destruct (Hkeys "__proto__" (JNum 5) eq_refl) as (x & Hx & _).
  discriminate Hx.
Qed.

(** An object under the key [__proto__] becomes the prototype of the
    merged object instead of one of its fields. *)
Lemma deepMerge_replaces_prototype :
  prop (deepMerge DEFAULT_MODEL_CONTEXTS protoOverride) "policy"
  = Some (JProto (JObj [("minBudgetTokens", JNum 1)])
            [ ("targetFractionOfContext", JNum (1 # 4));
              ("minBudgetTokens", JNum 6000);
              ("maxBudgetTokens", JNum 60000) ]).
Proof. reflexivity. Qed.

End ConfigProps.
(** ** The file tree under the writing calls *)

Module FsProps.
Import Fs.

Lemma nodes_put_same p n fs : nodes (put p n fs) p = Some n.
Proof. cbn. now rewrite String.eqb_refl. Qed.

Lemma nodes_put_other p n fs q : q <> p -> nodes (put p n fs) q = nodes fs q.
Proof. intros Hne. cbn. apply String.eqb_neq in Hne. now rewrite Hne. Qed.

Lemma dirs_put_regular p f fs q :
  dirs fs p = false -> dirs (put p (Regular f) fs) q = dirs fs q.
Proof.
  intros Hp. unfold dirs at 1. cbn.
  destruct (String.eqb q p) eqn:E; [|reflexivity].
  apply String.eqb_eq in E. subst q. now rewrite Hp.
Qed.

Lemma files_of_nodes fs fs' q : nodes fs' q = nodes fs q -> files fs' q = files fs q.
Proof. unfold files. now intros ->. Qed.

Lemma dirs_of_nodes fs fs' q : nodes fs' q = nodes fs q -> dirs fs' q = dirs fs q.
Proof. unfold dirs. now intros ->. Qed.

Lemma readFileSync_of_files fs fs' q :
  files fs' q = files fs q -> readFileSync fs' q = readFileSync fs q.
Proof. unfold readFileSync. now intros ->. Qed.

Lemma existsSync_dirs fs q : dirs fs q = true -> existsSync fs q = true.
Proof. intros H. unfold existsSync. now destruct (files fs q). Qed.

(** [writeFileSync] *)

Lemma writeFileSync_other p data fs fs' q :
  writeFileSync p data fs = Some fs' -> q <> p -> nodes fs' q = nodes fs q.
Proof.
  unfold writeFileSync. destruct (dirs fs p); [discriminate|].
  intros [= <-]. apply nodes_put_other.
Qed.

Lemma writeFileSync_dirs p data fs fs' q :
  writeFileSync p data fs = Some fs' -> dirs fs' q = dirs fs q.
Proof.
  unfold writeFileSync. destruct (dirs fs p) eqn:E; [discriminate|].
  intros [= <-]. now apply dirs_put_regular.
Qed.

Lemma writeFileSync_read p data fs fs' :
  writeFileSync p data fs = Some fs' -> readFileSync fs' p = Some data.
Proof.
  unfold writeFileSync. destruct (dirs fs p); [discriminate|].
  intros [= <-]. unfold readFileSync, files. now rewrite nodes_put_same.
Qed.

Lemma writeFileSync_succeeds p data fs :
  dirs fs p = false -> exists fs', writeFileSync p data fs = Some fs'.
Proof. intros H. unfold writeFileSync. rewrite H. eexists. reflexivity. Qed.

(** [copyFileSync] *)

Lemma copyFileSync_other src dest fs fs' q :
  copyFileSync src dest fs = Some fs' -> q <> dest -> nodes fs' q = nodes fs q.
Proof.
  unfold copyFileSync. destruct (files fs src); [|discriminate].
  destruct (dirs fs dest); [discriminate|].
  intros [= <-]. apply nodes_put_other.
Qed.

Lemma copyFileSync_dirs src dest fs fs' q :
  copyFileSync src dest fs = Some fs' -> dirs fs' q = dirs fs q.
Proof.
  unfold copyFileSync. destruct (files fs src); [|discriminate].
  destruct (dirs fs dest) eqn:E; [discriminate|].
  intros [= <-]. now apply dirs_put_regular.
Qed.

(** [mkdirSync] *)

Lemma mkdirSync_other wanted fs fs' q :
  mkdirSync wanted fs = Some fs' -> ~ In q wanted -> nodes fs' q = nodes fs q.
Proof.
  unfold mkdirSync. destruct (existsb _ wanted); [discriminate|].
  intros [= <-] Hout. cbn.
  destruct (existsb (String.eqb q) wanted) eqn:E; [|reflexivity].
  apply existsb_exists in E as (x & Hin & Hx). apply String.eqb_eq in Hx.
  now subst x.
Qed.

Lemma mkdirSync_made wanted fs fs' q :
  mkdirSync wanted fs = Some fs' -> In q wanted -> dirs fs' q = true.
Proof.
  unfold mkdirSync. destruct (existsb _ wanted); [discriminate|].
  intros [= <-] Hin. unfold dirs. cbn.
  assert (E : existsb (String.eqb q) wanted = true).
  { apply existsb_exists. exists q. split; [exact Hin | apply String.eqb_refl]. }
  now rewrite E.
Qed.

Lemma mkdirSync_keeps_dirs wanted fs fs' q :
  mkdirSync wanted fs = Some fs' -> dirs fs q = true -> dirs fs' q = true.
Proof.
  unfold mkdirSync. destruct (existsb _ wanted); [discriminate|].
  intros [= <-]. unfold dirs. cbn.
  now destruct (existsb (String.eqb q) wanted).
Qed.

(** A recursive [mkdir] that succeeds replaces no regular file. *)
Lemma mkdirSync_files wanted fs fs' q :
  mkdirSync wanted fs = Some fs' -> files fs' q = files fs q.
Proof.
  unfold mkdirSync.
  destruct (existsb (fun q0 => match files fs q0 with Some _ => true | None => false end)
              wanted) eqn:Hblocked; [discriminate|].
  intros [= <-]. unfold files at 1. cbn.
  destruct (existsb (String.eqb q) wanted) eqn:E; [|reflexivity].
  apply existsb_exists in E as (x & Hin & Hx). apply String.eqb_eq in Hx. subst x.
  destruct (files fs q) eqn:Hq; [|reflexivity].
  assert (Hex : existsb (fun q0 => match files fs q0 with Some _ => true | None => false end)
                  wanted = true).
  { apply existsb_exists. exists q. split; [exact Hin | now rewrite Hq]. }
  congruence.
Qed.

Lemma mkdirSync_blocked wanted fs q f :
  In q wanted -> files fs q = Some f -> mkdirSync wanted fs = None.
Proof.
  intros Hin Hq. unfold mkdirSync.
  assert (Hex : existsb (fun q0 => match files fs q0 with Some _ => true | None => false end)
                  wanted = true).
  { apply existsb_exists. exists q. split; [exact Hin | now rewrite Hq]. }
  now rewrite Hex.
Qed.

End FsProps.

(** ** The model detection and the file tree *)

Module DetectProps.
Import Fs VscodeDetect FsProps.

Section WithHost.
Context {h : Host}.

(** The detection touches the snapshot paths only. *)
Lemma scan_other (e : Editor) (ps : list string) (q : string) :
  (forall draw, q <> snapshotPath e draw) ->
  forall draw fs, nodes (fst (scan e draw fs ps)) q = nodes fs q.
Proof.
  intros Hq. induction ps as [|p rest IH]; intros draw fs; [reflexivity|].
  cbn [scan]. destruct (negb (existsSync fs p)); [apply IH|].
  destruct (files fs p) as [database|]; [|apply IH].
  destruct (dirs fs (tmpdir e)); [|apply IH].
  destruct (copyFileSync p (snapshotPath e draw) fs) as [fs1|] eqn:Hcopy; [|apply IH].
  pose proof (copyFileSync_other _ _ _ _ q Hcopy (Hq draw)) as Hsame.
  destruct (chatState e database) as [parsed|]; [|now rewrite IH].
  destruct (modelIn parsed); [exact Hsame | now rewrite IH].
Qed.

(** A path the detection changes is a snapshot path. *)
Lemma scan_changed (e : Editor) (ps : list string) (q : string) :
  forall draw fs,
    nodes (fst (scan e draw fs ps)) q = nodes fs q
    \/ exists d, q = snapshotPath e d.
Proof.
  induction ps as [|p rest IH]; intros draw fs; [now left|].
  destruct (String.eqb q (snapshotPath e draw)) eqn:E.
  { right. exists draw. now apply String.eqb_eq. }
  apply String.eqb_neq in E.
  cbn [scan]. destruct (negb (existsSync fs p)); [apply IH|].
  destruct (files fs p) as [database|]; [|apply IH].
  destruct (dirs fs (tmpdir e)); [|apply IH].
  destruct (copyFileSync p (snapshotPath e draw) fs) as [fs1|] eqn:Hcopy; [|apply IH].
  pose proof (copyFileSync_other _ _ _ _ q Hcopy E) as Hsame.
  destruct (chatState e database) as [parsed|];
    [destruct (modelIn parsed); [now left|]|];
    (destruct (IH (S draw) fs1) as [H|H]; [left; now rewrite H | now right]).
Qed.

Lemma detect_changed (e : Editor) (fs : FS) (q : string) :
  nodes (fst (detectModelFromVSCodeGlobalState e fs)) q = nodes fs q
  \/ exists d, q = snapshotPath e d.
Proof.
  unfold detectModelFromVSCodeGlobalState.
  destruct (hasSqlite e); [apply scan_changed | now left].
Qed.

Lemma scan_dirs (e : Editor) (ps : list string) (q : string) :
  forall draw fs, dirs (fst (scan e draw fs ps)) q = dirs fs q.
Proof.
  induction ps as [|p rest IH]; intros draw fs; [reflexivity|].
  cbn [scan]. destruct (negb (existsSync fs p)); [apply IH|].
  destruct (files fs p) as [database|]; [|apply IH].
  destruct (dirs fs (tmpdir e)); [|apply IH].
  destruct (copyFileSync p (snapshotPath e draw) fs) as [fs1|] eqn:Hcopy; [|apply IH].
  pose proof (copyFileSync_dirs _ _ _ _ q Hcopy) as Hsame.
  destruct (chatState e database) as [parsed|]; [|now rewrite IH].
  destruct (modelIn parsed); [exact Hsame | now rewrite IH].
Qed.

Lemma detect_other (e : Editor) (fs : FS) (q : string) :
  (forall draw, q <> snapshotPath e draw) ->
  nodes (fst (detectModelFromVSCodeGlobalState e fs)) q = nodes fs q.
Proof.
  intros Hq. unfold detectModelFromVSCodeGlobalState.
  destruct (hasSqlite e); [now apply scan_other | reflexivity].
Qed.

Lemma detect_dirs (e : Editor) (fs : FS) (q : string) :
  dirs (fst (detectModelFromVSCodeGlobalState e fs)) q = dirs fs q.
Proof.
  unfold detectModelFromVSCodeGlobalState.
  destruct (hasSqlite e); [apply scan_dirs | reflexivity].
Qed.

(** Without [sqlite3] the detection returns at once. *)
Lemma detect_without_sqlite (e : Editor) (fs : FS) :
  hasSqlite e = false -> detectModelFromVSCodeGlobalState e fs = (fs, None).
Proof. intros H. unfold detectModelFromVSCodeGlobalState. now rewrite H. Qed.

End WithHost.

End DetectProps.
(** ** The fitting loop and its effects on the file tree *)

Module FocusAutoProps.
Import Json Double Config Model Preset Packer Tiers VscodeDetect FocusAuto
       FocusAutoSpec FsProps DetectProps.

Section Loop.
Context {h : Host}.

Variables (a : Args) (cfg : Config) (dir outDir resolvedModel : string).
Variables (budget : Q) (preset : JValue).

(** One turn of the loop, once the files are listed. *)
Lemma fitLoop_turn fs mode rest filePaths cpt :
  tierFiles fs a preset dir mode = Some filePaths ->
  toNum (charsPerToken (tokenEstimator cfg)) = Some cpt ->
  lessEq (estimateTokensFromBytes (sumFileSizes fs filePaths) cpt) budget = false ->
  fitLoop fs a cfg dir outDir resolvedModel budget preset (mode :: rest)
  = fitLoop fs a cfg dir outDir resolvedModel budget preset rest.
Proof. intros Hfiles Hcpt Hover. cbn [fitLoop]. now rewrite Hfiles, Hcpt, Hover. Qed.

Lemma exceeds_inv fs mode cpt :
  exceeds (tierEstimate fs a preset dir mode cpt) budget ->
  exists filePaths,
    tierFiles fs a preset dir mode = Some filePaths
    /\ lessEq (estimateTokensFromBytes (sumFileSizes fs filePaths) cpt) budget = false.
Proof.
  unfold tierEstimate. destruct (tierFiles fs a preset dir mode) as [filePaths|];
    [|contradiction].
  intros H. now exists filePaths.
Qed.

(** When no tier fits, the loop ends in the [throw] and the tree is
    the one it started from. *)
Lemma fitLoop_exhausted fs cpt modes :
  toNum (charsPerToken (tokenEstimator cfg)) = Some cpt ->
  Forall (fun mode => exceeds (tierEstimate fs a preset dir mode cpt) budget) modes ->
  fitLoop fs a cfg dir outDir resolvedModel budget preset modes
  = (fs, Threw (Error (budgetMessage budget))).
Proof.
  intros Hcpt Hall.
  induction Hall as [|mode rest Hex _ IH]; [reflexivity|].
  destruct (exceeds_inv _ _ _ Hex) as (filePaths & Hfiles & Hover).
  now rewrite (fitLoop_turn _ _ _ _ _ Hfiles Hcpt Hover).
Qed.

(** The loop writes only where a tier fits: it returns, or one of its
    two [writeFileSync] throws, or the tree is as it was. *)
Lemma fitLoop_frame fs modes :
  (exists meta,
     snd (fitLoop fs a cfg dir outDir resolvedModel budget preset modes)
     = Returned meta)
  \/ snd (fitLoop fs a cfg dir outDir resolvedModel budget preset modes)
     = Threw WriteError
  \/ fst (fitLoop fs a cfg dir outDir resolvedModel budget preset modes) = fs.
Proof.
  induction modes as [|mode rest IH]; [now right; right|].
  cbn [fitLoop].
  destruct (tierFiles fs a preset dir mode) as [filePaths|]; [|now right; right].
  destruct (toNum (charsPerToken (tokenEstimator cfg))) as [cpt|];
    [|now right; right].
  destruct (lessEq _ budget); [|exact IH].
  destruct (toNumber (maxFileBytes (tokenEstimator cfg))) as [maxBytes|];
    [|now right; right].
  destruct (buildXml _ _ _ maxBytes true) as [built|]; [|now right; right].
  destruct (Fs.writeFileSync (path_join outDir "active_context.xml") _ fs)
    as [fs1|]; [|now right; left].
  destruct (Fs.writeFileSync (path_join outDir "active_context.meta.json") _ fs1)
    as [fs2|]; [|now right; left].
  left. eexists. reflexivity.
Qed.

(** Whatever the outcome, the loop changes nothing but the two output
    files, and turns no directory into something else. *)
Lemma fitLoop_other fs modes q :
  q <> path_join outDir "active_context.xml" ->
  q <> path_join outDir "active_context.meta.json" ->
  Fs.nodes (fst (fitLoop fs a cfg dir outDir resolvedModel budget preset modes)) q
  = Fs.nodes fs q.
Proof.
  intros Hxml Hmeta.
  induction modes as [|mode rest IH]; [reflexivity|].
  cbn [fitLoop].
  destruct (tierFiles fs a preset dir mode) as [filePaths|]; [|reflexivity].
  destruct (toNum (charsPerToken (tokenEstimator cfg))) as [cpt|]; [|reflexivity].
  destruct (lessEq _ budget); [|exact IH].
  destruct (toNumber (maxFileBytes (tokenEstimator cfg))) as [maxBytes|];
    [|reflexivity].
  destruct (buildXml _ _ _ maxBytes true) as [built|]; [|reflexivity].
  destruct (Fs.writeFileSync (path_join outDir "active_context.xml") _ fs)
    as [fs1|] eqn:Hw1; [|reflexivity].
  pose proof (writeFileSync_other _ _ _ _ q Hw1 Hxml) as H1.
  destruct (Fs.writeFileSync (path_join outDir "active_context.meta.json") _ fs1)
    as [fs2|] eqn:Hw2; [|exact H1].
  cbn [fst]. now rewrite (writeFileSync_other _ _ _ _ q Hw2 Hmeta).
Qed.

Lemma fitLoop_dirs fs modes q :
  Fs.dirs (fst (fitLoop fs a cfg dir outDir resolvedModel budget preset modes)) q
  = Fs.dirs fs q.
Proof.
  induction modes as [|mode rest IH]; [reflexivity|].
  cbn [fitLoop].
  destruct (tierFiles fs a preset dir mode) as [filePaths|]; [|reflexivity].
  destruct (toNum (charsPerToken (tokenEstimator cfg))) as [cpt|]; [|reflexivity].
  destruct (lessEq _ budget); [|exact IH].
  destruct (toNumber (maxFileBytes (tokenEstimator cfg))) as [maxBytes|];
    [|reflexivity].
  destruct (buildXml _ _ _ maxBytes true) as [built|]; [|reflexivity].
  destruct (Fs.writeFileSync (path_join outDir "active_context.xml") _ fs)
    as [fs1|] eqn:Hw1; [|reflexivity].
  pose proof (writeFileSync_dirs _ _ _ _ q Hw1) as H1.
  destruct (Fs.writeFileSync (path_join outDir "active_context.meta.json") _ fs1)
    as [fs2|] eqn:Hw2; [|exact H1].
  cbn [fst]. now rewrite (writeFileSync_dirs _ _ _ _ q Hw2).
Qed.

(** The loop ends in the budget error, or in an exception of
    [listFiles], [statSync] or [writeFileSync], with the tree it
    started from, unless the metadata file was being written. *)
Lemma fitLoop_error fs modes fs' msg :
  fitLoop fs a cfg dir outDir resolvedModel budget preset modes
  = (fs', Threw (Error msg)) ->
  fs' = fs /\ msg = budgetMessage budget.
Proof.
  induction modes as [|mode rest IH]; [now intros [= <- <-]|].
  cbn [fitLoop].
  destruct (tierFiles fs a preset dir mode) as [filePaths|]; [|discriminate].
  destruct (toNum (charsPerToken (tokenEstimator cfg))) as [cpt|]; [|discriminate].
  destruct (lessEq _ budget); [|exact IH].
  destruct (toNumber (maxFileBytes (tokenEstimator cfg))) as [maxBytes|];
    [|discriminate].
  destruct (buildXml _ _ _ maxBytes true) as [built|]; [|discriminate].
  destruct (Fs.writeFileSync (path_join outDir "active_context.xml") _ fs)
    as [fs1|]; [|discriminate].
  destruct (Fs.writeFileSync (path_join outDir "active_context.meta.json") _ fs1)
    as [fs2|]; discriminate.
Qed.

(** A returned record comes from the first tier that fits. *)
Lemma fitLoop_returned fs modes fs' meta :
  fitLoop fs a cfg dir outDir resolvedModel budget preset modes
  = (fs', Returned meta) ->
  exists tried mode later cpt filePaths est maxBytes built fs1,
    modes = (tried ++ mode :: later)%list
    /\ toNum (charsPerToken (tokenEstimator cfg)) = Some cpt
    /\ Forall (fun m => exceeds (tierEstimate fs a preset dir m cpt) budget) tried
    /\ tierFiles fs a preset dir mode = Some filePaths
    /\ tierEstimate fs a preset dir mode cpt = Some est
    /\ lessEq est budget = true
    /\ toNumber (maxFileBytes (tokenEstimator cfg)) = Some maxBytes
    /\ buildXml fs (repoRoot a) filePaths maxBytes true = Some built
    /\ meta = SliceMetadata (repoRoot a) preset (target a) resolvedModel
                budget mode est built
    /\ Fs.writeFileSync (path_join outDir "active_context.xml") (xml built) fs
       = Some fs1
    /\ Fs.writeFileSync (path_join outDir "active_context.meta.json")
         (JSON_stringify meta) fs1
       = Some fs'.
Proof.
  induction modes as [|mode rest IH]; [discriminate|].
  cbn [fitLoop].
  destruct (tierFiles fs a preset dir mode) as [filePaths|] eqn:Hfiles;
    [|discriminate].
  destruct (toNum (charsPerToken (tokenEstimator cfg))) as [cpt|] eqn:Hcpt;
    [|discriminate].
  assert (Hest : tierEstimate fs a preset dir mode cpt
                 = Some (estimateTokensFromBytes (sumFileSizes fs filePaths) cpt)).
  { unfold tierEstimate. now rewrite Hfiles. }
  destruct (lessEq (estimateTokensFromBytes (sumFileSizes fs filePaths) cpt) budget)
    eqn:Hfit.
  - destruct (toNumber (maxFileBytes (tokenEstimator cfg))) as [maxBytes|];
      [|discriminate].
    destruct (buildXml _ _ _ maxBytes true) as [built|] eqn:Hbuilt; [|discriminate].
    destruct (Fs.writeFileSync (path_join outDir "active_context.xml") _ fs)
      as [fs1|] eqn:Hw1; [|discriminate].
    destruct (Fs.writeFileSync (path_join outDir "active_context.meta.json") _ fs1)
      as [fs2|] eqn:Hw2; [|discriminate].
    intros [= <- <-].
    exists [], mode, rest, cpt, filePaths,
      (estimateTokensFromBytes (sumFileSizes fs filePaths) cpt), maxBytes, built, fs1.
    split; [reflexivity|]. split; [reflexivity|]. split; [constructor|].
    split; [exact Hfiles|]. split; [exact Hest|]. split; [exact Hfit|].
    split; [reflexivity|]. split; [exact Hbuilt|]. split; [reflexivity|].
    split; [exact Hw1 | exact Hw2].
  - intros Hrest.
    destruct (IH Hrest)
      as (tried & m & later & c & fp & e & mb & b & f1 & -> & Hc & Htried & Hrem).
    injection Hc as <-.
    exists (mode :: tried), m, later, cpt, fp, e, mb, b, f1.
    split; [reflexivity|]. split; [reflexivity|].
    split; [|exact Hrem].
    constructor; [|exact Htried]. rewrite Hest. exact Hfit.
Qed.

End Loop.

Section Invocation.
Context {h : Host}.

Variables (w : World) (fs0 : Fs.FS) (a : Args).

(** The invocation once the configuration is loaded and the output
    directory made. *)
Lemma focusAuto_settled (cfg : Config) (dir : string) (fs1 : Fs.FS)
      (detected : option string) :
  loadConfig (configFile w) = inr cfg ->
  outputDir cfg = JStr dir ->
  settle w fs0 a dir = Some (fs1, detected) ->
  focusAuto w fs0 a
  = match resolveBudget a (resolveModel w a detected) cfg with
    | Some b =>
        fitLoop fs1 a cfg dir (path_join (repoRoot a) dir) (resolveModel w a detected)
          b (resolvePreset fs1 a cfg) (chooseModes b)
    | None => (fs1, OutsideModel)
    end.
Proof. intros Hcfg Hdir Hsettle. unfold focusAuto. now rewrite Hcfg, Hdir, Hsettle. Qed.

(** What the first statements leave of the tree: the regular files
    that are no snapshot are as before, every node that is neither a
    snapshot nor the output directory or an ancestor of it is as
    before, and the directory is there. *)
Lemma settle_tree (dir : string) (fs1 : Fs.FS) (detected : option string) :
  settle w fs0 a dir = Some (fs1, detected) ->
  let out := path_join (repoRoot a) dir in
  Fs.dirs fs1 out = true
  /\ (forall q, Fs.dirs fs0 q = true -> Fs.dirs fs1 q = true)
  /\ (forall q, ~ isSnapshot w q -> Fs.files fs1 q = Fs.files fs0 q)
  /\ (forall q, ~ isSnapshot w q -> ~ In q (out :: path_ancestors out) ->
                Fs.nodes fs1 q = Fs.nodes fs0 q)
  /\ (hasSqlite (editor w) = false ->
      makeOutDir out fs0 = Some fs1
      /\ forall q, Fs.files fs1 q = Fs.files fs0 q).
Proof.
  intros Hdet out. unfold settle, makeOutDir in Hdet. fold out in Hdet.
  destruct (Fs.mkdirSync _ fs0) as [made|] eqn:Hmk; [|discriminate].
  assert (Hfs : fs1 = fst (detectModelFromVSCodeGlobalState (editor w) made)).
  { injection Hdet as Hdet. now rewrite Hdet. }
  assert (Hfresh : forall q, ~ isSnapshot w q ->
                             forall draw, q <> snapshotPath (editor w) draw).
  { intros q Hq draw ->. apply Hq. now exists draw. }
  subst fs1. repeat split.
  - rewrite detect_dirs. apply (mkdirSync_made _ _ _ _ Hmk). now left.
  - intros q Hq. rewrite detect_dirs. now apply (mkdirSync_keeps_dirs _ _ _ _ Hmk).
  - intros q Hq. rewrite <- (mkdirSync_files _ _ _ q Hmk).
    apply files_of_nodes, detect_other, Hfresh, Hq.
  - intros q Hq Hout. rewrite (detect_other _ _ _ (Hfresh _ Hq)).
    now apply (mkdirSync_other _ _ _ _ Hmk).
  - unfold makeOutDir. fold out. rewrite Hmk.
    now rewrite (detect_without_sqlite _ _ H).
  - intros q. rewrite (detect_without_sqlite _ _ H). cbn [fst].
    apply (mkdirSync_files _ _ _ _ Hmk).
Qed.

(** A regular file the first statements change is a snapshot. *)
Lemma settle_changed (dir : string) (fs1 : Fs.FS) (detected : option string)
      (q : string) :
  settle w fs0 a dir = Some (fs1, detected) ->
  Fs.files fs1 q = Fs.files fs0 q \/ isSnapshot w q.
Proof.
  unfold settle, makeOutDir.
  destruct (Fs.mkdirSync _ fs0) as [made|] eqn:Hmk; [|discriminate].
  intros Hdet.
  assert (Hfs : fs1 = fst (detectModelFromVSCodeGlobalState (editor w) made)).
  { injection Hdet as Hdet. now rewrite Hdet. }
  subst fs1.
  destruct (detect_changed (editor w) made q) as [Hsame | [d Hd]].
  - left. rewrite <- (mkdirSync_files _ _ _ q Hmk). now apply files_of_nodes.
  - right. now exists d.
Qed.

(** C1 (amended). When every tier tried for the budget has an estimate
    above it, [focusAuto] throws a plain [Error] whose message names
    the attempted budget and nothing else, and returns no metadata
    record. *)
Theorem focusAuto_budget_exceeded (cfg : Config) (dir : string) (budget : Q)
        (cpt : Num) (fs1 : Fs.FS) (detected : option string) :
  loadConfig (configFile w) = inr cfg ->
  outputDir cfg = JStr dir ->
  settle w fs0 a dir = Some (fs1, detected) ->
  resolveBudget a (resolveModel w a detected) cfg = Some budget ->
  toNum (charsPerToken (tokenEstimator cfg)) = Some cpt ->
  Forall (fun mode =>
            exceeds (tierEstimate fs1 a (resolvePreset fs1 a cfg) dir mode cpt) budget)
         (chooseModes budget) ->
  snd (focusAuto w fs0 a)
  = Threw (Error ("Unable to generate slice within budget="
                  ++ JsNumber.numberToString budget ++ " tokens"))
  /\ forall meta, snd (focusAuto w fs0 a) <> Returned meta.
Proof.
  intros Hcfg Hdir Hsettle Hbudget Hcpt Hall.
  assert (Hrun : snd (focusAuto w fs0 a) = Threw (Error (budgetMessage budget))).
  { rewrite (focusAuto_settled _ _ _ _ Hcfg Hdir Hsettle), Hbudget.
    now rewrite (fitLoop_exhausted _ _ _ _ _ _ _ _ _ _ Hcpt Hall). }
  split; [exact Hrun|].
  intros meta. rewrite Hrun. discriminate.
Qed.

(** How an invocation that throws an [Error] got there. *)
Lemma focusAuto_error_inv (fs' : Fs.FS) (msg : string) :
  focusAuto w fs0 a = (fs', Threw (Error msg)) ->
  exists cfg dir detected budget,
    loadConfig (configFile w) = inr cfg
    /\ outputDir cfg = JStr dir
    /\ settle w fs0 a dir = Some (fs', detected)
    /\ resolveBudget a (resolveModel w a detected) cfg = Some budget
    /\ msg = budgetMessage budget.
Proof.
  unfold focusAuto.
  destruct (loadConfig (configFile w)) as [e|c] eqn:Hcfg; [discriminate|].
  destruct (outputDir c) as [| | |d| | | |] eqn:Hdir; try discriminate.
  destruct (settle w fs0 a d) as [[fs1 detected]|] eqn:Hsettle; [|discriminate].
  destruct (resolveBudget a (resolveModel w a detected) c) as [b|] eqn:Hb;
    [|discriminate].
  intros Hrun. apply fitLoop_error in Hrun as [-> ->].
  exists c, d, detected, b. repeat split; first [assumption | reflexivity].
Qed.

(** C9 (amended). An invocation that ends in the budget error has
    written neither output file: every regular file other than the
    snapshots of the model detection reads as before, the outputs of
    an earlier run among them, and besides the snapshots the tree
    differs from the initial one by the created directory only; where
    there is no [sqlite3], and so no snapshot, it is the initial tree
    with the directory made. *)
Theorem focusAuto_failure_keeps_files (fs' : Fs.FS) (msg : string) :
  focusAuto w fs0 a = (fs', Threw (Error msg)) ->
  exists out,
    Fs.dirs fs' out = true
    /\ (forall p, ~ isSnapshot w p ->
                  Fs.files fs' p = Fs.files fs0 p
                  /\ Fs.readFileSync fs' p = Fs.readFileSync fs0 p)
    /\ (forall p, ~ isSnapshot w p -> ~ In p (out :: path_ancestors out) ->
                  Fs.nodes fs' p = Fs.nodes fs0 p)
    /\ (hasSqlite (editor w) = false ->
        makeOutDir out fs0 = Some fs'
        /\ forall p, Fs.files fs' p = Fs.files fs0 p).
Proof.
  intros Hrun.
  destruct (focusAuto_error_inv _ _ Hrun)
    as (cfg & dir & detected & budget & _ & _ & Hsettle & _ & _).
  exists (path_join (repoRoot a) dir).
  destruct (settle_tree _ _ _ Hsettle) as (Hdir & _ & Hfiles & Hnodes & Hbare).
  split; [exact Hdir|]. split; [|split; [exact Hnodes | exact Hbare]].
  intros p Hp. split; [now apply Hfiles|].
  now apply readFileSync_of_files, Hfiles.
Qed.

(** C10 (amended). Once the configuration has loaded, the output
    directory is made before the model, the budget, the preset and
    the tiers are resolved.  Where [mkdirSync] succeeds the directory
    exists after the invocation, whatever the outcome, and the tiers
    are tried on the tree that has it; when the invocation ends in the
    budget error, the directory and the snapshots of the model
    detection are the only changes.  Where [mkdirSync] throws, a
    regular file being in the way, the invocation ends there. *)
Theorem focusAuto_creates_output_dir (cfg : Config) (dir : string) :
  loadConfig (configFile w) = inr cfg ->
  outputDir cfg = JStr dir ->
  let out := path_join (repoRoot a) dir in
  (forall made,
     makeOutDir out fs0 = Some made ->
     let settled := detectModelFromVSCodeGlobalState (editor w) made in
     Fs.existsSync (fst (focusAuto w fs0 a)) out = true
     /\ Fs.dirs (fst (focusAuto w fs0 a)) out = true
     /\ focusAuto w fs0 a
        = match resolveBudget a (resolveModel w a (snd settled)) cfg with
          | Some b =>
              fitLoop (fst settled) a cfg dir out (resolveModel w a (snd settled)) b
                (resolvePreset (fst settled) a cfg) (chooseModes b)
          | None => (fst settled, OutsideModel)
          end
     /\ (forall msg,
           snd (focusAuto w fs0 a) = Threw (Error msg) ->
           fst (focusAuto w fs0 a) = fst settled
           /\ (forall p, ~ isSnapshot w p -> ~ In p (out :: path_ancestors out) ->
                         Fs.nodes (fst (focusAuto w fs0 a)) p = Fs.nodes fs0 p)
           /\ (hasSqlite (editor w) = false -> fst (focusAuto w fs0 a) = made)))
  /\ (makeOutDir out fs0 = None -> focusAuto w fs0 a = (fs0, Threw MkdirError)).
Proof.
  intros Hcfg Hdir out. split.
  - intros made Hmade settled.
    assert (Hsettle : settle w fs0 a dir = Some (fst settled, snd settled)).
    { unfold settle. fold out. rewrite Hmade. unfold settled.
      now destruct (detectModelFromVSCodeGlobalState (editor w) made). }
    pose proof (focusAuto_settled _ _ _ _ Hcfg Hdir Hsettle) as Hunfold.
    fold out in Hunfold.
    destruct (settle_tree _ _ _ Hsettle) as (Hthere & _ & _ & Hnodes & Hbare).
    fold out in Hthere, Hnodes, Hbare.
    assert (Hdirs : Fs.dirs (fst (focusAuto w fs0 a)) out = true).
    { rewrite Hunfold.
      destruct (resolveBudget a (resolveModel w a (snd settled)) cfg) as [b|];
        [|exact Hthere].
      now rewrite fitLoop_dirs. }
    split; [now apply existsSync_dirs|]. split; [exact Hdirs|].
    split; [exact Hunfold|].
    intros msg Hthrown.
    assert (Hsame : fst (focusAuto w fs0 a) = fst settled).
    { destruct (focusAuto w fs0 a) as [fs' o] eqn:Hrun. cbn [snd fst] in *. subst o.
      destruct (focusAuto_error_inv _ _ Hrun)
        as (cfg' & dir' & detected' & budget' & Hcfg' & Hdir' & Hsettle' & _).
      rewrite Hcfg in Hcfg'. injection Hcfg' as <-.
      rewrite Hdir in Hdir'. injection Hdir' as <-.
      rewrite Hsettle in Hsettle'. now injection Hsettle' as -> _. }
    split; [exact Hsame|]. split.
    + intros p Hp Hout. rewrite Hsame. now apply Hnodes.
    + intros Hno. rewrite Hsame. destruct (Hbare Hno) as [Hmk _].
      rewrite Hmade in Hmk. now injection Hmk.
  - intros Hblocked. unfold focusAuto, settle. rewrite Hcfg, Hdir.
    fold out. now rewrite Hblocked.
Qed.

(** C3 (amended). The record a successful fit returns, and writes to
    [active_context.meta.json], has the nine fields [repoRoot],
    [preset], [target], [model], [budgetTokens], [mode],
    [totalTokens], [totalFiles], [totalChars] and no other; [mode]
    holds the name of the first tier that fits. *)
Theorem focusAuto_metadata_fields (fs' : Fs.FS) (meta : JValue) :
  focusAuto w fs0 a = (fs', Returned meta) ->
  fieldNames meta = writtenFields
  /\ exists c d fs1 detected b cpt tried mode later est,
       loadConfig (configFile w) = inr c
       /\ outputDir c = JStr d
       /\ settle w fs0 a d = Some (fs1, detected)
       /\ resolveBudget a (resolveModel w a detected) c = Some b
       /\ toNum (charsPerToken (tokenEstimator c)) = Some cpt
       /\ chooseModes b = (tried ++ mode :: later)%list
       /\ Forall (fun m =>
                    exceeds (tierEstimate fs1 a (resolvePreset fs1 a c) d m cpt) b)
                 tried
       /\ tierEstimate fs1 a (resolvePreset fs1 a c) d mode cpt = Some est
       /\ lessEq est b = true
       /\ prop meta "mode" = Some (JStr mode)
       /\ prop meta "totalTokens" = Some (ofNum est)
       /\ Fs.readFileSync fs'
            (path_join (path_join (repoRoot a) d) "active_context.meta.json")
          = Some (JSON_stringify meta).
Proof.
  unfold focusAuto.
  destruct (loadConfig (configFile w)) as [e|c] eqn:Hcfg; [discriminate|].
  destruct (outputDir c) as [| | |d| | | |] eqn:Hdir; try discriminate.
  destruct (settle w fs0 a d) as [[fs1 detected]|] eqn:Hsettle; [|discriminate].
  destruct (resolveBudget a (resolveModel w a detected) c) as [b|] eqn:Hb;
    [|discriminate].
  intros Hrun.
  apply fitLoop_returned in Hrun
    as (tried & mode & later & cpt & filePaths & est & maxBytes & built & fs2
        & Hmodes & Hcpt & Htried & _ & Hest & Hle & _ & _ & -> & _ & Hwrite).
  split; [reflexivity|].
  exists c, d, fs1, detected, b, cpt, tried, mode, later, est.
  repeat (split; [first [reflexivity | assumption]|]).
  split; [now destruct est|].
  apply (writeFileSync_read _ _ _ _ Hwrite).
Qed.

End Invocation.

(** *** The theorems above on concrete repositories *)

Import Scenarios.

(** With a budget of 1 the tiers tried are the two leanest; on the
    10-byte repository each is estimated at 3 tokens. *)
Lemma focusAuto_budget_exceeded_witness :
  Forall (fun mode =>
            exceeds (tierEstimate (h := host1) (madeTree treeA) (invoke 1)
                       (JStr "generic") ".context-slicer" mode (Finite 4)) 1)
         (chooseModes 1)
  /\ snd (focusAuto (h := host1) bareWorld treeA (invoke 1))
     = Threw (Error "Unable to generate slice within budget=1 tokens").
Proof.
  assert (Hall :
    Forall (fun mode =>
              exceeds (tierEstimate (h := host1) (madeTree treeA) (invoke 1)
                         (JStr "generic") ".context-slicer" mode (Finite 4)) 1)
           (chooseModes 1)).
  { repeat constructor. }
  split; [exact Hall|].
  exact (proj1 (focusAuto_budget_exceeded (h := host1) bareWorld treeA (invoke 1)
                  defaults ".context-slicer" 1 (Finite 4) (madeTree treeA) None
                  eq_refl eq_refl eq_refl eq_refl eq_refl Hall)).
Defined.

(** C1, as stated, fails: two repositories whose tiers are estimated at
    3 and at 5 tokens end, for the same budget, in the very same error;
    the estimate is not in it. *)
Lemma budget_error_omits_estimate :
  map (fun mode => tierEstimate (h := host1) (madeTree treeA) (invoke 1)
                     (JStr "generic") ".context-slicer" mode (Finite 4))
      (chooseModes 1)
  = [Some (Finite 3); Some (Finite 3)]
  /\ map (fun mode => tierEstimate (h := host1) (madeTree treeB) (invoke 1)
                        (JStr "generic") ".context-slicer" mode (Finite 4))
         (chooseModes 1)
     = [Some (Finite 5); Some (Finite 5)]
  /\ snd (focusAuto (h := host1) bareWorld treeA (invoke 1))
     = Threw (Error "Unable to generate slice within budget=1 tokens")
  /\ snd (focusAuto (h := host1) bareWorld treeB (invoke 1))
     = Threw (Error "Unable to generate slice within budget=1 tokens").
Proof. repeat split; reflexivity. Qed.

(** No path of the example trees is a snapshot: the snapshots are in
    [/tmp]. *)
Lemma not_a_snapshot (w : World) (p : string) :
  editor w = noSqlite \/ editor w = emptyState ->
  String.prefix "/tmp/" p = false ->
  ~ isSnapshot (h := host1) w p.
Proof.
  intros Hw Hp [draw ->].
  assert (Hpath : snapshotPath (h := host1) (editor w) draw
                  = "/tmp/vscode-state-4242-8c1f.vscdb").
  { destruct Hw as [-> | ->]; reflexivity. }
  rewrite Hpath in Hp. vm_compute in Hp. discriminate Hp.
Qed.

Lemma focusAuto_failure_keeps_files_witness :
  snd (focusAuto (h := host1) watchedWorld treeWatched (invoke 1))
  = Threw (Error "Unable to generate slice within budget=1 tokens")
  /\ Fs.readFileSync (fst (focusAuto (h := host1) watchedWorld treeWatched (invoke 1)))
       "/repo/.context-slicer/active_context.xml"
     = Some "<context_slicer/>"
  /\ Fs.readFileSync (fst (focusAuto (h := host1) watchedWorld treeWatched (invoke 1)))
       "/repo/.context-slicer/active_context.meta.json"
     = Some "{}".
Proof.
  split; [reflexivity|].
  destruct (focusAuto_failure_keeps_files (h := host1) watchedWorld treeWatched
              (invoke 1)
              (fst (focusAuto (h := host1) watchedWorld treeWatched (invoke 1)))
              "Unable to generate slice within budget=1 tokens" eq_refl)
    as (out & _ & Hread & _).
  split.
  - rewrite (proj2 (Hread "/repo/.context-slicer/active_context.xml"
                      (not_a_snapshot watchedWorld
                         "/repo/.context-slicer/active_context.xml"
                         (or_intror eq_refl) eq_refl))).
    reflexivity.
  - rewrite (proj2 (Hread "/repo/.context-slicer/active_context.meta.json"
                      (not_a_snapshot watchedWorld
                         "/repo/.context-slicer/active_context.meta.json"
                         (or_intror eq_refl) eq_refl))).
    reflexivity.
Defined.

(** C9, as stated, fails: on a machine with [sqlite3] and the editor's
    state file, an invocation that ends in the budget error has also
    left a copy of the state file in the temporary directory, a path
    that is neither the output directory nor an ancestor of it. *)
Lemma failure_leaves_snapshot :
  snd (focusAuto (h := host1) watchedWorld treeWatched (invoke 1))
  = Threw (Error "Unable to generate slice within budget=1 tokens")
  /\ Fs.readFileSync treeWatched "/tmp/vscode-state-4242-8c1f.vscdb" = None
  /\ Fs.readFileSync (fst (focusAuto (h := host1) watchedWorld treeWatched (invoke 1)))
       "/tmp/vscode-state-4242-8c1f.vscdb"
     = Some "SQLite format 3"
  /\ makeOutDir (h := host1) "/repo/.context-slicer" treeWatched
     <> Some (fst (focusAuto (h := host1) watchedWorld treeWatched (invoke 1))).
Proof.
  split; [reflexivity|]. split; [reflexivity|]. split; [reflexivity|].
  intros Heq.
  assert (Hread :
    match makeOutDir (h := host1) "/repo/.context-slicer" treeWatched with
    | Some fs => Fs.readFileSync fs "/tmp/vscode-state-4242-8c1f.vscdb"
    | None => None
    end = Some "SQLite format 3").
  { rewrite Heq. reflexivity. }
  discriminate Hread.
Qed.

Lemma focusAuto_creates_output_dir_witness :
  Fs.existsSync treeA "/repo/.context-slicer" = false
  /\ Fs.existsSync (fst (focusAuto (h := host1) bareWorld treeA (invoke 1)))
       "/repo/.context-slicer" = true
  /\ focusAuto (h := host1) bareWorld treeBlocked (invoke 1)
     = (treeBlocked, Threw MkdirError).
Proof.
  split; [reflexivity|].
  split.
  - exact (proj1 (proj1 (focusAuto_creates_output_dir (h := host1) bareWorld treeA
                           (invoke 1) defaults ".context-slicer" eq_refl eq_refl)
                    (madeTree treeA) eq_refl)).
  - exact (proj2 (focusAuto_creates_output_dir (h := host1) bareWorld treeBlocked
                    (invoke 1) defaults ".context-slicer" eq_refl eq_refl)
             eq_refl).
Defined.

(** C10, as stated, fails: with a configuration file that does not
    parse the invocation ends before the directory is made. *)
Lemma malformed_config_makes_no_directory :
  focusAuto (h := host1) (worldWith Malformed) treeA (invoke 1)
  = (treeA, Threw (ConfigError SyntaxError))
  /\ Fs.existsSync
       (fst (focusAuto (h := host1) (worldWith Malformed) treeA (invoke 1)))
       "/repo/.context-slicer" = false.
Proof. split; reflexivity. Qed.

(** Nor is the directory made where a regular file has its name:
    [mkdirSync] throws. *)
Lemma blocked_directory_is_not_made :
  focusAuto (h := host1) bareWorld treeBlocked (invoke 1)
  = (treeBlocked, Threw MkdirError)
  /\ Fs.dirs (fst (focusAuto (h := host1) bareWorld treeBlocked (invoke 1)))
       "/repo/.context-slicer" = false.
Proof. split; reflexivity. Qed.

Lemma focusAuto_metadata_fields_witness :
  snd (focusAuto (h := host1) bareWorld treeA (invoke 7)) = Returned metaA
  /\ fieldNames metaA = writtenFields.
Proof.
  split; [reflexivity|].
  exact (proj1 (focusAuto_metadata_fields (h := host1) bareWorld treeA (invoke 7)
                  (fst (focusAuto (h := host1) bareWorld treeA (invoke 7)))
                  metaA eq_refl)).
Defined.

(** C3, as stated, fails: the record of a successful fit has no field
    named [tier]; the tier is in the field [mode]. *)
Lemma metadata_has_no_tier_field :
  snd (focusAuto (h := host1) bareWorld treeA (invoke 7)) = Returned metaA
  /\ prop metaA "tier" = None
  /\ prop metaA "mode" = Some (JStr "lite-compress")
  /\ fieldNames metaA <> specifiedFields.
Proof. repeat split; try reflexivity. discriminate. Qed.

End FocusAutoProps.

(** ** The size ceiling *)

Module CeilingProps.
Import Json Double Config Packer FocusAuto FocusAutoSpec Scenarios.

Section WithHost.
Context {h : Host}.

Variables (fs : Fs.FS) (repoRoot : string) (maxFileBytes : Q) (strip : bool).

(** [buildXml] passes over a file above the ceiling without a trace. *)
Lemma packFiles_skips_oversized p st rest totalChars entries :
  Fs.statSync fs p = Some st ->
  maxFileBytes < inject_Z (Fs.st_size st) ->
  packFiles fs repoRoot maxFileBytes strip (p :: rest) totalChars entries
  = packFiles fs repoRoot maxFileBytes strip rest totalChars entries.
Proof.
  intros Hst Hbig. cbn [packFiles]. unfold safeReadText. rewrite Hst.
  destruct (Fs.isFile st); [|reflexivity].
  cbn [negb]. now rewrite (TiersProps.Qle_bool_false _ _ Hbig).
Qed.

(** [sumFileSizes] adds the size of every regular file, whatever it is. *)
Lemma sumFileSizesFrom_counts p st rest total :
  Fs.statSync fs p = Some st ->
  Fs.isFile st = true ->
  sumFileSizesFrom fs total (p :: rest)
  = sumFileSizesFrom fs (total + Fs.st_size st) rest.
Proof.
  intros Hst Hfile. cbn [sumFileSizesFrom]. now rewrite Hst, Hfile.
Qed.

End WithHost.

(** C2. A repository under the default configuration whose only matched
    file is one byte above the ceiling of 1 MiB: the pack leaves the
    file out, the byte sum counts it, and the estimate of 262145 tokens
    that follows is above the budget of 16000 in every tier. *)
Theorem oversized_file_counts_in_estimate :
  Fs.statSync treeHuge "/repo/src/a.txt"
  = Some {| Fs.isFile := true; Fs.st_size := 1048577 |}
  /\ maxFileBytes (tokenEstimator defaults) = JNum (1024 * 1024)
  /\ listFiles (h := host1) treeHuge "/repo" ["src/**"] = Some ["/repo/src/a.txt"]
  /\ buildXml (h := host1) treeHuge "/repo" ["/repo/src/a.txt"] (1024 * 1024) true
     = Some {| xml := document []; totalChars := 0; totalFiles := 0 |}
  /\ sumFileSizes treeHuge ["/repo/src/a.txt"] = 1048577%Z
  /\ estimateTokensFromBytes 1048577 (Finite 4) = Finite 262145
  /\ snd (focusAuto (h := host1) bareWorld treeHuge invokeDefault)
     = Threw (Error "Unable to generate slice within budget=16000 tokens").
Proof. repeat split; reflexivity. Qed.

End CeilingProps.


(** ** Strings *)

Module StringProps.
Import JsString XmlReader.


Lemma append_assoc (a b c : string) : (a ++ b) ++ c = a ++ (b ++ c).
Proof. induction a as [|x a IH]; simpl; [reflexivity | now rewrite IH]. Qed.

Lemma prefix_nil (s : string) : prefix EmptyString s = true.
Proof. now destruct s. Qed.

Lemma prefix_cons (a b : ascii) (p s : string) :
  prefix (String a p) (String b s) = Ascii.eqb a b && prefix p s.
Proof.
  cbn [prefix]. destruct (ascii_dec a b) as [->|Hne].
  - now rewrite Ascii.eqb_refl.
  - apply Ascii.eqb_neq in Hne. now rewrite Hne.
Qed.


Lemma prefix_split (p s : string) :
  prefix p s = true -> s = p ++ slice (String.length p) s.
Proof.
  revert s. induction p as [|a p IH]; intros [|b s]; simpl;
    try reflexivity; try discriminate.
  destruct (ascii_dec a b) as [->|]; [|discriminate].
  intros Hp. now rewrite <- (IH s Hp).
Qed.




Lemma replaceFrom_skip (pat rep : string) (k : nat) (s : string) :
  replaceFrom pat rep k s = replaceAll pat rep (slice k s).
Proof.
  unfold replaceAll. revert k.
  induction s as [|c s IH]; intros [|k]; try reflexivity.
  simpl. apply IH.
Qed.

Lemma replaceAll_match (pat rep : string) (c : ascii) (s : string) :
  prefix pat (String c s) = true ->
  replaceAll pat rep (String c s)
  = rep ++ replaceAll pat rep (slice (String.length pat - 1) s).
Proof.
  intros Hp. unfold replaceAll at 1. cbn [replaceFrom]. rewrite Hp.
  now rewrite replaceFrom_skip.
Qed.

Lemma replaceAll_no_match (pat rep : string) (c : ascii) (s : string) :
  prefix pat (String c s) = false ->
  replaceAll pat rep (String c s) = String c (replaceAll pat rep s).
Proof.
  intros Hp. unfold replaceAll. cbn [replaceFrom]. now rewrite Hp.
Qed.

End StringProps.

(** ** The packed document reads back *)

Module XmlProps.
Import JsString Packer PackerSpec XmlReader StringProps.


Lemma countFrom_skip (pat : string) (k : nat) (s : string) :
  countFrom pat k s = occurrences pat (slice k s).
Proof.
  unfold occurrences. revert k.
  induction s as [|c s IH]; intros [|k]; try reflexivity.
  simpl. apply IH.
Qed.








(** *** The path attribute *)

Lemma replaceAll_unit_cons (p c : ascii) (rep s : string) :
  replaceAll (String p EmptyString) rep (String c s)
  = (if Ascii.eqb p c then rep else String c EmptyString)
    ++ replaceAll (String p EmptyString) rep s.
Proof.
  destruct (Ascii.eqb p c) eqn:E.
  - rewrite replaceAll_match; [reflexivity|].
    now rewrite prefix_cons, prefix_nil, E.
  - rewrite replaceAll_no_match; [reflexivity|].
    now rewrite prefix_cons, E.
Qed.

Lemma replaceAll_unit_append (p : ascii) (rep a b : string) :
  replaceAll (String p EmptyString) rep (a ++ b)
  = replaceAll (String p EmptyString) rep a
    ++ replaceAll (String p EmptyString) rep b.
Proof.
  induction a as [|c a IH]; [reflexivity|].
  cbn [append]. rewrite !replaceAll_unit_cons, IH.
  now rewrite append_assoc.
Qed.

Lemma escapeXmlAttr_append (a b : string) :
  escapeXmlAttr (a ++ b) = escapeXmlAttr a ++ escapeXmlAttr b.
Proof.
  unfold escapeXmlAttr, dquote. now rewrite !replaceAll_unit_append.
Qed.

Lemma escapeXmlAttr_unit (c : ascii) :
  escapeXmlAttr (String c EmptyString) = escapeChar c.
Proof.
  unfold escapeChar.
  destruct (Ascii.eqb c "&"%char) eqn:E1;
    [apply Ascii.eqb_eq in E1; now subst|].
  destruct (Ascii.eqb c "034"%char) eqn:E2;
    [apply Ascii.eqb_eq in E2; now subst|].
  destruct (Ascii.eqb c "<"%char) eqn:E3;
    [apply Ascii.eqb_eq in E3; now subst|].
  destruct (Ascii.eqb c ">"%char) eqn:E4;
    [apply Ascii.eqb_eq in E4; now subst|].
  unfold escapeXmlAttr, dquote.
  rewrite replaceAll_unit_cons, (Ascii.eqb_sym _ c), E1. cbn [append].
  rewrite replaceAll_unit_cons, (Ascii.eqb_sym _ c), E2. cbn [append].
  rewrite replaceAll_unit_cons, (Ascii.eqb_sym _ c), E3. cbn [append].
  rewrite replaceAll_unit_cons, (Ascii.eqb_sym _ c), E4. reflexivity.
Qed.

Lemma escapeXmlAttr_cons (c : ascii) (s : string) :
  escapeXmlAttr (String c s) = escapeChar c ++ escapeXmlAttr s.
Proof.
  change (String c s) with (String c EmptyString ++ s).
  now rewrite escapeXmlAttr_append, escapeXmlAttr_unit.
Qed.

Lemma allChars_append (p : ascii -> bool) (a b : string) :
  allChars p (a ++ b) = allChars p a && allChars p b.
Proof.
  induction a as [|c a IH]; [reflexivity|].
  cbn [append allChars]. now rewrite IH, andb_assoc.
Qed.



Lemma decodeFrom_escapeChar (c : ascii) (rest : string) :
  decodeFrom 0 (escapeChar c ++ rest) = consOpt c (decodeFrom 0 rest).
Proof.
  unfold escapeChar.
  destruct (Ascii.eqb c "&"%char) eqn:E1.
  { apply Ascii.eqb_eq in E1. subst c. cbn [append decodeFrom].
    rewrite !prefix_cons, !prefix_nil. reflexivity. }
  destruct (Ascii.eqb c "034"%char) eqn:E2.
  { apply Ascii.eqb_eq in E2. subst c. cbn [append decodeFrom].
    rewrite !prefix_cons, !prefix_nil. reflexivity. }
  destruct (Ascii.eqb c "<"%char) eqn:E3.
  { apply Ascii.eqb_eq in E3. subst c. cbn [append decodeFrom].
    rewrite !prefix_cons, !prefix_nil. reflexivity. }
  destruct (Ascii.eqb c ">"%char) eqn:E4.
  { apply Ascii.eqb_eq in E4. subst c. cbn [append decodeFrom].
    rewrite !prefix_cons, !prefix_nil. reflexivity. }
  cbn [append decodeFrom]. now rewrite E1, E3.
Qed.

(** The reader resolves what [escapeXmlAttr] wrote to the path it had. *)
Lemma decodeValue_escapeXmlAttr (s : string) :
  decodeValue (escapeXmlAttr s) = Some s.
Proof.
  unfold decodeValue. induction s as [|c s IH]; [reflexivity|].
  now rewrite escapeXmlAttr_cons, decodeFrom_escapeChar, IH.
Qed.

(** *** Tags *)










(** *** The document *)










(** *** The code units of the document *)








Section WithHost.
Context {h : Host}.

Lemma packFiles_entries (fs : Fs.FS) (repoRoot : string) (maxFileBytes : Q)
      (strip : bool) (filePaths : list string) :
  forall totalChars entries totalChars' entries',
    packFiles fs repoRoot maxFileBytes strip filePaths totalChars entries
    = Some (totalChars', entries') ->
    entries'
    = (entries
       ++ map entryOf (packedFiles fs repoRoot maxFileBytes strip filePaths))%list.
Proof.
  induction filePaths as [|p rest IH]; intros tc es tc' es'.
  - intros [= <- <-]. cbn. now rewrite app_nil_r.
  - cbn [packFiles packedFiles].
    destruct (safeReadText fs p maxFileBytes) as [| |raw]; [discriminate| |].
    + apply IH.
    + intros Hrest. apply IH in Hrest. rewrite Hrest, <- app_assoc. reflexivity.
Qed.


End WithHost.



End XmlProps.

(** ** Model names: what [normalizeModelName] returns *)

Module NameProps.
Import JsString Model XmlReader ShapeSpec StringProps.

Lemma trimStart_blank (s : string) : allChars isSpace s = true -> trimStart s = EmptyString.
Proof.
  induction s as [|c s IH]; [reflexivity|].
  cbn [allChars trimStart]. intros H. apply andb_true_iff in H as [Hc Hs].
  rewrite Hc. auto.
Qed.

Lemma allChars_trimStart (p : ascii -> bool) (s : string) :
  allChars p s = true -> allChars p (trimStart s) = true.
Proof.
  induction s as [|c s IH]; [reflexivity|].
  cbn [trimStart]. destruct (isSpace c); [|auto].
  cbn [allChars]. intros H. apply andb_true_iff in H. apply IH. tauto.
Qed.

Lemma allChars_slice (p : ascii -> bool) (n : nat) (s : string) :
  allChars p s = true -> allChars p (slice n s) = true.
Proof.
  revert s. induction n as [|n IH]; intros [|c s]; cbn [slice]; auto.
  cbn [allChars]. intros H. apply andb_true_iff in H. apply IH. tauto.
Qed.

Lemma allChars_collapseRuns (p q : ascii -> bool) (b : bool) (s : string) :
  p "-"%char = true ->
  allChars p s = true -> allChars p (collapseRuns q "-" b s) = true.
Proof.
  intros Hp. revert b. induction s as [|c s IH]; intros b; [reflexivity|].
  cbn [allChars collapseRuns]. intros H. apply andb_true_iff in H as [Hc Hs].
  destruct (q c).
  - destruct b; [auto|]. cbn [append allChars]. rewrite Hp. cbn [andb]. auto.
  - cbn [allChars]. rewrite Hc. cbn [andb]. auto.
Qed.

Lemma allChars_delete (p : ascii -> bool) (pat : string) (k : nat) (s : string) :
  allChars p s = true -> allChars p (replaceFrom pat EmptyString k s) = true.
Proof.
  revert k. induction s as [|c s IH]; intros k; [reflexivity|].
  cbn [allChars replaceFrom]. intros H. apply andb_true_iff in H as [Hc Hs].
  destruct k as [|k]; [|auto].
  destruct (prefix pat (String c s)); cbn [append allChars]; [auto|].
  rewrite Hc. cbn [andb]. auto.
Qed.

Lemma splitHead_at (s : string) :
  allChars (fun c => negb (Ascii.eqb c "@"%char)) (splitHead "@" s) = true.
Proof.
  induction s as [|c s IH]; [reflexivity|].
  cbn [splitHead]. rewrite prefix_cons, prefix_nil, andb_true_r.
  destruct (Ascii.eqb "@"%char c) eqn:E; [reflexivity|].
  cbn [allChars]. now rewrite Ascii.eqb_sym, E, IH.
Qed.

Lemma collapseRuns_space (b : bool) (s : string) :
  allChars (fun c => negb (isSpace c)) (collapseRuns isSpace "-" b s) = true.
Proof.
  revert b. induction s as [|c s IH]; intros b; [reflexivity|].
  cbn [collapseRuns]. destruct (isSpace c) eqn:E.
  - destruct b; [auto|]. cbn [append allChars]. now rewrite IH.
  - cbn [allChars]. now rewrite E, IH.
Qed.

(** Where there is no white space [trim] has nothing to take away. *)
Lemma trim_id (s : string) :
  allChars (fun c => negb (isSpace c)) s = true -> trim s = s.
Proof.
  intros H. unfold trim.
  assert (Hstart : trimStart s = s).
  { destruct s as [|c s]; [reflexivity|]. cbn [allChars] in H.
    apply andb_true_iff in H as [Hc _]. apply negb_true_iff in Hc.
    cbn [trimStart]. now rewrite Hc. }
  rewrite Hstart. clear Hstart.
  induction s as [|c s IH]; [reflexivity|].
  cbn [allChars] in H. apply andb_true_iff in H as [Hc Hs].
  apply negb_true_iff in Hc.
  cbn [trimEnd]. rewrite (IH Hs). destruct s; [now rewrite Hc | reflexivity].
Qed.

Lemma allChars_and (p q : ascii -> bool) (s : string) :
  allChars p s = true -> allChars q s = true ->
  allChars (fun c => p c && q c) s = true.
Proof.
  induction s as [|c s IH]; [reflexivity|].
  cbn [allChars]. intros Hp Hq.
  apply andb_true_iff in Hp as [Hp1 Hp2]. apply andb_true_iff in Hq as [Hq1 Hq2].
  now rewrite Hp1, Hq1, IH.
Qed.

Lemma noAdjacent_cons (p : ascii -> bool) (c d : ascii) (t : string) :
  noAdjacent p (String c (String d t))
  = negb (p c && p d) && noAdjacent p (String d t).
Proof. reflexivity. Qed.

(** After [/--+/g] no hyphen stands next to a hyphen. *)
Lemma collapseRuns_hyphen (s : string) :
  forall b,
    noAdjacent isHyphen (collapseRuns isHyphen "-" b s) = true
    /\ (b = true -> prefix "-" (collapseRuns isHyphen "-" b s) = false).
Proof.
  induction s as [|c s IH]; intros b; [split; reflexivity|].
  cbn [collapseRuns]. destruct (isHyphen c) eqn:E.
  - destruct b.
    + apply IH.
    + destruct (IH true) as [Hn Hp]. specialize (Hp eq_refl).
      split; [|discriminate].
      cbn [append]. remember (collapseRuns isHyphen "-" true s) as t.
      destruct t as [|d t]; [reflexivity|].
      rewrite noAdjacent_cons, Hn, andb_true_r.
      rewrite prefix_cons, prefix_nil, andb_true_r in Hp.
      unfold isHyphen at 2. rewrite Ascii.eqb_sym, Hp. now rewrite andb_false_r.
  - destruct (IH false) as [Hn _]. split.
    + remember (collapseRuns isHyphen "-" false s) as t.
      destruct t as [|d t]; [reflexivity|].
      now rewrite noAdjacent_cons, E, Hn.
    + intros _. rewrite prefix_cons.
      unfold isHyphen in E. now rewrite Ascii.eqb_sym, E.
Qed.

(** X1. A name that is absent, empty or made of white space only
    normalises to the empty string. *)
Theorem normalizeModelName_blank (raw : string) :
  allChars isSpace raw = true ->
  normalizeModelName (Some raw) = EmptyString
  /\ normalizeModelName None = EmptyString.
Proof.
  intros H. split; [|reflexivity].
  unfold normalizeModelName, trim. now rewrite (trimStart_blank _ H).
Qed.

Lemma normalizeModelName_blank_witness :
  allChars isSpace "   " = true /\ normalizeModelName (Some "   ") = EmptyString.
Proof.
  split; [reflexivity|].
  exact (proj1 (normalizeModelName_blank "   " eq_refl)).
Defined.

(** X2. Whatever the input, a normalised name holds no white space, no
    at sign and no two hyphens in a row; the closing [trim] finds nothing
    to remove. *)
Theorem normalizeModelName_shape (raw : option string) :
  allChars isKeyChar (normalizeModelName raw) = true
  /\ noAdjacent isHyphen (normalizeModelName raw) = true.
Proof.
  unfold normalizeModelName.
  set (s0 := toLowerCase (trim match raw with Some r => r | None => EmptyString end)).
  destruct (isEmpty s0); [split; reflexivity|].
  set (cleaned := if startsWith (splitHead "@" s0) "copilot/"
                  then slice (String.length "copilot/") (splitHead "@" s0)
                  else splitHead "@" s0).
  set (noAt := fun c => negb (Ascii.eqb c "@"%char)).
  set (noSpace := fun c => negb (isSpace c)).
  assert (Hclean : allChars noAt cleaned = true).
  { unfold cleaned. destruct (startsWith _ _);
      [apply allChars_slice|]; apply splitHead_at. }
  assert (Hgpt : allChars noAt (replaceGptPrefix cleaned) = true).
  { unfold replaceGptPrefix. destruct (prefix "gpt" _); [|exact Hclean].
    cbn [append allChars]. change (noAt "g"%char) with true.
    change (noAt "p"%char) with true. change (noAt "t"%char) with true.
    change (noAt "-"%char) with true. cbn [andb].
    apply allChars_trimStart, allChars_slice, Hclean. }
  set (spaced := collapseRuns isSpace "-" false (replaceGptPrefix cleaned)).
  assert (Hat1 : allChars noAt spaced = true)
    by (apply allChars_collapseRuns; [reflexivity | exact Hgpt]).
  assert (Hsp1 : allChars noSpace spaced = true) by apply collapseRuns_space.
  set (deleted := replaceAll "(preview)" EmptyString spaced).
  assert (Hat2 : allChars noAt deleted = true) by (apply allChars_delete, Hat1).
  assert (Hsp2 : allChars noSpace deleted = true) by (apply allChars_delete, Hsp1).
  set (result := collapseRuns isHyphen "-" false deleted).
  assert (Hat3 : allChars noAt result = true)
    by (apply allChars_collapseRuns; [reflexivity | exact Hat2]).
  assert (Hsp3 : allChars noSpace result = true)
    by (apply allChars_collapseRuns; [reflexivity | exact Hsp2]).
  rewrite (trim_id _ Hsp3). split.
  - exact (allChars_and noSpace noAt _ Hsp3 Hat3).
  - apply collapseRuns_hyphen.
Qed.

End NameProps.

(** ** Model keys and budgets under the built-in policy *)

Module KeyProps.
Import Json JsString Config ConfigSpec Model.

Lemma find_first {A : Type} (p : A -> bool) (l : list A) (x : A) :
  find p l = Some x ->
  exists earlier later,
    l = (earlier ++ x :: later)%list
    /\ p x = true
    /\ Forall (fun y => p y = false) earlier.
Proof.
  induction l as [|y l IH]; [discriminate|].
  cbn [find]. destruct (p y) eqn:E.
  - intros [= ->]. exists [], l. repeat split; [exact E | constructor].
  - intros H. destruct (IH H) as (earlier & later & -> & Hx & Hall).
    exists (y :: earlier), later. repeat split; [exact Hx|]. now constructor.
Qed.

(** X3. [resolveModelKey] returns the name it was given, or else the
    first key of the policy, in the order the keys are declared, that the
    name equals or extends by a hyphen and more; no key before it
    matches. *)
Theorem resolveModelKey_first_match (model : string) (ctx : JValue) :
  resolveModelKey model ctx = model
  \/ exists earlier later,
       modelKeys ctx = (earlier ++ resolveModelKey model ctx :: later)%list
       /\ (model = resolveModelKey model ctx
           \/ startsWith model (resolveModelKey model ctx ++ "-") = true)
       /\ Forall (fun k => model <> k /\ startsWith model (k ++ "-") = false)
            earlier.
Proof.
  unfold resolveModelKey.
  destruct (match optProp (prop ctx "models") model with
            | Some v => truthy v
            | None => false
            end); [now left|].
  destruct (find (matchesKey model) (modelKeys ctx)) as [k|] eqn:Hfind;
    [|now left].
  right. cbn [orElse].
  destruct (find_first _ _ _ Hfind) as (earlier & later & Hkeys & Hk & Hall).
  exists earlier, later. split; [exact Hkeys|]. split.
  - unfold matchesKey in Hk. apply orb_true_iff in Hk as [Hk|Hk].
    + left. now apply String.eqb_eq.
    + now right.
  - eapply Forall_impl; [|exact Hall].
    intros k' Hk'. unfold matchesKey in Hk'.
    apply orb_false_iff in Hk' as [H1 H2]. split; [|exact H2].
    now apply String.eqb_neq.
Qed.

Lemma builtin_window (key : string) :
  orElse (optProp (optProp (prop DEFAULT_MODEL_CONTEXTS "models") key)
            "contextWindowTokens") (JNum 64000)
  = JNum 64000
  \/ orElse (optProp (optProp (prop DEFAULT_MODEL_CONTEXTS "models") key)
               "contextWindowTokens") (JNum 64000)
     = JNum 128000
  \/ orElse (optProp (optProp (prop DEFAULT_MODEL_CONTEXTS "models") key)
               "contextWindowTokens") (JNum 64000)
     = JNum 272000.
Proof.
  change (prop DEFAULT_MODEL_CONTEXTS "models")
    with (getOwn "models" (ownFields DEFAULT_MODEL_CONTEXTS)).
  cbn [DEFAULT_MODEL_CONTEXTS ownFields getOwn String.eqb Ascii.eqb Bool.eqb].
  unfold optProp, prop. cbn [getProperty getOwn].
  repeat match goal with
         | |- context [String.eqb key ?k] => destruct (String.eqb key k)
         end; cbn; tauto.
Qed.

(** X4. Under the built-in policy every model name, known or not, gets
    a budget of 16000, 32000 or 60000 tokens. *)
Theorem budgetForModel_builtin (model : string) :
  budgetForModel model DEFAULT_MODEL_CONTEXTS = Some 16000
  \/ budgetForModel model DEFAULT_MODEL_CONTEXTS = Some 32000
  \/ budgetForModel model DEFAULT_MODEL_CONTEXTS = Some 60000.
Proof.
  unfold budgetForModel, windowTokens.
  change (orElse (optProp (optProp (prop DEFAULT_MODEL_CONTEXTS "models") "gpt-4.1")
                    "contextWindowTokens") (JNum 64000))
    with (JNum 64000).
  destruct (builtin_window (resolveModelKey model DEFAULT_MODEL_CONTEXTS))
    as [-> | [-> | ->]]; [left | right; left | right; right]; reflexivity.
Qed.

(** *** The order of [Object.keys] *)

Lemma insertKey_last (n : N) (k : string) (sorted : list (N * string)) :
  Forall (fun mk => (fst mk <= n)%N) sorted ->
  insertKey n k sorted = (sorted ++ [(n, k)])%list.
Proof.
  induction 1 as [|[m k'] rest Hm _ IH]; [reflexivity|].
  cbn [insertKey app fst] in *.
  assert (E : (n <? m)%N = false) by (apply N.ltb_ge; exact Hm).
  now rewrite E, IH.
Qed.

Lemma indexKeys_named (ks : list string) :
  forallb (fun k => match arrayIndex k with Some _ => false | None => true end) ks
  = true ->
  forall sorted,
    fold_left (fun sorted k => match arrayIndex k with
                               | Some n => insertKey n k sorted
                               | None => sorted
                               end) ks sorted = sorted
    /\ filter (fun k => match arrayIndex k with Some _ => false | None => true end) ks
       = ks.
Proof.
  induction ks as [|k ks IH]; intros Hall sorted; [now split|].
  cbn [forallb fold_left filter] in *.
  destruct (arrayIndex k); [discriminate|].
  destruct (IH Hall sorted) as [Hfold Hfilter]. now rewrite Hfold, Hfilter.
Qed.

Lemma enumerated_from (ks : list string) :
  forall least sorted,
    indexOrder least ks = true ->
    Forall (fun mk => (fst mk <= least)%N) sorted ->
    (map snd (fold_left (fun sorted k => match arrayIndex k with
                                         | Some n => insertKey n k sorted
                                         | None => sorted
                                         end) ks sorted)
     ++ filter (fun k => match arrayIndex k with Some _ => false | None => true end) ks)%list
    = (map snd sorted ++ ks)%list.
Proof.
  induction ks as [|k ks IH]; intros least sorted Hord Hsorted.
  - reflexivity.
  - cbn [indexOrder] in Hord. cbn [fold_left filter].
    destruct (arrayIndex k) as [n|] eqn:Hk.
    + apply andb_true_iff in Hord as [Hle Hord]. apply N.leb_le in Hle.
      assert (Hbelow : Forall (fun mk => (fst mk <= n)%N) sorted).
      { eapply Forall_impl; [|exact Hsorted]. cbn. intros mk H. lia. }
      rewrite (insertKey_last _ _ _ Hbelow).
      rewrite (IH n (sorted ++ [(n, k)])%list Hord).
      * rewrite map_app, <- app_assoc. reflexivity.
      * apply Forall_app. split; [exact Hbelow|].
        constructor; [cbn; lia | constructor].
    + destruct (indexKeys_named ks Hord sorted) as [Hfold Hfilter].
      now rewrite Hfold, Hfilter.
Qed.

(** On keys that stand in the order of enumeration, [Object.keys] is
    the list of the keys. *)
Lemma enumerated_ordered (ks : list string) :
  ownKeyOrder ks = true -> enumerated ks = ks.
Proof.
  intros Hord. unfold enumerated, indexKeys.
  exact (enumerated_from ks 0%N [] Hord (Forall_nil _)).
Qed.

(** The built-in models are enumerated as they are declared; with the
    keys ["1-2"] and ["1"], in that order in the text, ["1"] is
    enumerated first and is the key the name ["1-2-x"] resolves to. *)
Lemma modelKeys_examples :
  modelKeys DEFAULT_MODEL_CONTEXTS
  = [ "gpt-4.1"; "gpt-4o"; "gpt-5"; "gpt-5-mini"; "gpt-5.1"; "gpt-5.1-codex";
      "gpt-5.2"; "gpt-5.2-codex"; "gpt-5.3-codex" ]
  /\ modelKeys (JObj [("models", JObj [("1-2", window 1000); ("1", window 2000)])])
     = ["1"; "1-2"]
  /\ resolveModelKey "1-2-x"
       (JObj [("models", JObj [("1-2", window 1000); ("1", window 2000)])])
     = "1".
Proof. repeat split; reflexivity. Qed.

End KeyProps.

(** ** More on merging *)

Module MergeProps.
Import Json Config ConfigSpec ShapeSpec ConfigProps.

Lemma getOwn_none k fields :
  getOwn k fields = None -> existsb (String.eqb k) (keys fields) = false.
Proof.
  induction fields as [|[k' v'] r IH]; [reflexivity|].
  cbn [getOwn keys map fst existsb]. destruct (String.eqb k k'); [discriminate|].
  exact IH.
Qed.

Lemma isObject_finish out : isObject (finish out) = true.
Proof. unfold finish. now destruct (fst out). Qed.

Lemma ownFields_finish out : ownFields (finish out) = snd out.
Proof. unfold finish. now destruct (fst out). Qed.

(** X5. A field of the default document that the override does not
    mention is in the merged document unchanged; the merged document is
    an object, and an ordinary one unless the override has the key
    [__proto__]. *)
Theorem deepMerge_keeps_defaults (base extra : JValue) (k : string) :
  isObject base = true -> isObject extra = true ->
  getOwn k (ownFields extra) = None ->
  isObject (deepMerge base extra) = true
  /\ getOwn k (ownFields (deepMerge base extra)) = getOwn k (ownFields base)
  /\ (getOwn "__proto__" (ownFields extra) = None ->
      exists mfields,
        deepMerge base extra = JObj mfields
        /\ getOwn k mfields = getOwn k (ownFields base)).
Proof.
  intros Hb He Hk.
  assert (Hsame : getOwn k (ownFields (deepMerge base extra))
                  = getOwn k (ownFields base)).
  { rewrite (deepMerge_objects _ _ Hb He), ownFields_finish.
    now rewrite (mergeEntries_untouched _ _ _ (getOwn_none _ _ Hk)). }
  split; [rewrite (deepMerge_objects _ _ Hb He); apply isObject_finish|].
  split; [exact Hsame|].
  intros Hplain. eexists. split.
  - apply (deepMerge_plain_object _ _ Hb He). now apply getOwn_none.
  - rewrite (deepMerge_plain_object _ _ Hb He (getOwn_none _ _ Hplain)) in Hsame.
    exact Hsame.
Qed.

Lemma deepMerge_keeps_defaults_witness :
  exists mfields,
    deepMerge DEFAULT_MODEL_CONTEXTS (JObj [("policy", JObj [])]) = JObj mfields
    /\ getOwn "models" mfields
       = getOwn "models" (ownFields DEFAULT_MODEL_CONTEXTS).
Proof.
  exact (proj2 (proj2 (deepMerge_keeps_defaults DEFAULT_MODEL_CONTEXTS
                         (JObj [("policy", JObj [])]) "models"
                         eq_refl eq_refl eq_refl))
           eq_refl).
Defined.

(** *** Merging the same override twice *)

Lemma replaceOwn_same k v fields :
  getOwn k fields = Some v -> replaceOwn k v fields = fields.
Proof.
  induction fields as [|[k' v'] r IH]; [reflexivity|].
  cbn [getOwn replaceOwn]. destruct (String.eqb k k') eqn:E.
  - apply String.eqb_eq in E. subst k'. now intros [= ->].
  - intros H. now rewrite (IH H).
Qed.

Lemma setOwn_same k v fields : getOwn k fields = Some v -> setOwn k v fields = fields.
Proof. intros H. unfold setOwn. rewrite H. now apply replaceOwn_same. Qed.

(** An entry whose value the object already absorbs leaves it as it
    is. *)
Lemma assign_absorbed out k v m :
  getOwn k (snd out) = Some m -> deepMerge m v = m -> assign out k v = out.
Proof.
  intros Hm Hab. rewrite (assign_own _ _ _ _ Hm), Hab, (setOwn_same _ _ _ Hm).
  now destruct out.
Qed.

Lemma mergeEntries_absorbed (es : list (string * JValue)) (out : Out) :
  Forall (fun kv => exists m, getOwn (fst kv) (snd out) = Some m
                              /\ deepMerge m (snd kv) = m) es ->
  mergeEntries out es = out.
Proof.
  induction 1 as [|[k v] es (m & Hm & Hab) _ IH]; [reflexivity|].
  cbn [mergeEntries fst snd] in *. now rewrite (assign_absorbed _ _ _ _ Hm Hab).
Qed.

Lemma getOwn_distinct_In k v fields :
  distinct (keys fields) = true -> In (k, v) fields -> getOwn k fields = Some v.
Proof.
  induction fields as [|[k' v'] r IH]; [contradiction|].
  cbn [keys map fst distinct getOwn]. fold (keys r).
  intros Hd [Heq|Hin].
  - injection Heq as -> ->. now rewrite String.eqb_refl.
  - apply andb_true_iff in Hd as [Hfresh Hd]. apply negb_true_iff in Hfresh.
    destruct (String.eqb k k') eqn:E; [|auto].
    apply String.eqb_eq in E. subst k'. exfalso.
    assert (Hex : existsb (String.eqb k) (keys r) = true).
    { apply existsb_exists. exists k. split; [|apply String.eqb_refl].
      change k with (fst (k, v)). now apply in_map. }
    congruence.
Qed.

Lemma In_keys k v (fields : list (string * JValue)) :
  In (k, v) fields -> existsb (String.eqb k) (keys fields) = true.
Proof.
  intros Hin. apply existsb_exists. exists k. split; [|apply String.eqb_refl].
  change k with (fst (k, v)). now apply in_map.
Qed.

Lemma ordinary_fields fields :
  ordinary (JObj fields) = true ->
  Forall (fun kv => ordinary (snd kv) = true) fields.
Proof.
  cbn [ordinary]. induction fields as [|[k v] r IH]; intros H; constructor.
  - apply andb_true_iff in H. tauto.
  - apply IH. apply andb_true_iff in H. tauto.
Qed.

(** A document merged over itself is itself. *)
Lemma deepMerge_self (v : JValue) :
  uniqueKeys v = true -> ordinary v = true -> deepMerge v v = v.
Proof.
  induction v as [| | | | |fields IH| |proto fields IH] using JValue_fields_ind;
    intros Hu Ho; try reflexivity; [|discriminate Ho].
  rewrite (deepMerge_objects (JObj fields) (JObj fields) eq_refl eq_refl).
  cbn [ownFields].
  apply (uniqueKeys_fields (JObj fields) eq_refl) in Hu as [Hd Hall].
  apply ordinary_fields in Ho.
  rewrite mergeEntries_absorbed; [reflexivity|].
  cbn [ownFields] in *.
  rewrite Forall_forall in *. intros [k x] Hin. cbn [fst snd].
  exists x. split; [now apply getOwn_distinct_In|].
  apply (IH _ Hin); [apply (Hall _ Hin) | apply (Ho _ Hin)].
Qed.

(** The own key [__proto__] is there after the loop exactly when it was
    there before: the one entry that names it goes to the accessor. *)
Lemma mergeEntries_own_proto (es : list (string * JValue)) :
  forall out,
    fst out = None ->
    distinct (keys es) = true ->
    (getOwn "__proto__" (snd (mergeEntries out es)) = None
     <-> getOwn "__proto__" (snd out) = None)
    /\ fst (mergeEntries out es)
       = match getOwn "__proto__" (snd out) with
         | Some _ => None
         | None => prototypeAfter es
         end.
Proof.
  induction es as [|[k v] es IH]; intros out Hp Hd.
  - cbn [mergeEntries]. split; [tauto|]. rewrite Hp. now destruct (getOwn _ _).
  - cbn [keys map fst distinct] in Hd. fold (keys es) in Hd.
    apply andb_true_iff in Hd as [Hfresh Hd]. apply negb_true_iff in Hfresh.
    cbn [mergeEntries].
    destruct (String.eqb "__proto__" k) eqn:E.
    + apply String.eqb_eq in E. subst k.
      rewrite (mergeEntries_untouched _ _ _ Hfresh).
      rewrite (mergeEntries_keeps_prototype _ _ Hfresh).
      unfold prototypeAfter. cbn [getOwn]. rewrite String.eqb_refl.
      unfold assign, lookup. rewrite Hp.
      destruct (getOwn "__proto__" (snd out)) as [b|] eqn:Hown.
      * cbn [snd fst]. rewrite getOwn_setOwn_same. split; [|reflexivity].
        split; discriminate.
      * rewrite String.eqb_refl.
        destruct (canBePrototype (deepMerge objectPrototype v));
          cbn [snd fst]; rewrite ?Hown, ?Hp; split; tauto.
    + assert (Hk : String.eqb k "__proto__" = false)
        by now rewrite String.eqb_sym.
      destruct (IH (assign out k v)
                  (eq_trans (assign_keeps_prototype _ _ _ Hk) Hp) Hd)
        as [Hown Hfst].
      rewrite (assign_other _ _ _ _ E) in Hown, Hfst.
      split; [exact Hown|]. rewrite Hfst.
      unfold prototypeAfter. cbn [getOwn]. now rewrite E.
Qed.

(** What the merged object holds for an entry of the override. *)
Lemma mergeEntries_entry (es : list (string * JValue)) :
  forall out k v,
    distinct (keys es) = true ->
    In (k, v) es ->
    (exists m, getOwn k (snd (mergeEntries out es)) = Some m
               /\ (m = v \/ exists b, m = deepMerge b v))
    \/ (k = "__proto__" /\ getOwn k (snd (mergeEntries out es)) = None).
Proof.
  induction es as [|[k0 v0] es IH]; intros out k v Hd Hin; [contradiction|].
  cbn [keys map fst distinct] in Hd. fold (keys es) in Hd.
  apply andb_true_iff in Hd as [Hfresh Hd]. apply negb_true_iff in Hfresh.
  cbn [mergeEntries]. destruct Hin as [Heq|Hin]; [|now apply IH].
  injection Heq as -> ->.
  rewrite (mergeEntries_untouched _ _ _ Hfresh).
  unfold assign. destruct (lookup out k) as [b|current|] eqn:Hlook.
  - left. cbn [snd]. rewrite getOwn_setOwn_same. eexists. split; [reflexivity|].
    right. now exists b.
  - right. split; [now apply lookup_accessor in Hlook|].
    assert (Hnone : getOwn k (snd out) = None).
    { unfold lookup in Hlook. now destruct (getOwn k (snd out)). }
    now destruct (canBePrototype _).
  - left. cbn [snd]. rewrite getOwn_setOwn_same. eexists. split; [reflexivity|].
    now left.
Qed.

(** Merging into an object that absorbs every entry but, at most, the
    one for the accessor [__proto__] changes its prototype only. *)
Lemma mergeEntries_settled (es : list (string * JValue)) (fields : list (string * JValue)) :
  distinct (keys es) = true ->
  Forall (fun kv =>
            (exists m, getOwn (fst kv) fields = Some m /\ deepMerge m (snd kv) = m)
            \/ (fst kv = "__proto__" /\ getOwn (fst kv) fields = None)) es ->
  mergeEntries (None, fields) es
  = (match getOwn "__proto__" fields with
     | Some _ => None
     | None => prototypeAfter es
     end, fields).
Proof.
  intros Hd Hall.
  induction Hall as [|[k v] es Hhead Htail IH].
  - cbn [mergeEntries]. now destruct (getOwn _ _).
  - cbn [keys map fst distinct] in Hd. fold (keys es) in Hd.
    apply andb_true_iff in Hd as [Hfresh Hd]. apply negb_true_iff in Hfresh.
    cbn [mergeEntries fst snd] in *.
    destruct Hhead as [(m & Hm & Hab) | [-> Hnone]].
    + rewrite (assign_absorbed (None, fields) k v m Hm Hab), (IH Hd).
      unfold prototypeAfter. cbn [getOwn].
      destruct (String.eqb "__proto__" k) eqn:E; [|reflexivity].
      apply String.eqb_eq in E. subst k. now rewrite Hm.
    + rewrite Hnone. unfold prototypeAfter. cbn [getOwn].
      rewrite String.eqb_refl.
      assert (Hrest : forall out, snd out = fields -> mergeEntries out es = out).
      { intros out Hout. apply mergeEntries_absorbed.
        rewrite Forall_forall in *. intros [k' v'] Hin. cbn [fst snd].
        destruct (Htail _ Hin) as [(m & Hm & Hab) | [Hk _]]; cbn [fst snd] in *.
        - exists m. now rewrite Hout.
        - subst k'. apply In_keys in Hin. congruence. }
      unfold assign, lookup. cbn [fst snd]. rewrite Hnone, String.eqb_refl.
      destruct (canBePrototype (deepMerge objectPrototype v)); now apply Hrest.
Qed.

Lemma deepMerge_twice_object (extra : JValue) :
  isObject extra = true ->
  Forall (fun kv => forall base,
            uniqueKeys (snd kv) = true -> ordinary (snd kv) = true ->
            deepMerge (deepMerge base (snd kv)) (snd kv) = deepMerge base (snd kv))
         (ownFields extra) ->
  forall base,
    isObject base = true ->
    uniqueKeys extra = true ->
    Forall (fun kv => ordinary (snd kv) = true) (ownFields extra) ->
    deepMerge (deepMerge base extra) extra = deepMerge base extra.
Proof.
  intros He IH base Hb Hu Ho.
  apply (uniqueKeys_fields _ He) in Hu as [Hd Hall].
  rewrite (deepMerge_objects _ _ Hb He).
  rewrite (deepMerge_objects _ _ (isObject_finish _) He), ownFields_finish.
  set (s1 := mergeEntries (None, ownFields base) (ownFields extra)).
  destruct (mergeEntries_own_proto (ownFields extra) (None, ownFields base)
              eq_refl Hd) as [Hown Hfst].
  fold s1 in Hown, Hfst. cbn [snd] in Hown, Hfst.
  rewrite mergeEntries_settled; [|exact Hd|].
  - f_equal. destruct s1 as [p fields]. cbn [fst snd] in *. f_equal.
    rewrite Hfst.
    destruct (getOwn "__proto__" fields) as [x|];
      destruct (getOwn "__proto__" (ownFields base)) as [y|]; try reflexivity.
    + discriminate (proj2 Hown eq_refl).
    + discriminate (proj1 Hown eq_refl).
  - rewrite Forall_forall in *. intros [k v] Hin. cbn [fst snd].
    destruct (mergeEntries_entry (ownFields extra) (None, ownFields base) k v Hd Hin)
      as [(m & Hm & Hshape) | [Hk Hnone]].
    + left. exists m. fold s1 in Hm. split; [exact Hm|].
      destruct Hshape as [-> | [b ->]].
      * apply deepMerge_self; [apply (Hall _ Hin) | apply (Ho _ Hin)].
      * apply (IH _ Hin); [apply (Hall _ Hin) | apply (Ho _ Hin)].
    + right. now split.
Qed.

Lemma deepMerge_twice (extra : JValue) :
  forall base,
    uniqueKeys extra = true -> ordinary extra = true ->
    deepMerge (deepMerge base extra) extra = deepMerge base extra.
Proof.
  induction extra as [| | | | |efields IH| |proto efields IH] using JValue_fields_ind;
    intros base Hu Ho; try reflexivity; [|discriminate Ho].
  destruct (isObject base) eqn:Hb.
  - apply (deepMerge_twice_object (JObj efields) eq_refl IH base Hb Hu).
    now apply ordinary_fields.
  - rewrite (deepMerge_not_object _ _ Hb). now apply deepMerge_self.
Qed.

(** X7. Applying the same override a second time changes nothing,
    whatever the keys of the override, [__proto__] among them. *)
Theorem deepMerge_idempotent (base extra : JValue) :
  uniqueKeys extra = true ->
  ordinary extra = true ->
  deepMerge (deepMerge base extra) extra = deepMerge base extra.
Proof. apply deepMerge_twice. Qed.

Lemma deepMerge_idempotent_witness :
  uniqueKeys Scenarios.protoOverride = true
  /\ ordinary Scenarios.protoOverride = true
  /\ deepMerge (deepMerge DEFAULT_MODEL_CONTEXTS Scenarios.protoOverride)
       Scenarios.protoOverride
     = deepMerge DEFAULT_MODEL_CONTEXTS Scenarios.protoOverride.
Proof.
  split; [reflexivity|]. split; [reflexivity|].
  exact (deepMerge_idempotent DEFAULT_MODEL_CONTEXTS Scenarios.protoOverride
           eq_refl eq_refl).
Defined.

(** *** The order of the keys *)

Lemma getOwn_some_keys k (fields : list (string * JValue)) :
  existsb (String.eqb k) (keys fields) = true <-> getOwn k fields <> None.
Proof.
  induction fields as [|[k' v'] r IH]; cbn [getOwn keys map fst existsb].
  - split; [discriminate | congruence].
  - destruct (String.eqb k k'); cbn [orb]; [|exact IH].
    split; [discriminate | reflexivity].
Qed.

Lemma In_existsb k (ks : list string) :
  In k ks <-> existsb (String.eqb k) ks = true.
Proof.
  rewrite existsb_exists. split.
  - intros H. exists k. split; [exact H | apply String.eqb_refl].
  - intros (x & Hx & E). apply String.eqb_eq in E. now subst.
Qed.

Lemma keys_replaceOwn k v fields :
  getOwn k fields <> None -> keys (replaceOwn k v fields) = keys fields.
Proof.
  induction fields as [|[k' v'] r IH]; [reflexivity|].
  cbn [getOwn replaceOwn]. destruct (String.eqb k k') eqn:E.
  - apply String.eqb_eq in E. now subst.
  - intros H. cbn [keys map fst]. f_equal. now apply IH.
Qed.

Lemma keys_app (l r : list (string * JValue)) : keys (l ++ r) = (keys l ++ keys r)%list.
Proof. apply map_app. Qed.

Lemma In_keys_insertIndex n k v fields k' :
  In k' (keys (insertIndex n k v fields)) <-> k' = k \/ In k' (keys fields).
Proof.
  induction fields as [|[k2 v2] r IH]; cbn [insertIndex].
  - cbn. intuition congruence.
  - destruct (arrayIndex k2) as [n2|]; [destruct (n2 <? n)%N|];
      cbn [keys map fst In] in *; fold (keys (insertIndex n k v r)) in *;
      fold (keys r) in *; try rewrite IH; intuition congruence.
Qed.

Lemma In_keys_setOwn k v fields k' :
  In k' (keys (setOwn k v fields)) <-> k' = k \/ In k' (keys fields).
Proof.
  unfold setOwn. destruct (getOwn k fields) eqn:E.
  - rewrite keys_replaceOwn by congruence. split; [tauto|].
    intros [-> | H]; [|exact H].
    apply In_existsb, getOwn_some_keys. congruence.
  - destruct (arrayIndex k).
    + apply In_keys_insertIndex.
    + rewrite keys_app, in_app_iff. cbn. intuition congruence.
Qed.

Lemma namedKeys_app (a b : list string) :
  namedKeys (a ++ b) = (namedKeys a ++ namedKeys b)%list.
Proof. apply filter_app. Qed.

Lemma namedKeys_insertIndex n k v fields :
  arrayIndex k = Some n ->
  namedKeys (keys (insertIndex n k v fields)) = namedKeys (keys fields).
Proof.
  intros Hk.
  assert (Hcons : forall ks, namedKeys (k :: ks) = namedKeys ks).
  { intros ks. unfold namedKeys. cbn [filter]. unfold isIndex. now rewrite Hk. }
  induction fields as [|[k2 v2] r IH]; cbn [insertIndex].
  - apply Hcons.
  - destruct (arrayIndex k2) as [n2|] eqn:E2; [destruct (n2 <? n)%N|];
      try apply Hcons.
    cbn [keys map fst]. fold (keys (insertIndex n k v r)). fold (keys r).
    unfold namedKeys in *. cbn [filter]. now rewrite IH.
Qed.

(** The keys that are no array index after one [setOwn]. *)
Lemma namedKeys_setOwn k v fields :
  namedKeys (keys (setOwn k v fields))
  = (namedKeys (keys fields)
     ++ if existsb (String.eqb k) (keys fields) || isIndex k then [] else [k])%list.
Proof.
  unfold setOwn. destruct (getOwn k fields) eqn:E.
  - rewrite keys_replaceOwn by congruence.
    assert (H : existsb (String.eqb k) (keys fields) = true)
      by (apply getOwn_some_keys; congruence).
    rewrite H. cbn [orb]. now rewrite app_nil_r.
  - rewrite (getOwn_none _ _ E). cbn [orb]. unfold isIndex.
    destruct (arrayIndex k) as [n|] eqn:Hk.
    + rewrite (namedKeys_insertIndex _ _ _ _ Hk). now rewrite app_nil_r.
    + rewrite keys_app, namedKeys_app. f_equal.
      unfold namedKeys. cbn [keys map fst filter]. unfold isIndex. now rewrite Hk.
Qed.

Lemma indexOrder_weaken least least' ks :
  (least' <= least)%N -> indexOrder least ks = true -> indexOrder least' ks = true.
Proof.
  intros Hle. destruct ks as [|k ks]; [reflexivity|]. cbn [indexOrder].
  destruct (arrayIndex k) as [n|]; [|auto].
  intros H. apply andb_true_iff in H as [Hn H]. apply N.leb_le in Hn.
  apply andb_true_iff. split; [apply N.leb_le; lia | exact H].
Qed.

Lemma indexOrder_insertIndex n k v fields :
  arrayIndex k = Some n ->
  forall least,
    (least <= n)%N ->
    indexOrder least (keys fields) = true ->
    indexOrder least (keys (insertIndex n k v fields)) = true.
Proof.
  intros Hk. induction fields as [|[k2 v2] r IH]; intros least Hle Hord.
  - cbn. rewrite Hk. apply andb_true_iff. split; [now apply N.leb_le | reflexivity].
  - cbn [insertIndex].
    assert (Hfront : indexOrder n (keys ((k2, v2) :: r)) = true ->
                     indexOrder least (keys ((k, v) :: (k2, v2) :: r)) = true).
    { intros H. cbn [keys map fst indexOrder]. rewrite Hk.
      apply andb_true_iff. split; [now apply N.leb_le | exact H]. }
    cbn [keys map fst indexOrder] in Hord. fold (keys r) in Hord.
    destruct (arrayIndex k2) as [n2|] eqn:E2.
    + apply andb_true_iff in Hord as [Hn2 Hord]. apply N.leb_le in Hn2.
      destruct (n2 <? n)%N eqn:Hlt.
      * apply N.ltb_lt in Hlt.
        cbn [keys map fst indexOrder]. rewrite E2.
        apply andb_true_iff. split; [now apply N.leb_le|].
        apply IH; [lia | exact Hord].
      * apply N.ltb_ge in Hlt. apply Hfront.
        cbn [keys map fst indexOrder]. rewrite E2.
        apply andb_true_iff. split; [now apply N.leb_le | exact Hord].
    + apply Hfront. cbn [keys map fst indexOrder]. now rewrite E2.
Qed.

Lemma indexOrder_named_last k ks :
  arrayIndex k = None ->
  forall least,
    indexOrder least ks = true -> indexOrder least (ks ++ [k]) = true.
Proof.
  intros Hk. induction ks as [|k2 ks IH]; intros least Hord.
  - cbn. now rewrite Hk.
  - cbn [app indexOrder] in *. destruct (arrayIndex k2) as [n2|].
    + apply andb_true_iff in Hord as [Hn2 Hord].
      apply andb_true_iff. split; [exact Hn2 | now apply IH].
    + rewrite forallb_app, Hord. cbn. now rewrite Hk.
Qed.

Lemma ownKeyOrder_setOwn k v fields :
  ownKeyOrder (keys fields) = true -> ownKeyOrder (keys (setOwn k v fields)) = true.
Proof.
  unfold ownKeyOrder, setOwn. intros Hord.
  destruct (getOwn k fields) eqn:E.
  - now rewrite keys_replaceOwn by congruence.
  - destruct (arrayIndex k) as [n|] eqn:Hk.
    + apply (indexOrder_insertIndex _ _ _ _ Hk); [apply N.le_0_l | exact Hord].
    + rewrite keys_app. now apply indexOrder_named_last.
Qed.

(** What one assignment does to the own properties: it defines the
    key, unless the key is [__proto__] and goes to the accessor. *)
Lemma assign_fields out k v :
  fst out = None \/ String.eqb k "__proto__" = false ->
  if String.eqb k "__proto__" && negb (existsb (String.eqb k) (keys (snd out)))
  then snd (assign out k v) = snd out
  else exists x, snd (assign out k v) = setOwn k x (snd out).
Proof.
  intros Hstate. unfold assign.
  destruct (lookup out k) as [b|current|] eqn:Hlook.
  - assert (Hcase : String.eqb k "__proto__"
                    && negb (existsb (String.eqb k) (keys (snd out))) = false).
    { destruct (String.eqb k "__proto__") eqn:E; [|reflexivity].
      destruct Hstate as [Hp|Hp]; [|discriminate Hp].
      unfold lookup in Hlook. rewrite Hp in Hlook.
      destruct (getOwn k (snd out)) eqn:Hown.
      - assert (H : existsb (String.eqb k) (keys (snd out)) = true)
          by (apply getOwn_some_keys; congruence).
        now rewrite H.
      - rewrite E in Hlook. discriminate Hlook. }
    rewrite Hcase. now eexists.
  - pose proof (lookup_accessor _ _ _ Hlook) as ->.
    assert (Hnone : getOwn "__proto__" (snd out) = None).
    { unfold lookup in Hlook. now destruct (getOwn "__proto__" (snd out)). }
    rewrite (getOwn_none _ _ Hnone). cbn [String.eqb Ascii.eqb Bool.eqb andb negb].
    now destruct (canBePrototype _).
  - assert (Hcase : String.eqb k "__proto__"
                    && negb (existsb (String.eqb k) (keys (snd out))) = false).
    { destruct (String.eqb k "__proto__") eqn:E; [|reflexivity].
      destruct Hstate as [Hp|Hp]; [|discriminate Hp].
      unfold lookup in Hlook. rewrite Hp in Hlook.
      destruct (getOwn k (snd out)); [discriminate Hlook|].
      rewrite E in Hlook. discriminate Hlook. }
    rewrite Hcase. now eexists.
Qed.

Lemma addedKeys_cons out k v es :
  addedKeys out ((k, v) :: es)
  = ((if negb (existsb (String.eqb k) (keys out)) && negb (String.eqb k "__proto__")
      then [k] else [])
     ++ addedKeys out es)%list.
Proof.
  unfold addedKeys. cbn [keys map fst filter]. now destruct (_ && _).
Qed.

(** The keys added later do not depend on a key the override does not
    name again. *)
Lemma addedKeys_ext out out' es :
  (forall k, In k (keys es) ->
             existsb (String.eqb k) (keys out') = existsb (String.eqb k) (keys out)) ->
  addedKeys out' es = addedKeys out es.
Proof.
  intros Hagree. unfold addedKeys. apply filter_ext_in.
  intros k Hin. now rewrite (Hagree k Hin).
Qed.

Lemma existsb_iff k (a b : list string) :
  (In k a <-> In k b) -> existsb (String.eqb k) a = existsb (String.eqb k) b.
Proof.
  intros H. destruct (existsb (String.eqb k) b) eqn:E.
  - apply In_existsb, H, In_existsb, E.
  - destruct (existsb (String.eqb k) a) eqn:E'; [|reflexivity].
    apply In_existsb, H, In_existsb in E'. congruence.
Qed.

Lemma mergeEntries_keys (es : list (string * JValue)) :
  forall out,
    fst out = None \/ existsb (String.eqb "__proto__") (keys es) = false ->
    distinct (keys es) = true ->
    (ownKeyOrder (keys (snd out)) = true ->
     ownKeyOrder (keys (snd (mergeEntries out es))) = true)
    /\ namedKeys (keys (snd (mergeEntries out es)))
       = (namedKeys (keys (snd out)) ++ namedKeys (addedKeys (snd out) es))%list
    /\ (forall k, In k (keys (snd (mergeEntries out es)))
                  <-> In k (keys (snd out)) \/ In k (addedKeys (snd out) es)).
Proof.
  induction es as [|[k v] es IH]; intros out Hstate Hd.
  - cbn [mergeEntries]. split; [tauto|]. split.
    + unfold addedKeys. cbn. now rewrite app_nil_r.
    + intros k. unfold addedKeys. cbn. tauto.
  - cbn [keys map fst distinct existsb] in Hd, Hstate. fold (keys es) in Hd, Hstate.
    apply andb_true_iff in Hd as [Hfresh Hd]. apply negb_true_iff in Hfresh.
    cbn [mergeEntries].
    assert (Hstate1 : fst out = None \/ String.eqb k "__proto__" = false).
    { destruct Hstate as [H|H]; [now left | right].
      apply orb_false_iff in H as [H _]. now rewrite String.eqb_sym. }
    assert (Hstate2 : fst (assign out k v) = None
                      \/ existsb (String.eqb "__proto__") (keys es) = false).
    { destruct (String.eqb k "__proto__") eqn:E.
      - right. apply String.eqb_eq in E. now subst k.
      - destruct Hstate as [H|H].
        + left. now rewrite (assign_keeps_prototype _ _ _ E).
        + right. now apply orb_false_iff in H as [_ H]. }
    destruct (IH (assign out k v) Hstate2 Hd) as (Hord & Hnamed & Hmem).
    pose proof (assign_fields out k v Hstate1) as Hstep.
    rewrite addedKeys_cons.
    destruct (String.eqb k "__proto__"
              && negb (existsb (String.eqb k) (keys (snd out)))) eqn:Hcase.
    + (* the accessor: nothing is defined *)
      rewrite Hstep in Hord, Hnamed, Hmem.
      apply andb_true_iff in Hcase as [Hk Hnew]. rewrite Hnew, Hk. cbn [negb andb app].
      split; [exact Hord|]. split; [exact Hnamed | exact Hmem].
    + destruct Hstep as [x Hstep]. rewrite Hstep in Hord, Hnamed, Hmem.
      assert (Hlater : addedKeys (setOwn k x (snd out)) es = addedKeys (snd out) es).
      { apply addedKeys_ext. intros k' Hin. apply existsb_iff.
        rewrite In_keys_setOwn. split; [|tauto].
        intros [-> | H]; [|exact H].
        apply In_existsb in Hin. congruence. }
      rewrite Hlater in Hnamed, Hmem.
      split; [intros H; apply Hord; now apply ownKeyOrder_setOwn|].
      split.
      * rewrite Hnamed, namedKeys_setOwn, namedKeys_app, <- app_assoc. f_equal.
        f_equal.
        destruct (existsb (String.eqb k) (keys (snd out))) eqn:Hhas;
          cbn [negb andb orb] in *; [reflexivity|].
        rewrite andb_true_r in Hcase. rewrite Hcase. cbn [negb].
        unfold namedKeys. cbn [filter]. now destruct (isIndex k).
      * intros k'. rewrite Hmem, In_keys_setOwn, in_app_iff.
        destruct (existsb (String.eqb k) (keys (snd out))) eqn:Hhas;
          cbn [negb andb orb] in *.
        -- apply In_existsb in Hhas. cbn [In app]. intuition congruence.
        -- rewrite andb_true_r in Hcase. rewrite Hcase. cbn [negb In app].
           intuition congruence.
Qed.

(** X6. The merged object has the keys of the default and, after them,
    the keys only the override has, but for [__proto__]; among the keys
    that are no array index the order is that of the default followed
    by that of the override, and the array indices stay first and
    ascending, wherever the override names them. *)
Theorem deepMerge_key_order (base extra : JValue) :
  isObject base = true -> isObject extra = true ->
  distinct (keys (ownFields extra)) = true ->
  (ownKeyOrder (keys (ownFields base)) = true ->
   ownKeyOrder (keys (ownFields (deepMerge base extra))) = true)
  /\ namedKeys (keys (ownFields (deepMerge base extra)))
     = (namedKeys (keys (ownFields base))
        ++ namedKeys (addedKeys (ownFields base) (ownFields extra)))%list
  /\ (forall k, In k (keys (ownFields (deepMerge base extra)))
                <-> In k (keys (ownFields base))
                    \/ In k (addedKeys (ownFields base) (ownFields extra))).
Proof.
  intros Hb He Hd.
  rewrite (deepMerge_objects _ _ Hb He), ownFields_finish.
  exact (mergeEntries_keys (ownFields extra) (None, ownFields base)
           (or_introl eq_refl) Hd).
Qed.

Lemma deepMerge_key_order_witness :
  keys (ownFields (deepMerge (JObj [("b", JNum 1); ("a", JNum 2)])
                     (JObj [("c", JNum 3); ("1", JNum 5); ("a", JNum 4)])))
  = ["1"; "b"; "a"; "c"]
  /\ namedKeys (keys (ownFields
                        (deepMerge (JObj [("b", JNum 1); ("a", JNum 2)])
                           (JObj [("c", JNum 3); ("1", JNum 5); ("a", JNum 4)]))))
     = ["b"; "a"; "c"].
Proof.
  split; [reflexivity|].
  exact (proj1 (proj2 (deepMerge_key_order (JObj [("b", JNum 1); ("a", JNum 2)])
                         (JObj [("c", JNum 3); ("1", JNum 5); ("a", JNum 4)])
                         eq_refl eq_refl eq_refl))).
Defined.

End MergeProps.
(** ** Rounding to a double *)

Module DoubleProps.
Import Double.








End DoubleProps.
(** ** Tiers and estimates *)

Module EstimateProps.
Import JsString Double Packer Tiers ShapeSpec DoubleProps.

(** X8. Whatever the budget, the tiers tried are a tail of the four
    tiers that keeps their order and always holds the two leanest. *)
Theorem chooseModes_suffix (budget : Q) :
  exists skipped,
    allTiers = (skipped ++ chooseModes budget)%list
    /\ (List.length skipped <= 2)%nat
    /\ In "lite-compress" (chooseModes budget)
    /\ In "lite-compress-min" (chooseModes budget).
Proof.
  unfold chooseModes, allTiers.
  destruct (Qle_bool 45000 budget); [|destruct (Qle_bool 20000 budget)].
  - exists []. cbn. intuition lia.
  - exists ["full"]. cbn. intuition lia.
  - exists ["full"; "lite"]. cbn. intuition lia.
Qed.



(** The quotient is rounded before the ceiling is taken: 3 bytes at
    the double nearest to 0.3, which is below 0.3, are more than 10
    tokens, and the estimate is 10. *)
Lemma estimateTokensFromBytes_rounds :
  10 < inject_Z 3 / (5404319552844595 # 18014398509481984)
  /\ estimateTokensFromBytes 3 (Finite (5404319552844595 # 18014398509481984))
     = Finite 10.
Proof. split; reflexivity. Qed.

Lemma sumFileSizesFrom_shift (fs : Fs.FS) (paths : list string) :
  forall total, sumFileSizesFrom fs total paths = (total + sumFileSizes fs paths)%Z.
Proof.
  unfold sumFileSizes.
  induction paths as [|p rest IH]; intros total; cbn [sumFileSizesFrom]; [lia|].
  destruct (Fs.statSync fs p) as [st|]; [|apply IH].
  destruct (Fs.isFile st); [|apply IH].
  rewrite (IH (total + Fs.st_size st)%Z), (IH (0 + Fs.st_size st)%Z). lia.
Qed.

Lemma sumFileSizes_cons (fs : Fs.FS) (p : string) (paths : list string) :
  sumFileSizes fs (p :: paths) = (sizeOrZero fs p + sumFileSizes fs paths)%Z.
Proof.
  unfold sumFileSizes at 1, sizeOrZero. cbn [sumFileSizesFrom].
  destruct (Fs.statSync fs p) as [st|]; [|reflexivity].
  destruct (Fs.isFile st); [|reflexivity].
  now rewrite sumFileSizesFrom_shift.
Qed.

(** X10. The byte sum is the sum of what each path contributes, a
    missing path or a directory contributing nothing; so it does not
    depend on the order in which the files were discovered. *)
Theorem sumFileSizes_order (fs : Fs.FS) (paths paths' : list string) :
  Permutation paths paths' ->
  sumFileSizes fs paths = sumFileSizes fs paths'
  /\ sumFileSizes fs paths = fold_right Z.add 0%Z (map (sizeOrZero fs) paths).
Proof.
  intros Hperm. split.
  - induction Hperm as [|p l l' _ IH|p q l|l l' l'' _ IH1 _ IH2].
    + reflexivity.
    + now rewrite !sumFileSizes_cons, IH.
    + rewrite !sumFileSizes_cons. lia.
    + congruence.
  - clear. induction paths as [|p rest IH]; [reflexivity|].
    rewrite sumFileSizes_cons, IH. reflexivity.
Qed.

Lemma sumFileSizes_order_witness :
  sumFileSizes Scenarios.treeA ["/repo/src/a.txt"; "/repo/gone"; "/repo/src"]
  = sumFileSizes Scenarios.treeA ["/repo/src"; "/repo/src/a.txt"; "/repo/gone"]
  /\ sumFileSizes Scenarios.treeA ["/repo/src/a.txt"; "/repo/gone"; "/repo/src"]
     = 10%Z.
Proof.
  assert (Hperm : Permutation ["/repo/src/a.txt"; "/repo/gone"; "/repo/src"]
                              ["/repo/src"; "/repo/src/a.txt"; "/repo/gone"]).
  { apply Permutation_sym. change ["/repo/src"; "/repo/src/a.txt"; "/repo/gone"]
      with (["/repo/src"] ++ ["/repo/src/a.txt"; "/repo/gone"])%list.
    change ["/repo/src/a.txt"; "/repo/gone"; "/repo/src"]
      with (["/repo/src/a.txt"; "/repo/gone"] ++ ["/repo/src"])%list.
    apply Permutation_app_comm. }
  split; [|reflexivity].
  exact (proj1 (sumFileSizes_order Scenarios.treeA _ _ Hperm)).
Defined.

End EstimateProps.

(** ** What the packer does to contents and paths *)

Module PackProps.
Import JsString Packer PackerSpec XmlReader ShapeSpec StringProps XmlProps.

Lemma splitLines_blank (t : string) :
  allChars isSpace t = true ->
  Forall (fun l => allChars isSpace l = true) (splitLines t).
Proof.
  induction t as [|c t IH]; intros H; [repeat constructor|].
  cbn [allChars] in H. apply andb_true_iff in H as [Hc Ht].
  specialize (IH Ht). cbn [splitLines].
  destruct (Ascii.eqb c "010"%char); [constructor; [reflexivity | exact IH]|].
  destruct (Ascii.eqb c "013"%char && prefix (String "010"%char EmptyString) t);
    [exact IH|].
  destruct (splitLines t) as [|l ls].
  - constructor; [|constructor]. cbn [allChars]. now rewrite Hc.
  - inversion IH as [|? ? Hl Hls]; subst. constructor; [|exact Hls].
    cbn [allChars]. now rewrite Hc, Hl.
Qed.

(** X11. A text made of white space only (blanks, tabs, line breaks)
    packs to the empty string. *)
Theorem stripEmptyLines_blank (text : string) :
  allChars isSpace text = true -> stripEmptyLines text = EmptyString.
Proof.
  intros H. unfold stripEmptyLines.
  assert (Hnone : filter (fun l => negb (isEmpty (trim l))) (splitLines text) = []).
  { pose proof (splitLines_blank text H) as Hall.
    induction Hall as [|l ls Hl _ IH]; [reflexivity|].
    cbn [filter]. unfold trim at 1.
    now rewrite (NameProps.trimStart_blank l Hl). }
  now rewrite Hnone.
Qed.

Lemma stripEmptyLines_blank_witness :
  stripEmptyLines (" " ++ newline ++ newline ++ "  ") = EmptyString.
Proof. exact (stripEmptyLines_blank (" " ++ newline ++ newline ++ "  ") eq_refl). Defined.

Lemma length_append (a b : string) :
  String.length (a ++ b) = (String.length a + String.length b)%nat.
Proof. induction a as [|x a IH]; simpl; [reflexivity | now rewrite IH]. Qed.

Lemma length_join (parts : list string) :
  String.length (join newline parts) = (weight parts - 1)%nat.
Proof.
  unfold join. induction parts as [|x rest IH]; [reflexivity|].
  destruct rest as [|y rest].
  - cbn. lia.
  - change (String.concat newline (x :: y :: rest))
      with (x ++ newline ++ String.concat newline (y :: rest)).
    rewrite !length_append, IH. cbn [weight String.length newline]. lia.
Qed.

Lemma weight_filter (p : string -> bool) (parts : list string) :
  (weight (filter p parts) <= weight parts)%nat.
Proof.
  induction parts as [|x rest IH]; [reflexivity|].
  cbn [filter]. destruct (p x); cbn [weight]; lia.
Qed.

Lemma weight_splitLines (t : string) :
  (weight (splitLines t) <= S (String.length t))%nat.
Proof.
  induction t as [|c t IH]; [cbn; lia|].
  cbn [splitLines String.length].
  destruct (Ascii.eqb c "010"%char); [cbn [weight String.length]; lia|].
  destruct (Ascii.eqb c "013"%char && prefix (String "010"%char EmptyString) t);
    [lia|].
  destruct (splitLines t) as [|l ls]; cbn [weight String.length] in *; lia.
Qed.

(** X12. Stripping the empty lines never makes a text longer. *)
Theorem stripEmptyLines_length (text : string) :
  (String.length (stripEmptyLines text) <= String.length text)%nat.
Proof.
  unfold stripEmptyLines. rewrite length_join.
  pose proof (weight_filter (fun l => negb (isEmpty (trim l))) (splitLines text)).
  pose proof (weight_splitLines text). lia.
Qed.

Lemma escapeChar_attrSafe (c : ascii) : allChars isAttrSafe (escapeChar c) = true.
Proof.
  unfold escapeChar.
  destruct (Ascii.eqb c "&"%char); [reflexivity|].
  destruct (Ascii.eqb c "034"%char) eqn:E2; [reflexivity|].
  destruct (Ascii.eqb c "<"%char) eqn:E3; [reflexivity|].
  destruct (Ascii.eqb c ">"%char) eqn:E4; [reflexivity|].
  cbn [allChars]. unfold isAttrSafe. now rewrite E2, E3, E4.
Qed.

(** X13. An escaped path holds no double quote and no angle bracket,
    resolving its entities gives the path back, and so two different
    paths never escape to the same text. *)
Theorem escapeXmlAttr_faithful (s : string) :
  allChars isAttrSafe (escapeXmlAttr s) = true
  /\ decodeValue (escapeXmlAttr s) = Some s
  /\ forall s', escapeXmlAttr s = escapeXmlAttr s' -> s = s'.
Proof.
  split; [|split].
  - induction s as [|c s IH]; [reflexivity|].
    now rewrite escapeXmlAttr_cons, allChars_append, escapeChar_attrSafe, IH.
  - apply decodeValue_escapeXmlAttr.
  - intros s' Heq.
    pose proof (decodeValue_escapeXmlAttr s) as H1.
    pose proof (decodeValue_escapeXmlAttr s') as H2.
    rewrite Heq in H1. congruence.
Qed.

Lemma length_replaced (n : nat) :
  forall t,
    (String.length t <= n)%nat ->
    String.length (replaceAll "]]>" "]]]]><![CDATA[>" t)
    = (String.length t + 12 * occurrences "]]>" t)%nat.
Proof.
  induction n as [|n IH]; intros t Hlen.
  - destruct t; [reflexivity | simpl in Hlen; lia].
  - destruct t as [|c t']; [reflexivity|].
    destruct (prefix "]]>" (String c t')) eqn:Hp.
    + rewrite (replaceAll_match _ _ _ _ Hp).
      pose proof (prefix_split _ _ Hp) as Ht.
      cbn [String.length Nat.sub] in Ht |- *.
      change (slice 3 (String c t')) with (slice 2 t') in Ht.
      assert (Hl : String.length (String c t') = (3 + String.length (slice 2 t'))%nat).
      { rewrite Ht at 1. now rewrite length_append. }
      cbn [String.length] in Hl, Hlen.
      rewrite length_append, IH by lia.
      unfold occurrences at 2. cbn [countFrom]. rewrite Hp.
      cbn [String.length Nat.sub]. rewrite countFrom_skip.
      cbn [String.length]. lia.
    + rewrite (replaceAll_no_match _ _ _ _ Hp).
      cbn [String.length] in Hlen |- *. rewrite IH by lia.
      unfold occurrences. cbn [countFrom]. rewrite Hp. lia.
Qed.

(** X14. [cdata] adds the 12 code units of one opening and one closing
    delimiter, and 12 more for every [']]>'] in the text. *)
Theorem cdata_length (text : string) :
  String.length (cdata text)
  = (String.length text + 12 + 12 * occurrences "]]>" text)%nat.
Proof.
  unfold cdata. rewrite !length_append, (length_replaced _ text (le_n _)).
  cbn [String.length]. lia.
Qed.

Section WithHost.
Context {h : Host}.

Variables (fs : Fs.FS) (repoRoot : string) (maxFileBytes : Q) (strip : bool).

Lemma packFiles_totalChars (filePaths : list string) :
  forall totalChars entries totalChars' entries',
    packFiles fs repoRoot maxFileBytes strip filePaths totalChars entries
    = Some (totalChars', entries') ->
    totalChars'
    = (totalChars
       + sumLengths (map snd (packedFiles fs repoRoot maxFileBytes strip filePaths)))%Z.
Proof.
  induction filePaths as [|p rest IH]; intros tc es tc' es'.
  - intros [= <- <-]. cbn. lia.
  - cbn [packFiles packedFiles].
    destruct (safeReadText fs p maxFileBytes) as [| |raw]; [discriminate| |].
    + apply IH.
    + intros Hrest. apply IH in Hrest. rewrite Hrest.
      cbn [map snd sumLengths]. lia.
Qed.

Lemma packedFiles_length (filePaths : list string) :
  (List.length (packedFiles fs repoRoot maxFileBytes strip filePaths)
   <= List.length filePaths)%nat.
Proof.
  induction filePaths as [|p rest IH]; [reflexivity|].
  cbn [packedFiles]. destruct (safeReadText fs p maxFileBytes);
    cbn [List.length]; lia.
Qed.

Lemma sumLengths_nonneg (parts : list string) : (0 <= sumLengths parts)%Z.
Proof. induction parts as [|x rest IH]; cbn [sumLengths]; lia. Qed.

(** X15. The counters [buildXml] returns: [totalFiles] is the number of
    records written, at most the number of paths given, and [totalChars]
    is the length of the packed contents put together (after the empty
    lines are gone, before any escaping). *)
Theorem buildXml_counters (filePaths : list string) (built : Built) :
  buildXml fs repoRoot filePaths maxFileBytes strip = Some built ->
  totalFiles built
  = Z.of_nat (List.length (packedFiles fs repoRoot maxFileBytes strip filePaths))
  /\ (0 <= totalFiles built <= Z.of_nat (List.length filePaths))%Z
  /\ totalChars built
     = sumLengths (map snd (packedFiles fs repoRoot maxFileBytes strip filePaths))
  /\ (0 <= totalChars built)%Z.
Proof.
  unfold buildXml.
  destruct (packFiles fs repoRoot maxFileBytes strip filePaths 0 [])
    as [[tc entries]|] eqn:Hpack; [|discriminate].
  intros [= <-]. cbn [totalFiles totalChars].
  pose proof (packFiles_totalChars _ _ _ _ _ Hpack) as Htc.
  apply packFiles_entries in Hpack. cbn [app] in Hpack. subst entries.
  rewrite length_map.
  pose proof (packedFiles_length filePaths).
  pose proof (sumLengths_nonneg
                (map snd (packedFiles fs repoRoot maxFileBytes strip filePaths))).
  repeat split; lia.
Qed.

Lemma safeReadText_throws (p : string) :
  safeReadText fs p maxFileBytes = ReadThrows <-> Fs.statSync fs p = None.
Proof.
  unfold safeReadText, Fs.statSync, Fs.readFileSync.
  destruct (Fs.files fs p) as [f|].
  - cbn. destruct (Qle_bool (inject_Z (Fs.size f)) maxFileBytes);
      split; discriminate.
  - destruct (Fs.dirs fs p); cbn; split; (discriminate || reflexivity).
Qed.

Lemma packFiles_throws (filePaths : list string) :
  forall totalChars entries,
    packFiles fs repoRoot maxFileBytes strip filePaths totalChars entries = None
    <-> exists p, In p filePaths /\ Fs.statSync fs p = None.
Proof.
  induction filePaths as [|p rest IH]; intros tc es.
  - cbn. split; [discriminate | intros (p & [] & _)].
  - cbn [packFiles].
    destruct (safeReadText fs p maxFileBytes) as [| |raw] eqn:Hread.
    + split; [|reflexivity]. intros _. exists p. split; [now left|].
      now apply safeReadText_throws.
    + rewrite IH. split.
      * intros (q & Hq & Hst). exists q. split; [now right | exact Hst].
      * intros (q & [<-|Hq] & Hst); [|now exists q].
        apply safeReadText_throws in Hst. congruence.
    + rewrite IH. split.
      * intros (q & Hq & Hst). exists q. split; [now right | exact Hst].
      * intros (q & [<-|Hq] & Hst); [|now exists q].
        apply safeReadText_throws in Hst. congruence.
Qed.

(** X16. [buildXml] throws exactly when one of the paths it is given is
    not there any more; a directory or a file above the ceiling is
    passed over, a vanished path is not. *)
Theorem buildXml_throws (filePaths : list string) :
  buildXml fs repoRoot filePaths maxFileBytes strip = None
  <-> exists p, In p filePaths /\ Fs.statSync fs p = None.
Proof.
  rewrite <- (packFiles_throws filePaths 0 []). unfold buildXml.
  destruct (packFiles fs repoRoot maxFileBytes strip filePaths 0 [])
    as [[tc entries]|]; split; (discriminate || reflexivity).
Qed.

End WithHost.

Lemma buildXml_counters_witness :
  exists built,
    buildXml (h := Scenarios.host1) Scenarios.treeC "/repo"
      ["/repo/src"; "/repo/src/a.txt"] 1024 true = Some built
    /\ totalFiles built = 1%Z
    /\ totalChars built = 18%Z.
Proof.
  eexists. split; [reflexivity|].
  destruct (buildXml_counters (h := Scenarios.host1) Scenarios.treeC "/repo" 1024 true
              ["/repo/src"; "/repo/src/a.txt"] _ eq_refl)
    as (Hfiles & _ & Hchars & _).
  split; [rewrite Hfiles | rewrite Hchars]; reflexivity.
Defined.

End PackProps.

(** ** More on one invocation *)

Module RunProps.
Import Json JsString Double Config Model Preset Packer PackerSpec Tiers
       VscodeDetect FocusAuto FocusAutoSpec XmlReader FsProps FocusAutoProps.

Section WithHost.
Context {h : Host}.

(** The patterns, hence the files and the estimate, are the same for
    every tier. *)
Lemma tierEstimate_any_mode (fs : Fs.FS) (a : Args) (preset : JValue)
      (dir mode mode' : string) (cpt : Num) :
  tierEstimate fs a preset dir mode cpt = tierEstimate fs a preset dir mode' cpt.
Proof. reflexivity. Qed.


Variables (w : World) (fs0 : Fs.FS) (a : Args).

(** How an invocation that returns got there. *)
Lemma focusAuto_returned_inv (fs' : Fs.FS) (meta : JValue) :
  focusAuto w fs0 a = (fs', Returned meta) ->
  exists cfg dir fs1 detected budget,
    loadConfig (configFile w) = inr cfg
    /\ outputDir cfg = JStr dir
    /\ settle w fs0 a dir = Some (fs1, detected)
    /\ resolveBudget a (resolveModel w a detected) cfg = Some budget
    /\ fitLoop fs1 a cfg dir (path_join (repoRoot a) dir) (resolveModel w a detected)
         budget (resolvePreset fs1 a cfg) (chooseModes budget)
       = (fs', Returned meta).
Proof.
  unfold focusAuto.
  destruct (loadConfig (configFile w)) as [e|c] eqn:Hcfg; [discriminate|].
  destruct (outputDir c) as [| | |d| | | |] eqn:Hdir; try discriminate.
  destruct (settle w fs0 a d) as [[fs1 detected]|] eqn:Hsettle; [|discriminate].
  destruct (resolveBudget a (resolveModel w a detected) c) as [b|] eqn:Hb;
    [|discriminate].
  intros Hrun. exists c, d, fs1, detected, b. repeat split; assumption.
Qed.

(** X17. A fit is always a fit of the first tier tried: the record names
    the head of the tier list chosen for the budget, so it never names
    [lite-compress-min]. *)
Theorem focusAuto_first_tier (fs' : Fs.FS) (meta : JValue) :
  focusAuto w fs0 a = (fs', Returned meta) ->
  exists cfg dir fs1 detected budget,
    loadConfig (configFile w) = inr cfg
    /\ outputDir cfg = JStr dir
    /\ settle w fs0 a dir = Some (fs1, detected)
    /\ resolveBudget a (resolveModel w a detected) cfg = Some budget
    /\ prop meta "mode" = Some (JStr (hd EmptyString (chooseModes budget)))
    /\ prop meta "mode" <> Some (JStr "lite-compress-min").
Proof.
  intros Hrun.
  destruct (focusAuto_returned_inv _ _ Hrun)
    as (c & d & fs1 & detected & b & Hcfg & Hdir & Hsettle & Hb & Hloop).
  apply fitLoop_returned in Hloop
    as (tried & mode & later & cpt & filePaths & est & maxBytes & built & fs2
        & Hmodes & _ & Htried & _ & Hest & Hle & _ & _ & -> & _).
  exists c, d, fs1, detected, b.
  split; [exact Hcfg|]. split; [exact Hdir|]. split; [exact Hsettle|].
  split; [exact Hb|].
  assert (Hnone : tried = []).
  { destruct tried as [|m tried]; [reflexivity|]. exfalso.
    inversion Htried as [|? ? Hex _]; subst.
    rewrite (tierEstimate_any_mode _ _ _ _ m mode), Hest in Hex.
    cbn [exceeds] in Hex. congruence. }
  subst tried. cbn [app] in Hmodes. rewrite Hmodes. cbn [hd].
  split; [reflexivity|].
  cbn. intros [= ->]. revert Hmodes. unfold chooseModes.
  destruct (Qle_bool 45000 b); [discriminate|].
  destruct (Qle_bool 20000 b); discriminate.
Qed.

(** X18. One estimate decides the invocation: when the estimate of any
    single tier, tried or not, is one the comparison with the budget
    rejects, every tier fails and the budget error is thrown, on the
    tree the first statements left. *)
Theorem focusAuto_one_estimate (cfg : Config) (dir mode : string) (budget : Q)
        (cpt : Num) (fs1 : Fs.FS) (detected : option string) :
  loadConfig (configFile w) = inr cfg ->
  outputDir cfg = JStr dir ->
  settle w fs0 a dir = Some (fs1, detected) ->
  resolveBudget a (resolveModel w a detected) cfg = Some budget ->
  toNum (charsPerToken (tokenEstimator cfg)) = Some cpt ->
  exceeds (tierEstimate fs1 a (resolvePreset fs1 a cfg) dir mode cpt) budget ->
  focusAuto w fs0 a = (fs1, Threw (Error (budgetMessage budget))).
Proof.
  intros Hcfg Hdir Hsettle Hb Hcpt Hex.
  rewrite (focusAuto_settled _ _ _ _ _ _ _ Hcfg Hdir Hsettle), Hb.
  apply (fitLoop_exhausted _ _ _ _ _ _ _ _ cpt _ Hcpt).
  apply Forall_forall. intros m _.
  now rewrite (tierEstimate_any_mode _ _ _ _ m mode).
Qed.

(** X19. A positive [budgetTokens] given by the caller is the budget,
    whatever the model and the model policy: it is what a returned
    record holds and what the error message names. *)
Theorem focusAuto_explicit_budget (b : Q) (fs' : Fs.FS) :
  budgetTokens a = Some b ->
  0 < b ->
  (forall model cfg, resolveBudget a model cfg = Some b)
  /\ (forall meta, focusAuto w fs0 a = (fs', Returned meta) ->
                   prop meta "budgetTokens" = Some (JNum b))
  /\ (forall msg, focusAuto w fs0 a = (fs', Threw (Error msg)) ->
                  msg = budgetMessage b).
Proof.
  intros Hb Hpos.
  assert (Hres : forall model cfg, resolveBudget a model cfg = Some b).
  { intros model cfg. unfold resolveBudget. rewrite Hb.
    now rewrite (TiersProps.Qle_bool_false _ _ Hpos). }
  split; [exact Hres|]. split.
  - intros meta Hrun.
    destruct (focusAuto_returned_inv _ _ Hrun)
      as (c & d & fs1 & detected & b' & _ & _ & _ & Hb' & Hloop).
    rewrite Hres in Hb'. injection Hb' as <-.
    apply fitLoop_returned in Hloop
      as (_ & mode & _ & _ & _ & est & _ & built & _
          & _ & _ & _ & _ & _ & _ & _ & _ & -> & _).
    reflexivity.
  - intros msg Hrun.
    destruct (focusAuto_error_inv _ _ _ _ _ Hrun)
      as (c & d & detected & b' & _ & _ & _ & Hb' & ->).
    rewrite Hres in Hb'. now injection Hb' as <-.
Qed.

(** X20. The model an invocation settles on is never empty, and it is
    the normalised [modelId], a normalised environment variable, the
    model detected in the editor's state, or [gpt-4.1]. *)
Theorem resolveModel_sources (detected : option string) :
  isEmpty (resolveModel w a detected) = false
  /\ (resolveModel w a detected = normalizeModelName (modelId a)
      \/ resolveModel w a detected = normalizeModelName (COPILOT_MODEL w)
      \/ resolveModel w a detected = normalizeModelName (VSCODE_COPILOT_MODEL w)
      \/ resolveModel w a detected = normalizeModelName (LM_MODEL w)
      \/ Some (resolveModel w a detected) = detected
      \/ resolveModel w a detected = "gpt-4.1").
Proof.
  unfold resolveModel. cbn [orString].
  destruct (isEmpty (normalizeModelName (modelId a))) eqn:E1;
    [|cbn [orElse]; split; [exact E1 | now left]].
  set (env := orString (COPILOT_MODEL w)
                (orString (VSCODE_COPILOT_MODEL w) (LM_MODEL w))).
  assert (Henv : env = COPILOT_MODEL w \/ env = VSCODE_COPILOT_MODEL w
                 \/ env = LM_MODEL w).
  { unfold env, orString.
    destruct (COPILOT_MODEL w) as [s|]; [destruct (isEmpty s); [|now left]|];
      (destruct (VSCODE_COPILOT_MODEL w) as [s'|];
       [destruct (isEmpty s'); [|now (right; left)]|]); now (right; right). }
  destruct (isEmpty (normalizeModelName env)) eqn:E2.
  - destruct detected as [d|]; cbn [orString orElse isEmpty].
    + destruct (isEmpty d) eqn:E3; cbn [orElse].
      * split; [reflexivity | now (do 5 right)].
      * split; [exact E3 | now (do 4 right; left)].
    + split; [reflexivity | now (do 5 right)].
  - cbn [orElse]. split; [exact E2|].
    destruct Henv as [-> | [-> | ->]]; [now (right; left) | now (do 2 right; left)
                                        | now (do 3 right; left)].
Qed.

(** X21. An environment variable that is set but blank still shadows
    the ones after it: with [COPILOT_MODEL] holding white space only and
    no [modelId], neither [VSCODE_COPILOT_MODEL] nor [LM_MODEL] is
    consulted, and the model is the detected one or [gpt-4.1]. *)
Theorem resolveModel_blank_shadows (s : string) (detected : option string) :
  modelId a = None ->
  COPILOT_MODEL w = Some s ->
  isEmpty s = false ->
  allChars isSpace s = true ->
  resolveModel w a detected = orElse (orString detected None) "gpt-4.1".
Proof.
  intros Hid Henv Hne Hblank.
  unfold resolveModel. rewrite Hid, Henv. cbn [orString]. rewrite Hne.
  assert (Hnorm : normalizeModelName (Some s) = EmptyString).
  { unfold normalizeModelName, trim. now rewrite (NameProps.trimStart_blank _ Hblank). }
  rewrite Hnorm.
  change (normalizeModelName None) with EmptyString. cbn [isEmpty].
  destruct detected as [d|]; [|reflexivity].
  cbn [orString]. now destruct (isEmpty d).
Qed.

(** X22. The only regular files an invocation changes are the
    snapshots of the model detection and its two outputs, the outputs
    only when it returns or when [writeFileSync] throws; no outcome
    removes a directory. *)
Theorem focusAuto_frame (fs' : Fs.FS) (o : Outcome) (p : string) :
  focusAuto w fs0 a = (fs', o) ->
  (Fs.dirs fs0 p = true -> Fs.dirs fs' p = true)
  /\ (Fs.files fs' p = Fs.files fs0 p
      \/ isSnapshot w p
      \/ exists cfg dir,
           loadConfig (configFile w) = inr cfg
           /\ outputDir cfg = JStr dir
           /\ ((exists meta, o = Returned meta) \/ o = Threw WriteError)
           /\ (p = path_join (path_join (repoRoot a) dir) "active_context.xml"
               \/ p = path_join (path_join (repoRoot a) dir)
                        "active_context.meta.json")).
Proof.
  unfold focusAuto.
  destruct (loadConfig (configFile w)) as [e|c] eqn:Hcfg;
    [intros [= <- <-]; split; auto|].
  destruct (outputDir c) as [| | |d| | | |] eqn:Hdir;
    try (intros [= <- <-]; split; auto).
  destruct (settle w fs0 a d) as [[fs1 detected]|] eqn:Hsettle;
    [|intros [= <- <-]; split; auto].
  destruct (settle_tree _ _ _ _ _ _ Hsettle) as (_ & Hkeeps & _).
  pose proof (settle_changed _ _ _ _ _ _ p Hsettle) as Hfiles.
  destruct (resolveBudget a (resolveModel w a detected) c) as [b|];
    [|intros [= <- <-]; split; [apply Hkeeps | tauto]].
  intros Hrun.
  assert (Hdirs : Fs.dirs fs' p = Fs.dirs fs1 p).
  { rewrite <- (fitLoop_dirs a c d (path_join (repoRoot a) d)
                  (resolveModel w a detected) b (resolvePreset fs1 a c) fs1
                  (chooseModes b) p).
    now rewrite Hrun. }
  split; [intros Hp; rewrite Hdirs; now apply Hkeeps|].
  destruct (String.eqb p (path_join (path_join (repoRoot a) d) "active_context.xml"))
    eqn:E1;
    [|destruct (String.eqb p (path_join (path_join (repoRoot a) d)
                                "active_context.meta.json")) eqn:E2].
  3: { apply String.eqb_neq in E1, E2.
       pose proof (fitLoop_other a c d (path_join (repoRoot a) d)
                     (resolveModel w a detected) b (resolvePreset fs1 a c) fs1
                     (chooseModes b) p E1 E2) as Hsame.
       rewrite Hrun in Hsame. cbn [fst] in Hsame.
       rewrite (files_of_nodes _ _ _ Hsame). tauto. }
  all: destruct (fitLoop_frame a c d (path_join (repoRoot a) d)
                   (resolveModel w a detected) b (resolvePreset fs1 a c) fs1
                   (chooseModes b))
         as [[meta Hsnd] | [Hsnd | Hfst]];
    rewrite Hrun in *; cbn [fst snd] in *;
    try (subst fs'; tauto);
    right; right; exists c, d;
    (split; [first [reflexivity | exact Hcfg]|]);
    (split; [first [reflexivity | exact Hdir]|]);
    (split; [first [left; now exists meta | now right]|]);
    first [left; now apply String.eqb_eq | right; now apply String.eqb_eq].
Qed.


End WithHost.

Lemma focusAuto_first_tier_witness :
  focusAuto (h := Scenarios.host1) bareWorld Scenarios.treeA (Scenarios.invoke 7)
  = (fst (focusAuto (h := Scenarios.host1) bareWorld Scenarios.treeA
            (Scenarios.invoke 7)), Returned Scenarios.metaA)
  /\ prop Scenarios.metaA "mode" <> Some (JStr "lite-compress-min").
Proof.
  split; [reflexivity|].
  destruct (focusAuto_first_tier (h := Scenarios.host1) bareWorld Scenarios.treeA
              (Scenarios.invoke 7) _ Scenarios.metaA eq_refl)
    as (_ & _ & _ & _ & _ & _ & _ & _ & _ & _ & H).
  exact H.
Defined.

(** On the 10-byte repository every tier is estimated at 3 tokens; with
    a budget of 1 the estimate of [full], a tier that is not tried,
    settles the outcome. *)
Lemma focusAuto_one_estimate_witness :
  exceeds (tierEstimate (h := Scenarios.host1) (Scenarios.madeTree Scenarios.treeA)
             (Scenarios.invoke 1) (JStr "generic") ".context-slicer" "full"
             (Finite 4)) 1
  /\ snd (focusAuto (h := Scenarios.host1) bareWorld Scenarios.treeA
            (Scenarios.invoke 1))
     = Threw (Error "Unable to generate slice within budget=1 tokens").
Proof.
  assert (Hex : exceeds (tierEstimate (h := Scenarios.host1)
                           (Scenarios.madeTree Scenarios.treeA)
                           (Scenarios.invoke 1) (JStr "generic")
                           ".context-slicer" "full" (Finite 4)) 1) by reflexivity.
  split; [exact Hex|].
  rewrite (focusAuto_one_estimate (h := Scenarios.host1) bareWorld Scenarios.treeA
             (Scenarios.invoke 1) Scenarios.defaults ".context-slicer" "full" 1
             (Finite 4) (Scenarios.madeTree Scenarios.treeA) None
             eq_refl eq_refl eq_refl eq_refl eq_refl Hex).
  reflexivity.
Defined.

Lemma focusAuto_explicit_budget_witness :
  0 < 7
  /\ prop Scenarios.metaA "budgetTokens" = Some (JNum 7).
Proof.
  split; [reflexivity|].
  exact (proj1 (proj2 (focusAuto_explicit_budget (h := Scenarios.host1) bareWorld
                         Scenarios.treeA (Scenarios.invoke 7) 7
                         (fst (focusAuto (h := Scenarios.host1) bareWorld
                                 Scenarios.treeA (Scenarios.invoke 7)))
                         eq_refl eq_refl))
           Scenarios.metaA eq_refl).
Defined.

Lemma resolveModel_blank_shadows_witness :
  VSCODE_COPILOT_MODEL Scenarios.blankEnvWorld = Some "gpt-5"
  /\ resolveModel Scenarios.blankEnvWorld Scenarios.invokeDefault None = "gpt-4.1".
Proof.
  split; [reflexivity|].
  exact (resolveModel_blank_shadows Scenarios.blankEnvWorld Scenarios.invokeDefault
           " " None eq_refl eq_refl eq_refl eq_refl).
Defined.

(** A failed invocation on a machine where the detection runs leaves
    the outputs of an earlier run as they were. *)
Lemma focusAuto_frame_witness :
  Fs.files (fst (focusAuto (h := Scenarios.host1) Scenarios.watchedWorld
                   Scenarios.treeWatched (Scenarios.invoke 1)))
    "/repo/.context-slicer/active_context.xml"
  = Fs.files Scenarios.treeWatched "/repo/.context-slicer/active_context.xml".
Proof.
  destruct (focusAuto_frame (h := Scenarios.host1) Scenarios.watchedWorld
              Scenarios.treeWatched (Scenarios.invoke 1) _ _
              "/repo/.context-slicer/active_context.xml" eq_refl)
    as (_ & [H | [H | (cfg & dir & _ & _ & [[meta H] | H] & _)]]);
    [exact H | | discriminate H | discriminate H].
  exfalso.
  exact (not_a_snapshot Scenarios.watchedWorld
           "/repo/.context-slicer/active_context.xml" (or_intror eq_refl) eq_refl H).
Defined.


End RunProps.
(** ** Loading the configuration *)

Module LoadProps.
Import Json Double Config ConfigSpec FocusAuto FocusAutoSpec FocusAutoProps Packer.

Lemma getOwn_skip (k' k : string) (v : JValue) (before after : list (string * JValue)) :
  String.eqb k' k = false ->
  getOwn k' (before ++ (k, v) :: after)%list = getOwn k' (before ++ after)%list.
Proof.
  intros E. induction before as [|[k0 v0] r IH]; cbn [app getOwn].
  - now rewrite E.
  - now destruct (String.eqb k' k0).
Qed.

(** X24. A field of the configuration file that [loadConfig] does not
    read changes nothing, wherever it stands in the document. *)
Theorem loadConfig_ignores_unknown (before after : list (string * JValue))
        (k : string) (v : JValue) :
  existsb (String.eqb k) knownFields = false ->
  loadConfig (Parsed (JObj (before ++ (k, v) :: after)%list))
  = loadConfig (Parsed (JObj (before ++ after)%list)).
Proof.
  intros H.
  assert (Hk : forall f, In f knownFields -> String.eqb f k = false).
  { intros f Hf. rewrite String.eqb_sym.
    destruct (String.eqb k f) eqn:E; [|reflexivity]. exfalso.
    assert (existsb (String.eqb k) knownFields = true)
      by (apply existsb_exists; exists f; auto).
    congruence. }
  unfold loadConfig, configOf, prop. cbn [getProperty].
  rewrite !getOwn_skip by (apply Hk; cbn; auto 6).
  reflexivity.
Qed.

(** X25. A configuration file whose document is not an object -- a
    number, a string, a boolean, an array -- loads as if there were no
    file; only [null] is rejected. *)
Theorem loadConfig_non_object (user : JValue) :
  isObject user = false ->
  user <> JNull ->
  loadConfig (Parsed user) = loadConfig NoConfigFile.
Proof.
  intros Hobj Hnull.
  destruct user as [| | | |items| | |]; try reflexivity;
    try contradiction; try discriminate.
Qed.

Lemma loadConfig_ignores_unknown_witness :
  loadConfig (Parsed Scenarios.annotated)
  = loadConfig (Parsed (JObj [("preset", JStr "generic"); ("outputDir", JStr "out")])).
Proof.
  exact (loadConfig_ignores_unknown [("preset", JStr "generic")]
           [("outputDir", JStr "out")] "comment" (JStr "local") eq_refl).
Defined.

Lemma loadConfig_non_object_witness :
  loadConfig (Parsed (JArr [JNum 42])) = inr Scenarios.defaults.
Proof.
  refine (loadConfig_non_object (JArr [JNum 42]) eq_refl _). discriminate.
Defined.

Section WithHost.
Context {h : Host}.




(** X27. Where there is no [.gitignore], or an empty one, and the
    [ignore] package with no pattern added accepts and keeps each path
    the glob reports, [listFiles] returns every one of them, joined to
    the root, in the glob's order. *)
Theorem listFiles_without_gitignore (fs : Fs.FS) (repoRoot : string)
        (include : list string) :
  (forall rel,
     In rel (fast_glob fs repoRoot include DEFAULT_IGNORE) ->
     ignore_ignores [] (relPath repoRoot (path_join repoRoot rel)) = Some false) ->
  loadGitignore fs repoRoot = None
  \/ loadGitignore fs repoRoot = Some EmptyString ->
  listFiles fs repoRoot include
  = Some (map (path_join repoRoot) (fast_glob fs repoRoot include DEFAULT_IGNORE)).
Proof.
  intros Hnone Hfile. unfold listFiles, createGitignoreFilter.
  assert (Hadded : addedPatterns fs repoRoot = []).
  { unfold addedPatterns. now destruct Hfile as [-> | ->]. }
  rewrite Hadded.
  induction (fast_glob fs repoRoot include DEFAULT_IGNORE) as [|rel rest IH];
    [reflexivity|].
  cbn [map filterThrowing]. rewrite (Hnone rel (or_introl eq_refl)).
  rewrite IH; [reflexivity|].
  intros rel' Hin. apply Hnone. now right.
Qed.

End WithHost.


(** A [charsPerToken] of negative zero, which [JSON.parse] makes of
    [-0], gives an estimate of minus infinity, and that fits. *)
Lemma negative_zero_rate_fits :
  exists meta,
    snd (focusAuto (h := Scenarios.host1)
           (worldWith (Parsed (JObj [("tokenEstimator",
                                      JObj [("charsPerToken", JSpecial NegZero)])])))
           Scenarios.treeA (Scenarios.invoke 7))
    = Returned meta
    /\ prop meta "totalTokens" = Some (JSpecial NegInfinity).
Proof. eexists. split; reflexivity. Qed.

Lemma listFiles_without_gitignore_witness :
  listFiles (h := Scenarios.host1) Scenarios.treeA "/repo" ["src/**"]
  = Some ["/repo/src/a.txt"].
Proof.
  rewrite (listFiles_without_gitignore (h := Scenarios.host1) Scenarios.treeA "/repo"
             ["src/**"]).
  - reflexivity.
  - intros rel [<- | []]. reflexivity.
  - left. reflexivity.
Defined.

(** A target outside the repository: the glob reports a path that
    begins with [../], [ignores] throws on it, and [listFiles], hence
    [focusAuto], is rejected, the output directory made. *)
Lemma outside_target_is_rejected :
  listFiles (h := Scenarios.hostOutside) Scenarios.treeOutside "/repo" ["../outer/**"]
  = None
  /\ snd (focusAuto (h := Scenarios.hostOutside) bareWorld Scenarios.treeOutside
            Scenarios.invokeOutside)
     = Threw IgnoreError
  /\ Fs.dirs (fst (focusAuto (h := Scenarios.hostOutside) bareWorld
                     Scenarios.treeOutside Scenarios.invokeOutside))
       "/repo/.context-slicer" = true.
Proof. repeat split; reflexivity. Qed.

End LoadProps.
(** ** The entry points *)

Module EntryProps.
Import Json JsString Double Config Model Preset Packer Tiers FocusAuto FocusAutoSpec
       FsProps FocusAutoProps Process.

(** The budget and the first tier under the built-in policy. *)
Lemma default_tier (model : string) :
  exists b,
    budgetForModel model DEFAULT_MODEL_CONTEXTS = Some b
    /\ ((b = 16000 /\ chooseModes b = ["lite-compress"; "lite-compress-min"])
        \/ (b = 32000 /\ chooseModes b = ["lite"; "lite-compress"; "lite-compress-min"])
        \/ (b = 60000
            /\ chooseModes b = ["full"; "lite"; "lite-compress"; "lite-compress-min"])).
Proof.
  unfold budgetForModel, windowTokens.
  change (orElse (optProp (optProp (prop DEFAULT_MODEL_CONTEXTS "models") "gpt-4.1")
                    "contextWindowTokens") (JNum 64000))
    with (JNum 64000).
  destruct (KeyProps.builtin_window (resolveModelKey model DEFAULT_MODEL_CONTEXTS))
    as [-> | [-> | ->]]; eexists; (split; [reflexivity|]).
  - left. split; reflexivity.
  - right; left. split; reflexivity.
  - right; right. split; reflexivity.
Qed.

Section WithHost.
Context {h : Host}.

(** What a return of [focusAuto] tells. *)
Lemma focusAuto_returned (w : World) (fs : Fs.FS) (a : Args)
      (fs' : Fs.FS) (meta : JValue) :
  focusAuto w fs a = (fs', Returned meta) ->
  exists cfg dir fs1 detected b mode later est built,
    loadConfig (configFile w) = inr cfg
    /\ outputDir cfg = JStr dir
    /\ settle w fs a dir = Some (fs1, detected)
    /\ resolveBudget a (resolveModel w a detected) cfg = Some b
    /\ chooseModes b = mode :: later
    /\ meta = SliceMetadata (repoRoot a) (resolvePreset fs1 a cfg)
                (target a) (resolveModel w a detected) b mode est built
    /\ Fs.readFileSync fs'
         (path_join (path_join (repoRoot a) dir) "active_context.meta.json")
       = Some (JSON_stringify meta).
Proof.
  intros Hrun.
  destruct (RunProps.focusAuto_returned_inv _ _ _ _ _ Hrun)
    as (c & d & fs1 & detected & b & Hcfg & Hdir & Hsettle & Hb & Hloop).
  apply fitLoop_returned in Hloop
    as (tried & mode & later & cpt & filePaths & est & maxBytes & built & fs2
        & Hmodes & _ & Htried & _ & Hest & Hle & _ & _ & Hmeta & _ & Hwrite).
  assert (Hnone : tried = []).
  { destruct tried as [|m tried]; [reflexivity|]. exfalso.
    inversion Htried as [|? ? Hex _]; subst.
    rewrite (RunProps.tierEstimate_any_mode _ _ _ _ m mode), Hest in Hex.
    cbn [exceeds] in Hex. congruence. }
  subst tried. cbn [app] in Hmodes.
  exists c, d, fs1, detected, b, mode, later, est, built.
  repeat (split; [assumption|]).
  apply (writeFileSync_read _ _ _ _ Hwrite).
Qed.

Variables (w : World) (fs : Fs.FS) (cwd : string) (argv : list string).

Lemma cli_success (fs' : Fs.FS) (r : Exit) :
  strictEq (nth_error argv 0) "focus-auto" = true ->
  Cli.main w fs cwd argv = (fs', Some r) ->
  status r = 0%Z ->
  exists t meta,
    nth_error argv 1 = Some t
    /\ focusAuto w fs {| repoRoot := cwd; target := t;
                         modelId := nth_error argv 2; budgetTokens := None |}
       = (fs', Returned meta)
    /\ r = {| stdout := [JSON_stringify meta]; stderr := []; status := 0 |}.
Proof.
  intros Hcmd. unfold Cli.main.
  destruct (nth_error argv 0) as [c|]; [|discriminate].
  cbn [strictEq] in Hcmd. apply String.eqb_eq in Hcmd. subst c.
  change (falsy (Some "focus-auto") || strictEq (Some "focus-auto") "-h"
          || strictEq (Some "focus-auto") "--help") with false.
  change (negb (strictEq (Some "focus-auto") "focus-auto")) with false.
  cbv iota.
  destruct (nth_error argv 1) as [t|]; [|intros [= _ <-]; discriminate].
  destruct (isEmpty t); [intros [= _ <-]; discriminate|].
  destruct (focusAuto w fs _) as [fs1 [meta|e|]] eqn:Hrun.
  - intros [= <- <-] _. now exists t, meta.
  - intros [= _ <-]. discriminate.
  - discriminate.
Qed.

(** X28. When [cli.js] runs [focus-auto] and exits with 0, what it
    printed is what the metadata file holds, and nothing went to the
    error stream. *)
Theorem cli_prints_meta_file (fs' : Fs.FS) (r : Exit) :
  strictEq (nth_error argv 0) "focus-auto" = true ->
  Cli.main w fs cwd argv = (fs', Some r) ->
  status r = 0%Z ->
  exists cfg dir text,
    loadConfig (configFile w) = inr cfg
    /\ outputDir cfg = JStr dir
    /\ stdout r = [text]
    /\ stderr r = []
    /\ Fs.readFileSync fs'
         (path_join (path_join cwd dir) "active_context.meta.json")
       = Some text.
Proof.
  intros Hcmd Hmain Hok.
  destruct (cli_success _ _ Hcmd Hmain Hok) as (t & meta & _ & Hrun & ->).
  apply focusAuto_returned in Hrun
    as (cfg & dir & fs1 & detected & b & mode & later & est & built
        & Hcfg & Hdir & _ & _ & _ & _ & Hread).
  exists cfg, dir, (JSON_stringify meta). repeat split; assumption.
Qed.

(** X29. [cli.js] never passes a budget, so without a configuration
    file the record it prints pairs a budget of 16000 with the tier
    [lite-compress], 32000 with [lite], or 60000 with [full]. *)
Theorem cli_default_budget (fs' : Fs.FS) (r : Exit) :
  configFile w = NoConfigFile ->
  strictEq (nth_error argv 0) "focus-auto" = true ->
  Cli.main w fs cwd argv = (fs', Some r) ->
  status r = 0%Z ->
  exists meta,
    stdout r = [JSON_stringify meta]
    /\ ((prop meta "budgetTokens" = Some (JNum 16000)
         /\ prop meta "mode" = Some (JStr "lite-compress"))
        \/ (prop meta "budgetTokens" = Some (JNum 32000)
            /\ prop meta "mode" = Some (JStr "lite"))
        \/ (prop meta "budgetTokens" = Some (JNum 60000)
            /\ prop meta "mode" = Some (JStr "full"))).
Proof.
  intros Hnone Hcmd Hmain Hok.
  destruct (cli_success _ _ Hcmd Hmain Hok) as (t & meta & _ & Hrun & ->).
  apply focusAuto_returned in Hrun
    as (cfg & dir & fs1 & detected & b & mode & later & est & built
        & Hcfg & _ & _ & Hb & Hmodes & Hmeta & _).
  exists meta. split; [reflexivity|].
  rewrite Hnone in Hcfg. cbn [loadConfig] in Hcfg. injection Hcfg as <-.
  unfold resolveBudget in Hb. cbn [budgetTokens] in Hb.
  change (modelContexts (configOf (JObj []))) with DEFAULT_MODEL_CONTEXTS in Hb.
  destruct (default_tier
              (resolveModel w {| repoRoot := cwd; target := t;
                                 modelId := nth_error argv 2;
                                 budgetTokens := None |} detected))
    as (b' & Hb' & Hcases).
  rewrite Hb in Hb'. injection Hb' as <-.
  subst meta.
  destruct Hcases as [[-> Hm] | [[-> Hm] | [-> Hm]]];
    rewrite Hm in Hmodes; injection Hmodes as <- _;
    [left | right; left | right; right]; split; reflexivity.
Qed.

(** X30. On [focus-auto] with a target the packaged entry point
    [sea_main.js] and [cli.js] do the same: the same files written,
    the same standard output, the same exit code, and on a success
    the very same exit.  When [focusAuto] throws, each prints the
    stack of the same exception, whose frames name the entry point
    that ran: the texts differ. *)
Theorem entry_points_agree (t : string) :
  nth_error argv 0 = Some "focus-auto" ->
  nth_error argv 1 = Some t ->
  isEmpty t = false ->
  fst (SeaMain.main w fs cwd argv) = fst (Cli.main w fs cwd argv)
  /\ option_map stdout (snd (SeaMain.main w fs cwd argv))
     = option_map stdout (snd (Cli.main w fs cwd argv))
  /\ option_map status (snd (SeaMain.main w fs cwd argv))
     = option_map status (snd (Cli.main w fs cwd argv))
  /\ option_map (fun r => map reported (stderr r)) (snd (SeaMain.main w fs cwd argv))
     = option_map (fun r => map reported (stderr r)) (snd (Cli.main w fs cwd argv))
  /\ (forall r, snd (Cli.main w fs cwd argv) = Some r -> status r = 0%Z ->
                SeaMain.main w fs cwd argv = Cli.main w fs cwd argv)
  /\ (forall e,
        snd (focusAuto w fs {| repoRoot := cwd; target := t;
                               modelId := nth_error argv 2; budgetTokens := None |})
        = Threw e ->
        option_map stderr (snd (SeaMain.main w fs cwd argv))
        = Some [Stack "sea_main.js" e]
        /\ option_map stderr (snd (Cli.main w fs cwd argv))
           = Some [Stack "cli.js" e]).
Proof.
  intros Hcmd Ht Hne. unfold SeaMain.main, Cli.main.
  rewrite Hcmd, Ht, Hne.
  change (falsy (Some "focus-auto") || strictEq (Some "focus-auto") "-h"
          || strictEq (Some "focus-auto") "--help") with false.
  change (strictEq (Some "focus-auto") "--version"
          || strictEq (Some "focus-auto") "-v") with false.
  change (strictEq (Some "focus-auto") "mcp") with false.
  change (strictEq (Some "focus-auto") "focus-auto") with true.
  cbv iota. cbn [negb].
  destruct (focusAuto w fs _) as [fs1 [meta|e|]]; cbn;
    repeat split; try reflexivity; try discriminate;
    try (intros r [= <-]; discriminate);
    try (now intros e' [= <-]);
    match goal with H : Threw _ = Threw _ |- _ => now injection H as -> end.
Qed.

End WithHost.

Lemma cli_prints_meta_file_witness :
  exists cfg dir text,
    loadConfig NoConfigFile = inr cfg
    /\ outputDir cfg = JStr dir
    /\ stdout Scenarios.cliExit = [text]
    /\ stderr Scenarios.cliExit = []
    /\ Fs.readFileSync (fst Scenarios.cliRun)
         (path_join (Host := Scenarios.host1)
            (path_join (Host := Scenarios.host1) "/repo" dir)
            "active_context.meta.json")
       = Some text.
Proof.
  exact (cli_prints_meta_file (h := Scenarios.host1) bareWorld Scenarios.treeA
           "/repo" ["focus-auto"; "src"] (fst Scenarios.cliRun) Scenarios.cliExit
           eq_refl eq_refl eq_refl).
Defined.

Lemma cli_default_budget_witness :
  snd Scenarios.cliRun = Some Scenarios.cliExit
  /\ prop Scenarios.metaDefault "budgetTokens" = Some (JNum 16000)
  /\ prop Scenarios.metaDefault "mode" = Some (JStr "lite-compress").
Proof.
  split; [reflexivity|].
  destruct (cli_default_budget (h := Scenarios.host1) bareWorld Scenarios.treeA
              "/repo" ["focus-auto"; "src"] (fst Scenarios.cliRun) Scenarios.cliExit
              eq_refl eq_refl eq_refl eq_refl)
    as (meta & _ & _).
  split; reflexivity.
Defined.

Lemma entry_points_agree_witness :
  SeaMain.main (h := Scenarios.host1) bareWorld Scenarios.treeA "/repo"
    ["focus-auto"; "src"]
  = Scenarios.cliRun.
Proof.
  exact (proj1 (proj2 (proj2 (proj2 (proj2
           (entry_points_agree (h := Scenarios.host1) bareWorld Scenarios.treeA
              "/repo" ["focus-auto"; "src"] "src" eq_refl eq_refl eq_refl)))))
           Scenarios.cliExit eq_refl eq_refl).
Defined.

(** With a budget the repository does not fit, the two entry points
    print stacks that name different programs. *)
Lemma entry_points_differ_on_error :
  option_map stderr
    (snd (SeaMain.main (h := Scenarios.host1) bareWorld Scenarios.treeHuge "/repo"
            ["focus-auto"; "src"]))
  = Some [Stack "sea_main.js"
            (Error "Unable to generate slice within budget=16000 tokens")]
  /\ option_map stderr
       (snd (Cli.main (h := Scenarios.host1) bareWorld Scenarios.treeHuge "/repo"
               ["focus-auto"; "src"]))
     = Some [Stack "cli.js"
               (Error "Unable to generate slice within budget=16000 tokens")].
Proof. split; reflexivity. Qed.

End EntryProps.
